(* ===== verification/_CoqProject ===== *)
-Q . S2P
Prelude.v
Double.v
Classify.v
Metrics.v
Config.v
Printf.v
Runtime.v
HostInit.v
Sampling.v
LoopSem.v
Main.v
Blas.v
WorldInv.v
Report.v
