(* ===== verification/Prelude.v ===== *)
(** * A verification development of the multi-GPU GEMM benchmark (monitor)

  The program ([src/v20/dmxperf/src/cpp/multi_gpu_gemm.cpp]) is one C++
  [main] that measures the sustained throughput of a single-precision
  matrix multiply spread by cuBLASXt over every CUDA device, and labels
  the run I/O (bus) bound or compute bound.  Its parts, in the order the
  code runs them, and the file and Module modelling each:

  - argument parsing, lines 35-38 ([Config.v], Module [Config]):
    [parse_args] is lines 35-38; [atoi] is the C library's (white space,
    sign, digits, saturation at the [long] range, truncation to [int]).
  - the runtime (the CUDA runtime, cuBLASXt, [gettimeofday], [printf]) and
    the fatal-check macros, lines 12-32 ([Runtime.v], Module [Runtime]).
    The record [env] answers each library call with its status, indexed
    by the call's position in the run, and gives the clock readings; the
    record [world] is the process state: the environment, the call and
    clock cursors, the pinned allocations and their contents (stdpp
    [gmap]s) and the trace of observable events.  Each library function
    is a definition of the same name; [CHECK_CUDA] and [CHECK_CUBLAS]
    print the failing status with the line of the check and [exit(-1)].
  - the host buffers, lines 52-61 ([HostInit.v], Module [HostInit]):
    [size_bytes] in 64-bit [size_t] arithmetic, the bounds-checked
    [store], and the OpenMP loop [host_init] run in the order a schedule
    gives.
  - the warm-up and the time-boxed sampling loop, lines 63-75
    ([Sampling.v], Module [Sampling]): [warmup], [loop_body], the
    fuel-indexed [sample_loop] and [sampling]; Section [Spec] states what
    the loop does in terms of clock readings ([check_passes], [interval],
    [loop_post]).  [LoopSem.v] (Module [LoopSem]) gives the same loop a
    big-step semantics, the inductive [loop_exec] with one rule for the
    failed deadline test, one for a round and one for a round that exits.
  - the metrics, lines 77-88 ([Metrics.v], Module [Metrics]:
    [compute_stats]) and the diagnosis, lines 107-112 ([Classify.v],
    Module [Classifier]: [diagnose]).
  - [main] itself, lines 34-118 ([Main.v], Module [Main]): [setup]
    (lines 40-61), [print_report] (lines 77-113), [teardown] (lines
    115-117) and their composition [main].  [WorldInv.v] (Module
    [WorldInv]) describes how a run stops early: the exit of a check
    macro ([failed_check]) and the absence of cleanup before [teardown]
    ([pristine]).
  - the multiply the code asks of cuBLASXt, lines 65 and 72 ([Blas.v],
    Module [Blas]): the library's documented dimension check
    ([sgemm_valid]) and the column-major footprint of its operands
    ([footprint], [operands], [fits]), modelled from the cuBLAS
    documentation since the library is not part of the repository.
  - the printed text, lines 15, 23, 64 and 90-113: [Printf.v] (Module
    [Printf]) is [printf] itself, the C literal escapes ([c_lit]) and
    glibc's [%d], [%s], [%%] and correctly rounded [%.Nf] ([format],
    [fmt_f]); [Report.v] (Module [Report]) holds the program's format
    strings byte for byte with their arguments ([report_calls],
    [message_text]) and the text [stdout] of a trace.

  The components interact through the program monad of this file: a
  program is [world -> outcome], the outcome being [Done], [Halted]
  (the process called [exit]), [Fault] (undefined behaviour: a store out
  of the bounds of its buffer) or [NoFuel]; [bind] threads the world.
  Numeric code is written against the class [Double.Double] and used by
  [Metrics], [Classify], [Runtime] and [Sampling].

  Arithmetic.  The code computes in C [double].  The class [Double] has
  two instances ([Double.v]): [Binary64.double_binary64], IEEE 754
  binary64 with round-to-nearest-even, NaN and infinities, executable
  through [SpecFloat] (the arithmetic the code runs: the theorems on
  NaN, infinity and rounding are stated there), and [Exact.double_Q],
  exact rationals, the idealisation the specification reasons in (the
  algebraic theorems, stated with [Qeq] and [Proper] instances for
  setoid rewriting).  [std::pow((double)N, 3)] is taken as the correctly
  rounded cube.  Integers keep their C width: [int] is 32-bit two's
  complement ([to_int32]), [size_t] 64-bit unsigned ([to_size_t]).

  The theorems, by group:
  - the whole program ([Main.v]): [main_refines], the exact event trace,
    result 0, freed buffers and initialised inputs of a run whose checked
    calls succeed; [main_terminates], termination with one report of
    the loop's samples on a monotone unbounded clock; [main_safe], for
    every runtime no undefined behaviour and only [exit(-1)]; the
    fail-fast run on a failing [cudaGetDeviceCount]; [main_coarse_clock],
    on every runtime a clock already past the duration at the first test
    gives a run with the warm-up multiply alone and a report of no sample.
  - the exits ([WorldInv.v]): every exit of [main] is a check macro at one
    of the nine check sites, for a nonzero status, with its message last
    in the trace and no teardown call before it ([main_exits_at_check]);
    no dimension is rejected before the devices are used: every
    dimension reaches the allocations and the warm-up multiply
    ([main_dimension_unchecked]).  The invariants are proved once, in a
    Section over any invariant the events keep, with the rules
    [preserves], [exits_in] and [exits_with] of this file.
  - the multiply ([Blas.v]): for every [int] dimension [N >= 0] the call
    is valid and each operand spans exactly the [N * N] floats its buffer
    holds ([gemm_footprint_exact]); a negative dimension passes the
    allocations and the initialisation and is rejected only by the
    library, the run exiting at line 65 ([main_negative_dimension]).
  - the loop ([Sampling.v]): refinement of [sample_loop] against the
    clock-reading specification, termination, the samples' sum within the
    elapsed time, and no sample for a non-positive duration.
    ([LoopSem.v]): the interpreter computes exactly the executions of
    [loop_exec]; by rule induction every returning execution adds one
    sample, three clock readings and two calls per round, and every exit
    is the failed multiply of line 72.
  - the output ([Printf.v], [Report.v]): [main_stdout], the exact text a
    successful run prints; every [printf] of the program is well typed;
    [%.Nf] rounds to nearest, ties to even, and its text reads back.
  - the metrics ([Metrics.v]): refinement of [compute_stats] against the
    specification's statistics, order independence, the inverse-latency
    and dimension scaling laws (exact); NaN for no sample and infinity
    for a zero mean (binary64).
  - the diagnosis ([Classify.v]), the configuration ([Config.v]: the
    [atoi] round trip with decimal printing, saturation and 32-bit
    wrap-around on every digit string) and the buffers ([HostInit.v]:
    exact byte count, schedule-independent initialisation, the [INT_MIN]
    overflow).
  Safety is stated with the triple [safe code P m Q] of this file:
  no [Fault], every [Halted] carries [code], and [Q] on return.

  Fuel.  The sampling loop runs as long as the clock says, so its
  interpreter takes fuel and returns [NoFuel] when it runs out.  The
  refinement theorems hold for every fuel above the number [k] of rounds
  the clock allows (one unit per round plus one for the failed test);
  the termination theorems show that on a monotone, unbounded clock such
  a [k] exists, so every large enough fuel runs the loop to [Done].  The
  safety triple allows [NoFuel], which is why termination is a separate
  theorem.

  Not modelled: the product [cublasXtSgemm] computes and device memory
  (the program never reads [h_C]; the call's arguments, its status, the
  dimension check and the footprint of its operands are modelled), the
  multi-device tiling of cuBLASXt (internal to the library, invisible to
  the program but through the call's status and duration), the strings of
  [cudaGetErrorString] and the path [__FILE__] (parameters of
  [Report.message_text]), and the sign of a NaN: glibc prints [-nan]
  for the default NaN of x86 arithmetic, while [SpecFloat]'s NaN has no
  sign, so [fmt_f] prints [nan].  The trace records each message and
  its values; [Report.stdout] turns it into bytes.

  This file holds what the components share: the machine-integer
  conversions, the outcome monad with its notations in [monitor_scope],
  the triple [safe] and the invariant rules [preserves], [exits_in] and
  [exits_with],
  the hint database [monitor], the tactics [safe_step], [preserve_step], [exit_step],
  [run_prog] and [int_range], and the generic list lemmas. *)

From Stdlib Require Import Bool ZArith List Lia.
Import ListNotations.

Local Open Scope Z_scope.

(** ** Machine integers *)

(** C [int]: 32-bit two's complement; a conversion from a wider integer
    keeps the low 32 bits (GCC's implementation-defined behaviour). *)
Definition INT_MIN : Z := - 2 ^ 31.
Definition INT_MAX : Z := 2 ^ 31 - 1.
Definition to_int32 (z : Z) : Z := (z + 2 ^ 31) mod 2 ^ 32 - 2 ^ 31.
Definition in_int32 (z : Z) : bool := (INT_MIN <=? z) && (z <=? INT_MAX).

(** C [size_t] on the 64-bit targets CUDA supports: arithmetic modulo 2^64. *)
Definition to_size_t (z : Z) : Z := z mod 2 ^ 64.

Lemma to_int32_id z : INT_MIN <= z <= INT_MAX -> to_int32 z = z.
Proof.
  unfold to_int32, INT_MIN, INT_MAX; intros H.
  rewrite Z.mod_small by lia; lia.
Qed.

Lemma to_int32_range z : INT_MIN <= to_int32 z <= INT_MAX.
Proof.
  unfold to_int32, INT_MIN, INT_MAX.
  pose proof (Z.mod_pos_bound (z + 2 ^ 31) (2 ^ 32)); lia.
Qed.

Lemma in_int32_spec z : in_int32 z = true <-> INT_MIN <= z <= INT_MAX.
Proof. unfold in_int32; rewrite andb_true_iff, !Z.leb_le; tauto. Qed.

Lemma to_size_t_id z : 0 <= z < 2 ^ 64 -> to_size_t z = z.
Proof. intros; unfold to_size_t; apply Z.mod_small; lia. Qed.

Lemma to_size_t_range z : 0 <= to_size_t z < 2 ^ 64.
Proof. unfold to_size_t; apply Z.mod_pos_bound; lia. Qed.

(** ** The outcome monad

    A program over a state [S] returns [Done] with a value, [Halted] when
    it calls [exit] (the process ends with that code), [Fault] when it
    performs an operation whose behaviour C leaves undefined (a store out
    of the bounds of its buffer), or [NoFuel] when a loop interpreter ran
    out of fuel. *)

Inductive outcome (S A : Type) : Type :=
| Done (a : A) (s : S)
| Halted (code : Z) (s : S)
| Fault (s : S)
| NoFuel (s : S).
Arguments Done {S A} a s.
Arguments Halted {S A} code s.
Arguments Fault {S A} s.
Arguments NoFuel {S A} s.

Definition prog (S A : Type) : Type := S -> outcome S A.

Section Monad.
Context {S : Type}.

Definition ret {A} (a : A) : prog S A := fun s => Done a s.

Definition bind {A B} (m : prog S A) (k : A -> prog S B) : prog S B :=
  fun s =>
    match m s with
    | Done a s' => k a s'
    | Halted c s' => Halted c s'
    | Fault s' => Fault s'
    | NoFuel s' => NoFuel s'
    end.

Definition halt {A} (code : Z) : prog S A := fun s => Halted code s.
Definition out_of_fuel {A} : prog S A := fun s => NoFuel s.
Definition fault {A} : prog S A := fun s => Fault s.
Definition get_state : prog S S := fun s => Done s s.
Definition modify (f : S -> S) : prog S unit := fun s => Done tt (f s).

(** The final state of an outcome, whatever its kind. *)
Definition final_state {A} (o : outcome S A) : S :=
  match o with Done _ s | Halted _ s | Fault s | NoFuel s => s end.

(** An outcome is [finished] unless the fuel ran out, and [abrupt] when
    the process stopped ([exit] or undefined behaviour). *)
Definition finished {A} (o : outcome S A) : bool :=
  match o with NoFuel _ => false | _ => true end.
Definition abrupt {A} (o : outcome S A) : bool :=
  match o with Halted _ _ | Fault _ => true | _ => false end.

Lemma bind_ret_l {A B} (a : A) (k : A -> prog S B) s :
  bind (ret a) k s = k a s.
Proof. reflexivity. Qed.

Lemma bind_assoc {A B C} (m : prog S A) (k : A -> prog S B)
      (k' : B -> prog S C) s :
  bind (bind m k) k' s = bind m (fun a => bind (k a) k') s.
Proof. unfold bind; destruct (m s); reflexivity. Qed.

Lemma bind_Done {A B} (m : prog S A) (k : A -> prog S B) s a s' :
  m s = Done a s' -> bind m k s = k a s'.
Proof. unfold bind; intros ->; reflexivity. Qed.

Lemma bind_Halted {A B} (m : prog S A) (k : A -> prog S B) s c s' :
  m s = Halted c s' -> bind m k s = Halted c s'.
Proof. unfold bind; intros ->; reflexivity. Qed.

Lemma bind_Fault {A B} (m : prog S A) (k : A -> prog S B) s s' :
  m s = Fault s' -> bind m k s = Fault s'.
Proof. unfold bind; intros ->; reflexivity. Qed.

Lemma bind_NoFuel {A B} (m : prog S A) (k : A -> prog S B) s s' :
  m s = NoFuel s' -> bind m k s = NoFuel s'.
Proof. unfold bind; intros ->; reflexivity. Qed.
End Monad.

Declare Scope monitor_scope.
Delimit Scope monitor_scope with mon.
Notation "x <- m ;; k" := (bind m (fun x => k))
  (at level 100, m at next level, right associativity) : monitor_scope.
Notation "' p <- m ;; k" := (bind m (fun x => match x with p => k end))
  (at level 100, p pattern, m at next level, right associativity) : monitor_scope.
Notation "m ;;; k" := (bind m (fun _ => k))
  (at level 100, k at level 100, right associativity) : monitor_scope.

(** ** A program logic for the outcome monad

    [safe code P m Q]: from a state satisfying [P], [m] never faults,
    every [exit] it makes has status [code], and when it returns, its value
    and final state satisfy [Q].  Running out of fuel is allowed: the
    triple is partial correctness for the fuel-bounded loops, total for
    everything else.  Termination is stated separately. *)
Section Logic.
Context {S : Type}.

Definition safe {A} (code : Z) (P : S -> Prop) (m : prog S A) (Q : A -> S -> Prop) : Prop :=
  forall s, P s ->
    match m s with
    | Done a s' => Q a s'
    | Halted c _ => c = code
    | Fault _ => False
    | NoFuel _ => True
    end.

Lemma safe_ret {A} code (P : S -> Prop) (a : A) (Q : A -> S -> Prop) :
  (forall s, P s -> Q a s) -> safe code P (ret a) Q.
Proof. intros HQ s Hs; exact (HQ s Hs). Qed.

Lemma safe_bind {A B} code P (m : prog S A) (R : A -> S -> Prop)
      (k : A -> prog S B) (Q : B -> S -> Prop) :
  safe code P m R -> (forall a, safe code (R a) (k a) Q) -> safe code P (bind m k) Q.
Proof.
  intros Hm Hk s Hs; specialize (Hm s Hs); unfold bind.
  destruct (m s) as [a s'|c s'|s'|s']; auto; exact (Hk a s' Hm).
Qed.

Lemma safe_halt {A} code P (Q : A -> S -> Prop) : safe code P (halt code) Q.
Proof. intros s _; reflexivity. Qed.

Lemma safe_out_of_fuel {A} code P (Q : A -> S -> Prop) : safe code P out_of_fuel Q.
Proof. intros s _; exact I. Qed.

(** A step that always returns. *)
Lemma safe_done {A} code (P : S -> Prop) (m : prog S A) (Q : A -> S -> Prop) :
  (forall s, P s -> exists a s', m s = Done a s' /\ Q a s') -> safe code P m Q.
Proof. intros Hm s Hs; destruct (Hm s Hs) as (a & s' & -> & HQ); exact HQ. Qed.

Lemma safe_conseq {A} code (P P' : S -> Prop) (m : prog S A) (Q Q' : A -> S -> Prop) :
  safe code P' m Q' -> (forall s, P s -> P' s) -> (forall a s, Q' a s -> Q a s) ->
  safe code P m Q.
Proof.
  intros Hm HP HQ s Hs; specialize (Hm s (HP s Hs)); destruct (m s); auto.
Qed.

Lemma safe_if {A} code P (b : bool) (m1 m2 : prog S A) Q :
  safe code P m1 Q -> safe code P m2 Q -> safe code P (if b then m1 else m2) Q.
Proof. destruct b; auto. Qed.

(** [preserves I m]: whatever [m] does from a state satisfying [I] --
    return, [exit], fault or run out of fuel -- the state it leaves
    satisfies [I]. *)
Definition preserves (I : S -> Prop) {A} (m : prog S A) : Prop :=
  forall s, I s -> I (final_state (m s)).

Lemma preserves_ret (I : S -> Prop) {A} (a : A) : preserves I (ret a).
Proof. intros s Hs; exact Hs. Qed.

Lemma preserves_bind (I : S -> Prop) {A B} (m : prog S A) (k : A -> prog S B) :
  preserves I m -> (forall a, preserves I (k a)) -> preserves I (bind m k).
Proof.
  intros Hm Hk s Hs; specialize (Hm s Hs); unfold bind.
  destruct (m s) as [a s'|c s'|s'|s']; cbn in *; auto; exact (Hk a s' Hm).
Qed.

Lemma preserves_halt (I : S -> Prop) {A} (code : Z) : preserves I (halt (A:=A) code).
Proof. intros s Hs; exact Hs. Qed.

Lemma preserves_out_of_fuel (I : S -> Prop) {A} : preserves I (out_of_fuel (A:=A)).
Proof. intros s Hs; exact Hs. Qed.

Lemma preserves_if (I : S -> Prop) {A} (b : bool) (m1 m2 : prog S A) :
  preserves I m1 -> preserves I m2 -> preserves I (if b then m1 else m2).
Proof. destruct b; auto. Qed.

(** [exits_in I m]: when [m], started in a state satisfying [I], stops
    the process, the state at the [exit] satisfies [I]. *)
Definition exits_in (I : S -> Prop) {A} (m : prog S A) : Prop :=
  forall s c s', I s -> m s = Halted c s' -> I s'.

Lemma exits_in_bind (I : S -> Prop) {A B} (m : prog S A) (k : A -> prog S B) :
  preserves I m -> (forall a, exits_in I (k a)) -> exits_in I (bind m k).
Proof.
  intros Hm Hk s c s' Hs; specialize (Hm s Hs); unfold bind.
  destruct (m s) as [a s1|c1 s1|s1|s1]; cbn in Hm; [exact (Hk a s1 c s' Hm) | | discriminate..].
  intros Hh; injection Hh as _ <-; exact Hm.
Qed.

(** [exits_with Q m]: whenever [m] stops the process, the status and the
    state at the [exit] satisfy [Q], whatever state [m] starts in. *)
Definition exits_with (Q : Z -> S -> Prop) {A} (m : prog S A) : Prop :=
  forall s c s', m s = Halted c s' -> Q c s'.

Lemma exits_with_bind (Q : Z -> S -> Prop) {A B} (m : prog S A) (k : A -> prog S B) :
  exits_with Q m -> (forall a, exits_with Q (k a)) -> exits_with Q (bind m k).
Proof.
  intros Hm Hk s c s'; unfold bind.
  destruct (m s) as [a s1|c1 s1|s1|s1] eqn:E; [exact (Hk a s1 c s') | | discriminate..].
  intros Hh; injection Hh as <- <-; exact (Hm s c1 s1 E).
Qed.

(** A step that never stops the process. *)
Lemma exits_with_never (Q : Z -> S -> Prop) {A} (m : prog S A) :
  (forall s c s', m s <> Halted c s') -> exits_with Q m.
Proof. intros Hm s c s' Hh; destruct (Hm s c s' Hh). Qed.

Lemma exits_with_ret (Q : Z -> S -> Prop) {A} (a : A) : exits_with Q (ret a).
Proof. apply exits_with_never; discriminate. Qed.

Lemma exits_with_out_of_fuel (Q : Z -> S -> Prop) {A} : exits_with Q (out_of_fuel (A:=A)).
Proof. apply exits_with_never; discriminate. Qed.

Lemma exits_with_if (Q : Z -> S -> Prop) {A} (b : bool) (m1 m2 : prog S A) :
  exits_with Q m1 -> exits_with Q m2 -> exits_with Q (if b then m1 else m2).
Proof. destruct b; auto. Qed.

(** A step that always returns never exits. *)
Lemma exits_in_returns (I : S -> Prop) {A} (m : prog S A) :
  (forall s, exists a s', m s = Done a s') -> exits_in I m.
Proof. intros Hm s c s' _ Hh; destruct (Hm s) as (a & s1 & Hd); congruence. Qed.
End Logic.

(** ** Lists *)

Lemma fold_left_app_cons {A B} (f : A -> B -> A) l x a :
  fold_left f (l ++ [x]) a = f (fold_left f l a) x.
Proof. rewrite fold_left_app; reflexivity. Qed.

Lemma length_snoc {A} (l : list A) (x : A) : length (l ++ [x]) = S (length l).
Proof. rewrite length_app; simpl; lia. Qed.

(** Peeling the first index off a [seq 0 (S k)]. *)
Lemma map_seq_succ {A} (f : nat -> A) (k : nat) :
  map f (seq 0 (S k)) = f 0%nat :: map (fun j => f (S j)) (seq 0 k).
Proof. simpl; rewrite <- seq_shift, map_map; reflexivity. Qed.

Lemma flat_map_seq_succ {A} (f : nat -> list A) (k : nat) :
  flat_map f (seq 0 (S k)) = f 0%nat ++ flat_map (fun j => f (S j)) (seq 0 k).
Proof.
  simpl; f_equal; rewrite <- seq_shift.
  induction (seq 0 k) as [|x l IH]; simpl; [reflexivity|]; rewrite IH; reflexivity.
Qed.

(** ** First failure of a test

    [find_first p fuel j] is the first [i >= j] below [j + fuel] where the
    test [p] fails (or [j + fuel] when there is none): the executable
    minimisation used to state how many iterations a [while] loop runs. *)
Fixpoint find_first (p : nat -> bool) (fuel j : nat) : nat :=
  match fuel with
  | O => j
  | S f => if p j then find_first p f (S j) else j
  end.

Lemma find_first_spec (p : nat -> bool) (fuel j : nat) :
  (exists i, (j <= i < j + fuel)%nat /\ p i = false) ->
  let k := find_first p fuel j in
  (j <= k)%nat /\ p k = false /\ (forall i, (j <= i < k)%nat -> p i = true).
Proof.
  revert j; induction fuel as [|f IH]; intros j [i [Hi Hpi]]; simpl.
  - lia.
  - destruct (p j) eqn:Hj.
    + assert (Hex : exists i, (S j <= i < S j + f)%nat /\ p i = false).
      { exists i; split; [|exact Hpi].
        destruct (Nat.eq_dec i j) as [->|]; [congruence|lia]. }
      destruct (IH (S j) Hex) as (H1 & H2 & H3).
      split; [lia|]; split; [exact H2|].
      intros i' Hi'; destruct (Nat.eq_dec i' j) as [->|]; [exact Hj|apply H3; lia].
    + split; [lia|]; split; [exact Hj|]; intros; lia.
Qed.

(** If the test fails somewhere, there is a first index where it fails. *)
Lemma first_failure (p : nat -> bool) (n : nat) :
  p n = false ->
  exists k, (k <= n)%nat /\ p k = false /\ (forall i, (i < k)%nat -> p i = true).
Proof.
  intros Hn.
  destruct (find_first_spec p (S n) 0) as (H1 & H2 & H3).
  - exists n; split; [lia|exact Hn].
  - exists (find_first p (S n) 0); split; [|split; [exact H2|]].
    + destruct (Nat.le_gt_cases (find_first p (S n) 0) n) as [|Hgt]; [assumption|].
      rewrite H3 in Hn; [discriminate|lia].
    + intros i Hi; apply H3; lia.
Qed.

(** ** Automation *)

Create HintDb monitor.
Create Rewrite HintDb monitor_rw.
#[export] Hint Resolve to_int32_range to_size_t_range : monitor.
#[export] Hint Resolve safe_ret safe_halt safe_out_of_fuel safe_if : monitor.
#[export] Hint Resolve preserves_ret preserves_halt preserves_out_of_fuel preserves_if : monitor.
#[export] Hint Resolve exits_with_ret exits_with_out_of_fuel exits_with_if : monitor.
#[export] Hint Rewrite @fold_left_app_cons @length_snoc : monitor_rw.

(** [run_prog] unfolds the monad combinators of a goal so that a concrete
    program computes step by step. *)
Ltac run_prog :=
  repeat (unfold bind, ret, halt, out_of_fuel, fault, get_state, modify in *; simpl in *).

(** [safe_step] proves a triple for a step that always returns (a library
    call, [printf], a clock reading) whose postcondition follows from its
    precondition once the step's final state is computed. *)
Ltac safe_step :=
  apply safe_done; intros ? ?Hpre; eexists _, _; split; [reflexivity|]; cbn; try tauto.

(** [preserve_step] splits a [preserves] goal along the binds and
    conditionals of a program, leaving the steps the hints do not
    cover. *)
Ltac preserve_step :=
  repeat (first [solve [eauto with monitor] | apply preserves_bind; intros | apply preserves_if]).

(** [exit_step] does the same for an [exits_with] goal. *)
Ltac exit_step :=
  repeat (first [solve [eauto with monitor] | apply exits_with_bind; intros | apply exits_with_if]).

(** [int_range] closes goals about the C integer ranges. *)
Ltac int_range :=
  unfold INT_MIN, INT_MAX in *; lia.
