(* ===== verification/Double.v ===== *)
(** * The arithmetic of C [double]

  The program computes every metric in [double].  This file states that
  arithmetic as an interface, the class [Double], with the operations the
  code uses: [+], [-], [*], [/], the ordered comparison [<] (C's [>] is
  [<] with its operands swapped) and the conversion of an integer to
  [double].  Two instances:
  - [Binary64.double_binary64]: IEEE 754 binary64 with round-to-nearest-even,
    signed zeros, infinities and NaN, on the Standard Library's [SpecFloat]
    ([prec = 53], [emax = 1024]).  This is what the compiled code computes.
  - [Exact.double_Q]: exact rational arithmetic on [Q], in which the
    specification's formulas are stated.  Division by zero yields 0 in [Q]:
    the theorems stated on [Q] assume a non-zero divisor, and the
    behaviour of the code at zero is stated on [binary64]. *)

From Stdlib Require Import Bool ZArith QArith Lqa Morphisms.
From Stdlib Require Import Floats.SpecFloat.
From S2P Require Import Prelude.

Local Open Scope Q_scope.

Class Double (F : Type) := {
  dadd : F -> F -> F;
  dsub : F -> F -> F;
  dmul : F -> F -> F;
  ddiv : F -> F -> F;
  (** C's [x < y]: false as soon as an operand is NaN. *)
  dlt : F -> F -> bool;
  (** The conversion [(double)z] of an integer, rounded to nearest. *)
  dofZ : Z -> F
}.

Section Derived.
Context {F : Type} `{Double F}.

(** C's [x > y]. *)
Definition dgt (x y : F) : bool := dlt y x.

(** A decimal literal [n/d] of the source whose numerator and denominator
    are exact in [double] (0.0, 3.0, 31.5, 1e-6, 1e12, ...): the compiler
    rounds the exact value once, which is what one correctly rounded
    division of the two exact integers computes. *)
Definition dlit (n d : Z) : F := ddiv (dofZ n) (dofZ d).
End Derived.

(** ** IEEE 754 binary64 *)
Module Binary64.
Definition prec : Z := 53.
Definition emax : Z := 1024.

Definition binary64 : Type := spec_float.

#[export] Instance double_binary64 : Double binary64 := {
  dadd := SFadd prec emax;
  dsub := SFsub prec emax;
  dmul := SFmul prec emax;
  ddiv := SFdiv prec emax;
  dlt := SFltb;
  dofZ z := binary_normalize prec emax z 0 false
}.

Definition is_nan (x : binary64) : bool :=
  match x with S754_nan => true | _ => false end.

Definition is_pos_inf (x : binary64) : bool :=
  match x with S754_infinity false => true | _ => false end.

(** Every comparison with NaN is false. *)
Lemma dlt_nan_l (x : binary64) : dlt S754_nan x = false.
Proof. reflexivity. Qed.

Lemma dlt_nan_r (x : binary64) : dlt x S754_nan = false.
Proof. destruct x; reflexivity. Qed.

(** A finite positive number divided by +0 is +infinity. *)
Lemma ddiv_pos_zero (m : positive) (e : Z) :
  ddiv (S754_finite false m e : binary64) (S754_zero false) = S754_infinity false.
Proof. reflexivity. Qed.

(** Zero divided by zero is NaN. *)
Lemma ddiv_zero_zero (s s' : bool) :
  ddiv (S754_zero s : binary64) (S754_zero s') = S754_nan.
Proof. reflexivity. Qed.

(** NaN propagates through the four operations. *)
Lemma nan_absorbs (x : binary64) :
  ddiv S754_nan x = S754_nan /\ ddiv x S754_nan = S754_nan /\
  dmul S754_nan x = S754_nan /\ dmul x S754_nan = S754_nan.
Proof. destruct x; repeat split. Qed.

(** Infinity divided by a finite positive number stays +infinity. *)
Lemma ddiv_inf_pos (m : positive) (e : Z) :
  ddiv (S754_infinity false : binary64) (S754_finite false m e) = S754_infinity false.
Proof. reflexivity. Qed.

(** Infinity times a finite positive number stays +infinity. *)
Lemma dmul_inf_pos (m : positive) (e : Z) :
  dmul (S754_infinity false : binary64) (S754_finite false m e) = S754_infinity false.
Proof. reflexivity. Qed.
End Binary64.

(** ** Exact rational arithmetic *)
Module Exact.
Definition Qltb (x y : Q) : bool := negb (Qle_bool y x).

#[export] Instance double_Q : Double Q := {
  dadd := Qplus;
  dsub := Qminus;
  dmul := Qmult;
  ddiv := Qdiv;
  dlt := Qltb;
  dofZ := inject_Z
}.

Lemma Qltb_iff x y : Qltb x y = true <-> x < y.
Proof.
  unfold Qltb; rewrite negb_true_iff.
  split; intros Hxy.
  - apply Qnot_le_lt; intros Hle; apply Qle_bool_iff in Hle; congruence.
  - destruct (Qle_bool y x) eqn:E; [|reflexivity].
    apply Qle_bool_iff in E; exfalso; apply (Qlt_not_le _ _ Hxy E).
Qed.

Lemma Qltb_false x y : Qltb x y = false <-> y <= x.
Proof.
  unfold Qltb; rewrite negb_false_iff, Qle_bool_iff; reflexivity.
Qed.

#[export] Instance Qltb_Proper : Proper (Qeq ==> Qeq ==> eq) Qltb.
Proof.
  intros x x' Hx y y' Hy; unfold Qltb.
  destruct (Qle_bool y x) eqn:E1, (Qle_bool y' x') eqn:E2; try reflexivity;
    rewrite ?Qle_bool_iff in *;
    [ exfalso; rewrite Hx, Hy in E1 | exfalso; rewrite <- Hx, <- Hy in E2 ];
    apply Qle_bool_iff in E1 || apply Qle_bool_iff in E2; congruence.
Qed.

Lemma dadd_Q (x y : Q) : dadd x y = x + y.  Proof. reflexivity. Qed.
Lemma dsub_Q (x y : Q) : dsub x y = x - y.  Proof. reflexivity. Qed.
Lemma dmul_Q (x y : Q) : dmul x y = x * y.  Proof. reflexivity. Qed.
Lemma ddiv_Q (x y : Q) : ddiv x y = x / y.  Proof. reflexivity. Qed.
Lemma dlt_Q (x y : Q) : dlt x y = Qltb x y.  Proof. reflexivity. Qed.
Lemma dofZ_Q (z : Z) : dofZ z = inject_Z z.  Proof. reflexivity. Qed.
Lemma dgt_Q (x y : Q) : dgt x y = Qltb y x.  Proof. reflexivity. Qed.
Lemma dlit_Q (n d : Z) : dlit n d = inject_Z n / inject_Z d.
Proof. reflexivity. Qed.

(** Converting an integer to [Q] commutes with the integer operations. *)
Lemma inject_Z_pow3 (z : Z) : inject_Z (z ^ 3) == inject_Z z * inject_Z z * inject_Z z.
Proof. rewrite <- !inject_Z_mult; apply inject_Z_injective; ring. Qed.
End Exact.

Create Rewrite HintDb double_Q.
#[export] Hint Rewrite Exact.dadd_Q Exact.dsub_Q Exact.dmul_Q Exact.ddiv_Q
  Exact.dlt_Q Exact.dofZ_Q Exact.dgt_Q Exact.dlit_Q : double_Q.

(** [to_Q] turns the interface operations at the [Q] instance into the
    rational operations, in the goal and the hypotheses. *)
Ltac to_Q :=
  unfold dgt, dlit in *;
  try change (@dadd Q Exact.double_Q) with Qplus in *;
  try change (@dsub Q Exact.double_Q) with Qminus in *;
  try change (@dmul Q Exact.double_Q) with Qmult in *;
  try change (@ddiv Q Exact.double_Q) with Qdiv in *;
  try change (@dlt Q Exact.double_Q) with Exact.Qltb in *;
  try change (@dofZ Q Exact.double_Q) with inject_Z in *.
