(* ===== verification/Classify.v ===== *)
(** * The bottleneck diagnosis (lines 106-112)

  [if (utilization > 85.0)] the report prints "I/O Bound", otherwise
  "Compute Bound".  [diagnose] is that test, written against the [double]
  interface.  On exact arithmetic it is a strict threshold at 85
  ([diagnose_Q_iff]); on binary64 a NaN utilization, which the comparison
  reports as not greater, is diagnosed compute bound. *)

From Stdlib Require Import ZArith QArith Lqa.
From Stdlib Require Import Floats.SpecFloat.
From S2P Require Import Prelude Double.

(** The two labels the report can print (lines 109 and 111). *)
Inductive bottleneck : Type :=
| IO_Bound
| Compute_Bound.

Definition bottleneck_eq_dec (x y : bottleneck) : {x = y} + {x <> y}.
Proof. decide equality. Defined.

Module Classifier.
Section Diagnose.
Context {F : Type} `{Double F}.

(** The threshold literal [85.0] of line 108. *)
Definition threshold : F := dofZ 85.

(** Lines 108-112. *)
Definition diagnose (utilization : F) : bottleneck :=
  if dgt utilization threshold then IO_Bound else Compute_Bound.
End Diagnose.
End Classifier.

Local Open Scope Q_scope.

(** ** Exact arithmetic *)
Module ClassifierQ.
Import Classifier Exact.

(** C8: On exact arithmetic the run is diagnosed I/O bound exactly when
    the utilization is strictly greater than 85 percent. *)
Theorem diagnose_Q_iff (u : Q) :
  diagnose u = IO_Bound <-> inject_Z 85 < u.
Proof.
  unfold diagnose, threshold; autorewrite with double_Q.
  destruct (Qltb (inject_Z 85) u) eqn:E.
  - apply Qltb_iff in E; split; auto.
  - apply Qltb_false in E; split; [discriminate|].
    intros Hlt; exfalso; apply (Qlt_not_le _ _ Hlt E).
Qed.

Lemma diagnose_Q_compute (u : Q) :
  u <= inject_Z 85 -> diagnose u = Compute_Bound.
Proof.
  intros Hle; destruct (diagnose u) eqn:E; [|reflexivity].
  apply diagnose_Q_iff in E; exfalso; apply (Qlt_not_le _ _ E Hle).
Qed.

(** The boundary of the specification: a utilization of exactly
    85.0 is compute bound, 85.0001 is I/O bound. *)
Theorem diagnose_Q_boundary :
  diagnose (inject_Z 85) = Compute_Bound /\
  diagnose (inject_Z 850001 / inject_Z 10000) = IO_Bound.
Proof. split; reflexivity. Qed.

(** The diagnosis is monotone in the utilization. *)
Lemma diagnose_Q_monotone (u v : Q) :
  u <= v -> diagnose u = IO_Bound -> diagnose v = IO_Bound.
Proof.
  rewrite !diagnose_Q_iff; intros; apply Qlt_le_trans with u; assumption.
Qed.

#[export] Instance diagnose_Q_Proper : Proper (Qeq ==> eq) (@diagnose Q _).
Proof.
  intros u v Huv; unfold diagnose, dgt; simpl; rewrite Huv; reflexivity.
Qed.
End ClassifierQ.

(** ** IEEE binary64 *)
Module ClassifierBinary64.
Import Classifier Binary64.


(** +infinity (a zero mean latency) is diagnosed I/O bound. *)
Lemma diagnose_pos_inf :
  diagnose (S754_infinity false : binary64) = IO_Bound.
Proof. reflexivity. Qed.

(** The boundary on binary64: the double 85.0 is compute bound and the
    double nearest to 85.0001 is I/O bound. *)
Lemma diagnose_binary64_boundary :
  diagnose (dofZ 85 : binary64) = Compute_Bound /\
  diagnose (dlit 850001 10000 : binary64) = IO_Bound.
Proof. split; vm_compute; reflexivity. Qed.
End ClassifierBinary64.
