(* ===== verification/Metrics.v ===== *)
(** * The metrics aggregator (lines 77-88)

  [compute_stats N latencies] is the straight-line code of lines 77-88: it
  reads the latency vector and the dimension [N] and binds [iters],
  [total_time], [time_per_calc], [data_moved_gb], [throughput_gbs],
  [ops_per_iter], [compute_tflops], [pcie_ref] and [utilization], each as
  a field of the record [run_stats], in the order and with the operations
  of the source (C's left-to-right evaluation of [3.0 * N * N * sizeof(float)],
  the [int] conversion of [latencies.size()], the literals 31.5, 1e12).

  On exact arithmetic ([Module MetricsQ]) the aggregate is the arithmetic
  mean of the samples and the specification's closed forms hold; it does
  not depend on the order of the samples ([compute_stats_perm], with the
  [Proper] instance that lets [Permutation] rewrite under it); the rates
  scale inversely with the latency and as the square and cube of [N].
  On binary64 ([Module MetricsBinary64]) the code does what IEEE
  arithmetic does: a zero mean gives infinite rates and an empty vector
  NaN. *)

From Stdlib Require Import ZArith Lia QArith Lqa List Permutation Morphisms Setoid.
From Stdlib Require Import Floats.SpecFloat.
From S2P Require Import Prelude Double Classify.
Import ListNotations.

Module Metrics.
Section Stats.
Context {F : Type} `{Double F}.

(** [std::accumulate(first, last, init)]: a left fold with [+]. *)
Definition accumulate (l : list F) (init : F) : F := fold_left dadd l init.

(** [std::pow((double)N, 3)] on an integer-valued argument: the exact
    cube rounded once to [double] (a correctly rounded [pow]; exact
    whenever [|N|^3 < 2^53], that is [|N| <= 208063]). *)
Definition pow3 (N : Z) : F := dofZ (N ^ 3).

(** The locals of lines 77-88, in source order. *)
Record run_stats : Type := {
  iters : Z;
  total_time : F;
  time_per_calc : F;
  data_moved_gb : F;
  throughput_gbs : F;
  ops_per_iter : F;
  compute_tflops : F;
  pcie_ref : F;
  utilization : F
}.

(** Lines 77-88. *)
Definition compute_stats (N : Z) (latencies : list F) : run_stats :=
  let iters := to_int32 (Z.of_nat (length latencies)) in
  let total_time := accumulate latencies (dofZ 0) in
  let time_per_calc := ddiv total_time (dofZ iters) in
  let data_moved_gb :=
    ddiv (dmul (dmul (dmul (dofZ 3) (dofZ N)) (dofZ N)) (dofZ 4))
         (dmul (dmul (dofZ 1024) (dofZ 1024)) (dofZ 1024)) in
  let throughput_gbs := ddiv data_moved_gb time_per_calc in
  let ops_per_iter := dmul (dofZ 2) (pow3 N) in
  let compute_tflops := ddiv (ddiv ops_per_iter time_per_calc) (dofZ (10 ^ 12)) in
  let pcie_ref := dlit 63 2 in
  let utilization := dmul (ddiv throughput_gbs pcie_ref) (dofZ 100) in
  {| iters := iters; total_time := total_time; time_per_calc := time_per_calc;
     data_moved_gb := data_moved_gb; throughput_gbs := throughput_gbs;
     ops_per_iter := ops_per_iter; compute_tflops := compute_tflops;
     pcie_ref := pcie_ref; utilization := utilization |}.
End Stats.
Arguments run_stats F : clear implicits.
End Metrics.

(** ** Exact arithmetic *)
Module MetricsQ.
Import Metrics Exact.
Local Open Scope Q_scope.

(** [stats_proj] exposes the fields of [compute_stats] without
    computing the integer constants. *)
Ltac stats_proj :=
  unfold compute_stats; cbn beta iota zeta delta [iters total_time time_per_calc
    data_moved_gb throughput_gbs ops_per_iter compute_tflops pcie_ref utilization].

(** The mathematical sum of the samples: the reference [accumulate] is
    compared with. *)
Definition Qsum (l : list Q) : Q := fold_right Qplus 0 l.

(** Field-wise equivalence of two statistics records. *)
Definition stats_equiv (s t : run_stats Q) : Prop :=
  iters s = iters t /\ total_time s == total_time t /\
  time_per_calc s == time_per_calc t /\ data_moved_gb s == data_moved_gb t /\
  throughput_gbs s == throughput_gbs t /\ ops_per_iter s == ops_per_iter t /\
  compute_tflops s == compute_tflops t /\ pcie_ref s == pcie_ref t /\
  utilization s == utilization t.

#[export] Instance stats_equiv_Equivalence : Equivalence stats_equiv.
Proof.
  unfold stats_equiv; split.
  - intros s; repeat split; reflexivity.
  - intros s t Hst; decompose [and] Hst; repeat split; symmetry; assumption.
  - intros s t u Hst Htu; decompose [and] Hst; decompose [and] Htu;
      repeat split; etransitivity; eassumption.
Qed.

(** [std::accumulate] from [a] is [a] plus the sum of the samples. *)
Lemma accumulate_Q (l : list Q) (a : Q) : accumulate l a == a + Qsum l.
Proof.
  unfold accumulate; revert a; induction l as [|x l IH]; intros a; simpl.
  - ring.
  - rewrite IH; to_Q; ring.
Qed.

(** [std::accumulate(begin, end, 0.0)] is the sum of the samples. *)
Lemma accumulate_Q0 (l : list Q) : accumulate l (dofZ 0) == Qsum l.
Proof. rewrite accumulate_Q; to_Q; ring. Qed.

Lemma Qsum_perm (l l' : list Q) : Permutation l l' -> Qsum l == Qsum l'.
Proof.
  induction 1 as [| x l l' _ IH | x y l | l l' l'' _ IH1 _ IH2]; simpl.
  - reflexivity.
  - rewrite IH; reflexivity.
  - ring.
  - rewrite IH1; exact IH2.
Qed.

Lemma Qsum_map_mult (k : Q) (l : list Q) : Qsum (map (Qmult k) l) == k * Qsum l.
Proof.
  induction l as [|x l IH]; simpl; [ring|]; rewrite IH; ring.
Qed.

(** Two sample vectors of the same length and the same sum give
    equivalent statistics. *)
Lemma compute_stats_ext (N : Z) (l l' : list Q) :
  length l = length l' -> Qsum l == Qsum l' ->
  stats_equiv (compute_stats N l) (compute_stats N l').
Proof.
  intros Hlen Hsum; unfold compute_stats, stats_equiv; cbn zeta; cbn -[pow3].
  rewrite !accumulate_Q, Hlen, Hsum; repeat split; reflexivity.
Qed.

(** Division by a larger positive number gives a smaller quotient. *)
Lemma Qdiv_antitone (a m1 m2 : Q) : 0 <= a -> 0 < m1 -> m1 <= m2 -> a / m2 <= a / m1.
Proof.
  intros Ha H1 H12.
  assert (H2 : 0 < m2) by (apply Qlt_le_trans with m1; assumption).
  assert (Hx : m2 * (a / m2) == a) by (apply Qmult_div_r; intros E; rewrite E in H2; discriminate).
  assert (Hx0 : 0 <= a / m2) by (apply Qle_shift_div_l; [assumption | rewrite Qmult_0_l; assumption]).
  apply Qle_shift_div_l; [assumption|].
  rewrite <- Hx at 2; nra.
Qed.

(** The statistics of the code, field by field, in terms of the mean. *)
Lemma throughput_gbs_def {F} `{Double F} (N : Z) (l : list F) :
  throughput_gbs (compute_stats N l) =
  ddiv (data_moved_gb (compute_stats N l)) (time_per_calc (compute_stats N l)).
Proof. reflexivity. Qed.

Lemma compute_tflops_def {F} `{Double F} (N : Z) (l : list F) :
  compute_tflops (compute_stats N l) =
  ddiv (ddiv (ops_per_iter (compute_stats N l)) (time_per_calc (compute_stats N l)))
       (dofZ (10 ^ 12)).
Proof. reflexivity. Qed.

(** The mean latency does not depend on the dimension. *)
Lemma time_per_calc_dim {F} `{Double F} (N M : Z) (l : list F) :
  time_per_calc (compute_stats N l) = time_per_calc (compute_stats M l).
Proof. reflexivity. Qed.

Lemma utilization_def {F} `{Double F} (N : Z) (l : list F) :
  utilization (compute_stats N l) =
  dmul (ddiv (throughput_gbs (compute_stats N l)) (dlit 63 2)) (dofZ 100).
Proof. reflexivity. Qed.

Lemma data_moved_gb_Q (N : Z) (l : list Q) :
  data_moved_gb (compute_stats N l) == inject_Z (12 * N ^ 2) / inject_Z (2 ^ 30).
Proof.
  stats_proj; to_Q; rewrite <- !inject_Z_mult.
  replace (3 * N * N * 4)%Z with (12 * N ^ 2)%Z by ring; reflexivity.
Qed.

Lemma ops_per_iter_Q (N : Z) (l : list Q) :
  ops_per_iter (compute_stats N l) == inject_Z (2 * N ^ 3).
Proof. stats_proj; unfold pow3; to_Q; rewrite inject_Z_mult; reflexivity. Qed.

(** ** The specification's aggregate (spec section 4.3)

    The Run Statistics of the specification, computed from the sample
    multiset with the reference bandwidth as a parameter. *)
Record spec_run_statistics : Type := {
  iteration_count : nat;
  mean_latency_seconds : Q;
  data_moved_GB : Q;
  throughput_GBs : Q;
  compute_TFLOPS : Q;
  bus_utilization_pct : Q
}.

Definition element_size_bytes : Z := 4.

Definition spec_stats (reference_bandwidth_GBs : Q) (dimension : Z) (samples : list Q)
  : spec_run_statistics :=
  let n := length samples in
  let mean := Qsum samples / inject_Z (Z.of_nat n) in
  let data := inject_Z (3 * dimension ^ 2 * element_size_bytes) / inject_Z (2 ^ 30) in
  let thr := data / mean in
  let flop_count := inject_Z (2 * dimension ^ 3) in
  {| iteration_count := n; mean_latency_seconds := mean; data_moved_GB := data;
     throughput_GBs := thr; compute_TFLOPS := flop_count / mean / inject_Z (10 ^ 12);
     bus_utilization_pct := thr / reference_bandwidth_GBs * inject_Z 100 |}.

(** The code's statistics implement the specification's. *)
Definition refines (s : run_stats Q) (r : spec_run_statistics) : Prop :=
  iters s = Z.of_nat (iteration_count r) /\
  time_per_calc s == mean_latency_seconds r /\
  data_moved_gb s == data_moved_GB r /\
  throughput_gbs s == throughput_GBs r /\
  compute_tflops s == compute_TFLOPS r /\
  utilization s == bus_utilization_pct r.

(** C7: Refinement of the metrics aggregator: for any sample vector
    shorter than [INT_MAX] (so that [int iters] does not wrap), the
    values of lines 77-88, computed exactly, are the specification's
    iteration count, arithmetic mean, data volume [3 N^2 4 / 2^30],
    throughput, TFLOPS [2 N^3 / mean / 10^12] and bus utilization with
    the reference bandwidth 31.5 GB/s. *)
Theorem compute_stats_refines (N : Z) (l : list Q) :
  (Z.of_nat (length l) <= INT_MAX)%Z ->
  refines (compute_stats N l) (spec_stats (63 # 2) N l).
Proof.
  intros Hlen.
  assert (Hit : to_int32 (Z.of_nat (length l)) = Z.of_nat (length l))
    by (apply to_int32_id; int_range).
  assert (Htpc : time_per_calc (compute_stats N l) == Qsum l / inject_Z (Z.of_nat (length l)))
    by (stats_proj; rewrite Hit, accumulate_Q; to_Q; unfold Qdiv; ring).
  assert (Hdm : data_moved_gb (compute_stats N l) ==
                inject_Z (3 * N ^ 2 * element_size_bytes) / inject_Z (2 ^ 30))
    by (rewrite data_moved_gb_Q; unfold element_size_bytes;
        replace (3 * N ^ 2 * 4)%Z with (12 * N ^ 2)%Z by ring; reflexivity).
  assert (Hthr : throughput_gbs (compute_stats N l) ==
                 inject_Z (3 * N ^ 2 * element_size_bytes) / inject_Z (2 ^ 30) /
                 (Qsum l / inject_Z (Z.of_nat (length l))))
    by (rewrite throughput_gbs_def; to_Q; rewrite Htpc, Hdm; reflexivity).
  unfold refines, spec_stats; cbn [iteration_count mean_latency_seconds data_moved_GB
    throughput_GBs compute_TFLOPS bus_utilization_pct].
  refine (conj Hit (conj Htpc (conj Hdm (conj Hthr (conj _ _))))).
  - rewrite compute_tflops_def; to_Q.
    rewrite ops_per_iter_Q, Htpc; reflexivity.
  - rewrite utilization_def; to_Q; rewrite Hthr; reflexivity.
Qed.

(** C22: Order independence on exact arithmetic: permuting the samples
    gives equivalent statistics, field by field. *)
Theorem compute_stats_perm (N : Z) (l l' : list Q) :
  Permutation l l' -> stats_equiv (compute_stats N l) (compute_stats N l').
Proof.
  intros Hp; apply compute_stats_ext; [apply Permutation_length | apply Qsum_perm]; exact Hp.
Qed.

#[export] Instance compute_stats_Proper (N : Z) :
  Proper (@Permutation Q ==> stats_equiv) (compute_stats N).
Proof.
  intros l l' Hp; apply compute_stats_ext; [apply Permutation_length | apply Qsum_perm]; exact Hp.
Qed.

(** C23: The rates scale inversely with the latency: multiplying every
    sample by [k] multiplies the mean by [k] and divides the throughput,
    the TFLOPS and the utilization by [k]. *)
Theorem rates_inverse_latency (N : Z) (k : Q) (l : list Q) :
  let s := compute_stats N l in
  let s' := compute_stats N (map (Qmult k) l) in
  time_per_calc s' == k * time_per_calc s /\
  throughput_gbs s' == throughput_gbs s / k /\
  compute_tflops s' == compute_tflops s / k /\
  utilization s' == utilization s / k.
Proof.
  cbv zeta; stats_proj; rewrite !accumulate_Q0; to_Q.
  rewrite length_map, Qsum_map_mult; unfold Qdiv.
  rewrite !Qinv_mult_distr, !Qinv_involutive; repeat split; ring.
Qed.

(** Monotonicity: for a non-negative dimension, a larger positive
    mean latency never gives a larger throughput or TFLOPS. *)
Theorem rates_antitone_latency (N : Z) (l1 l2 : list Q) :
  (0 <= N)%Z ->
  0 < time_per_calc (compute_stats N l1) ->
  time_per_calc (compute_stats N l1) <= time_per_calc (compute_stats N l2) ->
  throughput_gbs (compute_stats N l2) <= throughput_gbs (compute_stats N l1) /\
  compute_tflops (compute_stats N l2) <= compute_tflops (compute_stats N l1).
Proof.
  intros HN H1 H12.
  rewrite !throughput_gbs_def, !compute_tflops_def; to_Q.
  rewrite !data_moved_gb_Q, !ops_per_iter_Q; split.
  - apply Qdiv_antitone; [|assumption..].
    apply Qle_shift_div_l; [reflexivity|].
    rewrite Qmult_0_l; change 0 with (inject_Z 0); rewrite <- Zle_Qle; lia.
  - unfold Qdiv at 1 3; apply Qmult_le_compat_r; [|discriminate].
    apply Qdiv_antitone; [|assumption..].
    change 0 with (inject_Z 0); rewrite <- Zle_Qle; lia.
Qed.

(** C24: Dimension scaling: multiplying [N] by [k] multiplies the data
    volume by [k^2] and the TFLOPS by [k^3], the samples fixed. *)
Theorem dimension_scaling (k N : Z) (l : list Q) :
  data_moved_gb (compute_stats (k * N) l) == inject_Z (k ^ 2) * data_moved_gb (compute_stats N l) /\
  compute_tflops (compute_stats (k * N) l) == inject_Z (k ^ 3) * compute_tflops (compute_stats N l).
Proof.
  rewrite !data_moved_gb_Q, !compute_tflops_def; to_Q; rewrite !ops_per_iter_Q.
  rewrite (time_per_calc_dim (k * N) N), !Z.pow_mul_l; unfold Qdiv.
  rewrite !inject_Z_mult; split; ring.
Qed.

(** Scenario 1 of the specification, computed exactly: N = 1024
    and four samples of 0.01 s give a mean of 0.01 s, 3/256 GB moved,
    1.171875 GB/s and 0.2147483648 TFLOPS. *)
Theorem scenario1_Q :
  let s := compute_stats 1024 [1 # 100; 1 # 100; 1 # 100; 1 # 100] in
  iters s = 4%Z /\ time_per_calc s == 1 # 100 /\ data_moved_gb s == 3 # 256 /\
  throughput_gbs s == 75 # 64 /\ compute_tflops s == 268435456 # 1250000000.
Proof. vm_compute; repeat split; reflexivity. Qed.
End MetricsQ.

(** ** IEEE binary64: what the compiled code computes *)
Module MetricsBinary64.
Import Metrics Binary64 Classifier MetricsQ.

(** C28: An empty latency vector (the loop body never ran) makes
    [iters] zero and [total_time / iters] the NaN [0.0 / 0]; the NaN
    propagates to throughput, TFLOPS and utilization, and the report
    then diagnoses the run compute bound, for every dimension. *)
Theorem empty_samples_nan (N : Z) :
  let s := compute_stats N ([] : list binary64) in
  iters s = 0%Z /\ time_per_calc s = S754_nan /\ throughput_gbs s = S754_nan /\
  compute_tflops s = S754_nan /\ utilization s = S754_nan /\
  diagnose (utilization s) = Compute_Bound.
Proof.
  cbv zeta.
  assert (Ht : time_per_calc (compute_stats N ([] : list binary64)) = S754_nan)
    by reflexivity.
  assert (Hthr : throughput_gbs (compute_stats N ([] : list binary64)) = S754_nan)
    by (rewrite throughput_gbs_def, Ht; apply nan_absorbs).
  assert (Hu : utilization (compute_stats N ([] : list binary64)) = S754_nan)
    by (rewrite utilization_def, Hthr; reflexivity).
  rewrite compute_tflops_def, Ht, Hu.
  destruct (nan_absorbs (ops_per_iter (compute_stats N ([] : list binary64))))
    as (_ & -> & _).
  repeat split; auto.
Qed.

(** C29: A zero mean latency is not reported as an error: with one
    sample of 0.0 the mean is +0, and whenever the data volume is a
    finite positive double the throughput and the utilization are
    +infinity and the run is diagnosed I/O bound. *)
Theorem zero_latency_infinite (N : Z) (m : positive) (e : Z) :
  data_moved_gb (compute_stats N [dofZ 0 : binary64]) = S754_finite false m e ->
  let s := compute_stats N [dofZ 0 : binary64] in
  time_per_calc s = S754_zero false /\ throughput_gbs s = S754_infinity false /\
  utilization s = S754_infinity false /\ diagnose (utilization s) = IO_Bound.
Proof.
  intros Hdm; cbv zeta.
  assert (Ht : time_per_calc (compute_stats N [dofZ 0 : binary64]) = S754_zero false)
    by reflexivity.
  assert (Hthr : throughput_gbs (compute_stats N [dofZ 0 : binary64]) = S754_infinity false)
    by (rewrite throughput_gbs_def, Ht, Hdm; apply ddiv_pos_zero).
  assert (Hu : utilization (compute_stats N [dofZ 0 : binary64]) = S754_infinity false)
    by (rewrite utilization_def, Hthr; reflexivity).
  rewrite Hu; repeat split; assumption || reflexivity.
Qed.

Lemma zero_latency_infinite_witness :
  data_moved_gb (compute_stats 1024 [dofZ 0 : binary64]) =
    S754_finite false 6755399441055744 (-59) /\
  throughput_gbs (compute_stats 1024 [dofZ 0 : binary64]) = S754_infinity false.
Proof.
  assert (Hdm : data_moved_gb (compute_stats 1024 [dofZ 0 : binary64]) =
                S754_finite false 6755399441055744 (-59)) by (vm_compute; reflexivity).
  split; [exact Hdm|].
  exact (proj1 (proj2 (zero_latency_infinite 1024 _ _ Hdm))).
Defined.


(** Scenario 1 on binary64: four samples of the double nearest to
    0.01 have the mean 0.01 exactly (that same double) and, for
    N = 1024, the throughput 1.171875 GB/s exactly. *)
Theorem scenario1_binary64 :
  let c := dlit 1 100 : binary64 in
  let s := compute_stats 1024 [c; c; c; c] in
  iters s = 4%Z /\ time_per_calc s = c /\ throughput_gbs s = dlit 75 64.
Proof. vm_compute; repeat split. Qed.
End MetricsBinary64.

(** ** Witnesses of the exact statements *)
Module MetricsQExamples.
Import Metrics Exact MetricsQ.
Local Open Scope Q_scope.

(** Three samples of 1, 2 and 3 seconds for N = 4096. *)
Lemma compute_stats_refines_witness :
  refines (compute_stats 4096 [1; 2; 3]) (spec_stats (63 # 2) 4096 [1; 2; 3]).
Proof. apply compute_stats_refines; cbn; unfold INT_MAX; lia. Defined.

(** Three samples and their reverse, for N = 1024. *)
Lemma compute_stats_perm_witness :
  stats_equiv (compute_stats 1024 [1; 2; 3]) (compute_stats 1024 [3; 2; 1]).
Proof. apply compute_stats_perm; apply (Permutation_rev [1; 2; 3]). Defined.

(** One sample of 1 s against one of 2 s for N = 2. *)
Lemma rates_antitone_latency_witness :
  throughput_gbs (compute_stats 2 [2]) <= throughput_gbs (compute_stats 2 [1]) /\
  compute_tflops (compute_stats 2 [2]) <= compute_tflops (compute_stats 2 [1]).
Proof.
  apply rates_antitone_latency; [lia | vm_compute; reflexivity |].
  apply Qle_bool_imp_le; vm_compute; reflexivity.
Defined.
End MetricsQExamples.
