(* ===== verification/Config.v ===== *)
(** * Argument parsing (lines 35-38)

  [N] defaults to 16384 and [duration] to 10; [argv[1]] and [argv[2]],
  when present, go through C's [atoi].  [atoi] is modelled as glibc
  implements it, [(int) strtol(s, NULL, 10)]: leading white space is
  skipped, one optional sign is read, then the longest run of decimal
  digits; the value saturates at the bounds of the 64-bit [long]
  ([strtol]'s overflow rule) and the conversion to [int] keeps the low 32
  bits.  No character is rejected: text that is not a number reads as 0.

  The theorems: [atoi] reads back the decimal text of every [int]
  ([atoi_decimal]); on any string of digits it saturates at the [long]
  bounds and wraps to 32 bits, so a value past [INT_MAX] becomes negative
  ([atoi_wraps]); and [parse_args] on every shape of [argv]
  ([parse_args_cases]).  The specification's Workload Descriptor requires
  [dimension > 0] and [duration > 0] before any device is touched; the
  code performs no such check (see [WorldInv.main_dimension_unchecked]). *)

From Stdlib Require Import Bool ZArith Lia List String Ascii.
From S2P Require Import Prelude.
Import ListNotations.

Local Open Scope Z_scope.
Local Open Scope bool_scope.

Module Config.
(** [isspace] in the C locale. *)
Definition is_space (c : ascii) : bool :=
  let n := nat_of_ascii c in
  (n =? 32)%nat || (n =? 9)%nat || (n =? 10)%nat || (n =? 11)%nat ||
  (n =? 12)%nat || (n =? 13)%nat.

Definition digit_value (c : ascii) : option Z :=
  let n := nat_of_ascii c in
  if (48 <=? n)%nat && (n <=? 57)%nat then Some (Z.of_nat n - 48) else None.

Fixpoint skip_spaces (s : list ascii) : list ascii :=
  match s with
  | c :: s' => if is_space c then skip_spaces s' else s
  | [] => []
  end.

(** The value of the longest prefix of decimal digits, accumulated
    after [acc]. *)
Fixpoint digits_value (s : list ascii) (acc : Z) : Z :=
  match s with
  | c :: s' =>
      match digit_value c with
      | Some d => digits_value s' (acc * 10 + d)
      | None => acc
      end
  | [] => acc
  end.

Definition LONG_MIN : Z := - 2 ^ 63.
Definition LONG_MAX : Z := 2 ^ 63 - 1.

(** [strtol(s, NULL, 10)]. *)
Definition strtol (s : list ascii) : Z :=
  let v :=
    match skip_spaces s with
    | c :: s' =>
        if Ascii.eqb c "-"%char then - digits_value s' 0
        else if Ascii.eqb c "+"%char then digits_value s' 0
        else digits_value (c :: s') 0
    | [] => 0
    end in
  Z.max LONG_MIN (Z.min LONG_MAX v).

(** [atoi(s)]. *)
Definition atoi (s : string) : Z := to_int32 (strtol (list_ascii_of_string s)).

(** Lines 35-38: [argv] includes the program name, [argc] is its length. *)
Definition parse_args (argv : list string) : Z * Z :=
  let argc := Z.of_nat (List.length argv) in
  let N := if argc >? 1 then atoi (List.nth 1 argv EmptyString) else 16384 in
  let duration := if argc >? 2 then atoi (List.nth 2 argv EmptyString) else 10 in
  (N, duration).


(** ** Decimal printing, the inverse the round trip is stated with *)
Definition digit_char (d : Z) : ascii := ascii_of_nat (48 + Z.to_nat d).

Fixpoint dec_digits (fuel : nat) (n : Z) : list ascii :=
  match fuel with
  | O => []
  | S f => if n <? 10 then [digit_char n]
           else dec_digits f (n / 10) ++ [digit_char (n mod 10)]
  end.

(** The decimal text of an [int] (eleven digits are enough). *)
Definition decimal (n : Z) : string :=
  string_of_list_ascii
    (if n <? 0 then "-"%char :: dec_digits 11 (- n) else dec_digits 11 n).

Lemma digit_value_char (d : Z) : 0 <= d <= 9 -> digit_value (digit_char d) = Some d.
Proof.
  intros Hd.
  assert (d = 0 \/ d = 1 \/ d = 2 \/ d = 3 \/ d = 4 \/ d = 5 \/ d = 6 \/ d = 7 \/
          d = 8 \/ d = 9) as Hc by lia.
  repeat destruct Hc as [-> | Hc]; try reflexivity; subst; reflexivity.
Qed.

Definition is_digit (c : ascii) : Prop := digit_value c <> None.

Lemma digits_value_app (l r : list ascii) (acc : Z) :
  Forall is_digit l -> digits_value (l ++ r) acc = digits_value r (digits_value l acc).
Proof.
  revert acc; induction l as [|c l IH]; intros acc Hl; [reflexivity|].
  inversion Hl as [|? ? Hc Hl']; subst; simpl.
  destruct (digit_value c) eqn:E; [apply IH; exact Hl' | exfalso; apply Hc; exact E].
Qed.

(** A digit is neither white space nor a sign. *)
Lemma digit_not_space_sign (c : ascii) :
  is_digit c ->
  is_space c = false /\ Ascii.eqb c "-"%char = false /\ Ascii.eqb c "+"%char = false.
Proof.
  unfold is_digit, digit_value, is_space; intros Hd.
  destruct ((48 <=? nat_of_ascii c)%nat && (nat_of_ascii c <=? 57)%nat) eqn:E; [|congruence].
  apply andb_true_iff in E; destruct E as [E1 E2]; apply Nat.leb_le in E1, E2.
  repeat split.
  - repeat (apply orb_false_iff; split); apply Nat.eqb_neq; lia.
  - apply Ascii.eqb_neq; intros ->; change (nat_of_ascii "-"%char) with 45%nat in E1; lia.
  - apply Ascii.eqb_neq; intros ->; change (nat_of_ascii "+"%char) with 43%nat in E1; lia.
Qed.

Lemma single_digit (d acc : Z) :
  0 <= d <= 9 ->
  Forall is_digit [digit_char d] /\ digits_value [digit_char d] acc = acc * 10 + d.
Proof.
  intros Hd; split.
  - constructor; [unfold is_digit; rewrite digit_value_char by exact Hd; discriminate|constructor].
  - cbn [digits_value]; rewrite digit_value_char by exact Hd; reflexivity.
Qed.

Lemma dec_digits_S (f : nat) (n : Z) :
  dec_digits (S f) n =
  if n <? 10 then [digit_char n] else dec_digits f (n / 10) ++ [digit_char (n mod 10)].
Proof. reflexivity. Qed.

Lemma dec_digits_spec (f : nat) (n : Z) :
  0 <= n < 10 ^ Z.of_nat (S f) ->
  Forall is_digit (dec_digits (S f) n) /\ dec_digits (S f) n <> [] /\
  digits_value (dec_digits (S f) n) 0 = n.
Proof.
  revert n; induction f as [|f IH]; intros n Hn.
  - change (10 ^ Z.of_nat 1) with 10 in Hn.
    rewrite dec_digits_S, (proj2 (Z.ltb_lt n 10)) by lia.
    destruct (single_digit n 0 ltac:(lia)) as [Hd Hv].
    split; [exact Hd|]; split; [discriminate|]; rewrite Hv; lia.
  - rewrite dec_digits_S; destruct (n <? 10) eqn:E.
    + apply Z.ltb_lt in E.
      destruct (single_digit n 0 ltac:(lia)) as [Hd Hv].
      split; [exact Hd|]; split; [discriminate|]; rewrite Hv; lia.
    + apply Z.ltb_ge in E.
      assert (Hq : 0 <= n / 10 < 10 ^ Z.of_nat (S f)).
      { split; [apply Z.div_pos; lia|].
        apply Z.div_lt_upper_bound; [lia|].
        rewrite Nat2Z.inj_succ, Z.pow_succ_r in Hn by lia; lia. }
      destruct (IH (n / 10) Hq) as (Hall & Hne & Hval).
      assert (Hm : 0 <= n mod 10 <= 9) by (pose proof (Z.mod_pos_bound n 10); lia).
      destruct (single_digit (n mod 10) (n / 10) Hm) as [Hd Hv].
      split; [apply Forall_app; split; assumption|]; split.
      * intros Hnil; apply app_eq_nil in Hnil; destruct Hnil as [_ Hx]; discriminate Hx.
      * rewrite digits_value_app by exact Hall; rewrite Hval, Hv.
        pose proof (Z.div_mod n 10); lia.
Qed.

(** [atoi] on text that starts with digits reads them. *)
Lemma strtol_digits (l : list ascii) (n : Z) :
  Forall is_digit l -> l <> [] -> digits_value l 0 = n ->
  strtol l = Z.max LONG_MIN (Z.min LONG_MAX n) /\
  strtol ("-"%char :: l) = Z.max LONG_MIN (Z.min LONG_MAX (- n)).
Proof.
  intros Hall Hne Hv; destruct l as [|c l]; [congruence|].
  inversion Hall as [|? ? Hc _]; subst.
  destruct (digit_not_space_sign c Hc) as (Hs & Hm & Hp).
  unfold strtol; simpl skip_spaces; rewrite Hs, Hm, Hp; split; reflexivity.
Qed.

(** Saturation at the [long] bounds leaves an [int] unchanged. *)
Lemma clamp_long_int (n : Z) :
  INT_MIN <= n <= INT_MAX -> Z.max LONG_MIN (Z.min LONG_MAX n) = n.
Proof. unfold LONG_MIN, LONG_MAX; int_range. Qed.

(** The dimension and the duration are always [int]s. *)
Lemma parse_args_range (argv : list string) :
  INT_MIN <= fst (parse_args argv) <= INT_MAX /\ INT_MIN <= snd (parse_args argv) <= INT_MAX.
Proof.
  unfold parse_args, atoi; cbn [fst snd].
  split; match goal with |- context [if ?c then _ else _] => destruct c end;
    solve [apply to_int32_range | int_range].
Qed.

(** C9: Round trip: [atoi] reads back the decimal text of every [int],
    negative ones included. *)
Theorem atoi_decimal (n : Z) :
  INT_MIN <= n <= INT_MAX -> atoi (decimal n) = n.
Proof.
  intros Hn; unfold atoi, decimal; rewrite list_ascii_of_string_of_list_ascii.
  destruct (n <? 0) eqn:E.
  - apply Z.ltb_lt in E.
    destruct (dec_digits_spec 10 (- n)) as (Hall & Hne & Hv);
      [change (10 ^ Z.of_nat 11) with 100000000000; int_range|].
    rewrite (proj2 (strtol_digits _ _ Hall Hne Hv)), Z.opp_involutive.
    rewrite clamp_long_int by exact Hn; apply to_int32_id; exact Hn.
  - apply Z.ltb_ge in E.
    destruct (dec_digits_spec 10 n) as (Hall & Hne & Hv);
      [change (10 ^ Z.of_nat 11) with 100000000000; int_range|].
    rewrite (proj1 (strtol_digits _ _ Hall Hne Hv)).
    rewrite clamp_long_int by exact Hn; apply to_int32_id; exact Hn.
Qed.

Lemma atoi_decimal_witness : atoi (decimal (-2147483648)) = -2147483648.
Proof. apply atoi_decimal; int_range. Defined.

(** C25: Lines 35-38 on every shape of [argv]: without arguments the
    defaults 16384 and 10, with one argument [N] read by [atoi] and the
    default duration, with two or more both read by [atoi] (the rest
    ignored). *)
Theorem parse_args_cases (prog a b : string) (rest : list string) :
  parse_args [prog] = (16384, 10) /\
  parse_args [prog; a] = (atoi a, 10) /\
  parse_args (prog :: a :: b :: rest) = (atoi a, atoi b).
Proof.
  unfold parse_args; cbn [List.length List.nth].
  repeat split; f_equal; rewrite ?Nat2Z.inj_succ;
    match goal with |- context [?x >? ?y] => destruct (Z.gtb_spec x y) end; lia.
Qed.


(** The digits read a non-negative value. *)
Lemma digits_value_nonneg (l : list ascii) (acc : Z) : 0 <= acc -> 0 <= digits_value l acc.
Proof.
  revert acc; induction l as [|c l IH]; intros acc Hacc; cbn [digits_value]; [exact Hacc|].
  unfold digit_value; destruct (_ && _)%nat eqn:E; [|exact Hacc].
  apply andb_prop in E as [E _]; apply Nat.leb_le in E; apply IH; lia.
Qed.

(** C30: [atoi] keeps C's widths on every string of decimal digits with
    value [v], signed or not: [strtol] saturates [v] at the [long] bounds
    and the [int] result is the low 32 bits of that, read in two's
    complement; in particular a value between [INT_MAX] and [2^32] wraps
    to the negative [v - 2^32]. *)
Theorem atoi_wraps (l : list ascii) :
  Forall is_digit l -> l <> [] ->
  atoi (string_of_list_ascii l) = to_int32 (Z.min LONG_MAX (digits_value l 0)) /\
  atoi (string_of_list_ascii ("-"%char :: l)) = to_int32 (Z.max LONG_MIN (- digits_value l 0)) /\
  (INT_MAX < digits_value l 0 < 2 ^ 32 ->
   atoi (string_of_list_ascii l) = digits_value l 0 - 2 ^ 32).
Proof.
  intros Hall Hne; pose proof (digits_value_nonneg l 0 (Z.le_refl 0)) as H0.
  destruct (strtol_digits l _ Hall Hne eq_refl) as [Hp Hm].
  unfold atoi; rewrite !list_ascii_of_string_of_list_ascii, Hp, Hm.
  assert (Hmax : Z.max LONG_MIN (Z.min LONG_MAX (digits_value l 0)) = Z.min LONG_MAX (digits_value l 0))
    by (unfold LONG_MIN, LONG_MAX; lia).
  assert (Hmin : Z.min LONG_MAX (- digits_value l 0) = - digits_value l 0)
    by (unfold LONG_MAX; lia).
  rewrite Hmax, Hmin; split; [reflexivity|split; [reflexivity|]].
  intros Hv; rewrite Z.min_r by (unfold LONG_MAX, INT_MAX in *; lia).
  unfold to_int32, INT_MAX in *.
  rewrite (Z.mod_eq (digits_value l 0 + 2 ^ 31)) by lia.
  replace ((digits_value l 0 + 2 ^ 31) / 2 ^ 32) with 1; [lia|].
  apply Z.div_unique with (r := digits_value l 0 + 2 ^ 31 - 2 ^ 32); lia.
Qed.

Lemma atoi_wraps_witness :
  Forall is_digit (list_ascii_of_string "2147483648") /\
  list_ascii_of_string "2147483648" <> [] /\
  atoi (string_of_list_ascii (list_ascii_of_string "2147483648")) = INT_MIN.
Proof.
  assert (Hd : Forall is_digit (list_ascii_of_string "2147483648"))
    by (cbn; repeat constructor; unfold is_digit; cbn; discriminate).
  assert (Hn : list_ascii_of_string "2147483648" <> []) by discriminate.
  split; [exact Hd|split; [exact Hn|]].
  rewrite (proj2 (proj2 (atoi_wraps _ Hd Hn)))
    by (vm_compute; split; reflexivity).
  vm_compute; reflexivity.
Defined.
End Config.
