(* ===== verification/Printf.v ===== *)
(** * [printf]: C string literals and the conversions the program uses

  The program prints with [printf] (lines 15, 23, 64 and 90-113).  This
  file gives the text [printf] writes, from the C standard and glibc:
  - [c_lit] is the compiler's translation of a string literal: the escape
    [\n] is the newline and an octal escape such as [\033] is that byte;
    other characters, UTF-8 ones included, are copied byte by byte.
  - [format fmt args] interprets the format: [%d] prints an [int] in
    decimal, [%s] a string, [%%] a percent sign, [%.Nf] a [double] in
    fixed notation with [N] digits after the point.  A conversion whose
    argument is missing or of another type is undefined behaviour
    ([None]); arguments left over are ignored.
  - [fmt_f p x] is glibc's [%.pf]: the exact binary value of [x] scaled
    by [10^p] is rounded to the nearest integer, ties to even (the
    rounding of the default mode), and printed with the sign of [x]
    ([-0.00] for a small negative number); infinities print [inf] or
    [-inf] and a NaN [nan].

  [fmt_f] is correctly rounded ([fmt_f_rounds]) and its text reads back
  as the integer it rounded to, with exactly [p] digits after the point
  ([fixed_text_reads_back]). *)

From Stdlib Require Import ZArith Lia List String Ascii QArith Qabs.
From Stdlib Require Import Floats.SpecFloat.
From S2P Require Import Prelude Config.
Import ListNotations Config.

Local Open Scope Z_scope.

Module Printf.

Definition chr (n : nat) : ascii := ascii_of_nat n.

(** ** String literals *)

Definition is_octal (c : ascii) : bool :=
  (48 <=? nat_of_ascii c)%nat && (nat_of_ascii c <=? 55)%nat.

Definition octal3 (a b c : ascii) : nat :=
  (64 * (nat_of_ascii a - 48) + 8 * (nat_of_ascii b - 48) + (nat_of_ascii c - 48))%nat.

(** The bytes of a C string literal written with its escapes. *)
Fixpoint c_lit_l (s : list ascii) : list ascii :=
  match s with
  | c :: rest =>
      if Ascii.eqb c "\"%char then
        match rest with
        | n :: rest' =>
            if Ascii.eqb n "n"%char then chr 10 :: c_lit_l rest'
            else match rest' with
                 | b :: d :: rest'' =>
                     if is_octal n && is_octal b && is_octal d
                     then chr (octal3 n b d) :: c_lit_l rest''
                     else c :: c_lit_l rest
                 | _ => c :: c_lit_l rest
                 end
        | [] => [c]
        end
      else c :: c_lit_l rest
  | [] => []
  end.

Definition c_lit (s : string) : list ascii := c_lit_l (list_ascii_of_string s).

(** ** Decimal digits *)

(** The decimal digits of a non-negative integer ([log2 n + 1] digits are
    always enough). *)
Definition digits (n : Z) : list ascii := dec_digits (S (Z.to_nat (Z.log2 n))) n.

(** [%d]. *)
Definition fmt_d (z : Z) : list ascii :=
  if z <? 0 then "-"%char :: digits (- z) else digits z.

(** Left padding with zeros to [p] characters. *)
Definition pad0 (p : nat) (l : list ascii) : list ascii :=
  repeat "0"%char (p - List.length l) ++ l.

(** An integer [q] of units [10^-p], as [int.frac] with [p] fraction
    digits. *)
Definition fixed_text (q : Z) (p : nat) : list ascii :=
  let ip := q / 10 ^ Z.of_nat p in
  let fp := q mod 10 ^ Z.of_nat p in
  match p with
  | O => digits ip
  | S _ => digits ip ++ "."%char :: pad0 p (digits fp)
  end.

(** ** Fixed notation of a double *)

(** [num / den] rounded to the nearest integer, ties to even. *)
Definition round_ne (num den : Z) : Z :=
  let '(q, r) := Z.div_eucl num den in
  if 2 * r <? den then q
  else if den <? 2 * r then q + 1
  else if Z.even q then q else q + 1.

(** [m * 2^e * 10^p] rounded to an integer. *)
Definition scaled (m e : Z) (p : nat) : Z :=
  if 0 <=? e then m * 2 ^ e * 10 ^ Z.of_nat p
  else round_ne (m * 10 ^ Z.of_nat p) (2 ^ (- e)).

Definition sign_text (s : bool) : list ascii := if s then ["-"%char] else [].

(** glibc's [%.pf]. *)
Definition fmt_f (p : nat) (x : spec_float) : list ascii :=
  match x with
  | S754_nan => list_ascii_of_string "nan"
  | S754_infinity s => sign_text s ++ list_ascii_of_string "inf"
  | S754_zero s => sign_text s ++ fixed_text 0 p
  | S754_finite s m e => sign_text s ++ fixed_text (scaled (Zpos m) e p) p
  end.

(** ** The format interpreter *)

Inductive arg : Type :=
| ArgInt (z : Z)
| ArgDouble (x : spec_float)
| ArgStr (s : list ascii).

Definition digit_nat (c : ascii) : option nat :=
  match digit_value c with Some d => Some (Z.to_nat d) | None => None end.

Fixpoint format (fmt : list ascii) (args : list arg) : option (list ascii) :=
  match fmt with
  | [] => Some []
  | c :: rest =>
      if Ascii.eqb c "%"%char then
        match rest with
        | k :: rest' =>
            if Ascii.eqb k "%"%char then option_map (cons "%"%char) (format rest' args)
            else if Ascii.eqb k "d"%char then
              match args with
              | ArgInt z :: args' => option_map (app (fmt_d z)) (format rest' args')
              | _ => None
              end
            else if Ascii.eqb k "s"%char then
              match args with
              | ArgStr t :: args' => option_map (app t) (format rest' args')
              | _ => None
              end
            else if Ascii.eqb k "."%char then format_prec rest' 0 args
            else None
        | [] => None
        end
      else option_map (cons c) (format rest args)
  end
with format_prec (fmt : list ascii) (p : nat) (args : list arg) : option (list ascii) :=
  match fmt with
  | c :: rest =>
      match digit_nat c with
      | Some d => format_prec rest (10 * p + d) args
      | None =>
          if Ascii.eqb c "f"%char then
            match args with
            | ArgDouble x :: args' => option_map (app (fmt_f p x)) (format rest args')
            | _ => None
            end
          else None
      end
  | [] => None
  end.

(** [printf(lit, args...)]: the bytes written, [None] when the call is
    undefined. *)
Definition printf_text (lit : string) (args : list arg) : option (list ascii) :=
  format (c_lit lit) args.

(** ** Success depends only on the kinds of the arguments *)

Definition same_kind (a b : arg) : Prop :=
  match a, b with
  | ArgInt _, ArgInt _ | ArgDouble _, ArgDouble _ | ArgStr _, ArgStr _ => True
  | _, _ => False
  end.

Definition is_none {A} (o : option A) : bool := match o with None => true | Some _ => false end.

Lemma is_none_map {A B} (f : A -> B) (o : option A) : is_none (option_map f o) = is_none o.
Proof. destruct o; reflexivity. Qed.

(** Whether [printf] is defined depends on the format and the kinds of the
    arguments, not on their values (by induction on the format's length,
    since a conversion consumes two characters). *)
Lemma format_kinds_len (n : nat) :
  forall fmt, (List.length fmt <= n)%nat ->
  (forall args args', Forall2 same_kind args args' ->
     is_none (format fmt args) = is_none (format fmt args')) /\
  (forall p args args', Forall2 same_kind args args' ->
     is_none (format_prec fmt p args) = is_none (format_prec fmt p args')).
Proof.
  induction n as [|n IH]; intros fmt Hlen.
  { destruct fmt; [split; intros; reflexivity | cbn in Hlen; lia]. }
  destruct fmt as [|c rest]; [split; intros; reflexivity|].
  cbn [List.length] in Hlen.
  destruct (IH rest ltac:(lia)) as [IHf IHp].
  split.
  - intros args args' Hk; cbn [format].
    destruct (Ascii.eqb c "%"%char); [|rewrite !is_none_map; apply IHf, Hk].
    destruct rest as [|k rest']; [reflexivity|].
    cbn [List.length] in Hlen; destruct (IH rest' ltac:(lia)) as [Hf Hp].
    destruct (Ascii.eqb k "%"%char); [rewrite !is_none_map; apply Hf, Hk|].
    destruct (Ascii.eqb k "d"%char);
      [destruct Hk as [|[] [] ? ? Hab Hk']; try contradiction; try reflexivity;
       rewrite !is_none_map; apply Hf, Hk'|].
    destruct (Ascii.eqb k "s"%char);
      [destruct Hk as [|[] [] ? ? Hab Hk']; try contradiction; try reflexivity;
       rewrite !is_none_map; apply Hf, Hk'|].
    destruct (Ascii.eqb k "."%char); [apply Hp, Hk | reflexivity].
  - intros p args args' Hk; cbn [format_prec].
    destruct (digit_nat c); [apply IHp, Hk|].
    destruct (Ascii.eqb c "f"%char); [|reflexivity].
    destruct Hk as [|[] [] ? ? Hab Hk']; try contradiction; try reflexivity.
    rewrite !is_none_map; apply IHf, Hk'.
Qed.

Lemma printf_kinds (lit : string) (args args' : list arg) :
  Forall2 same_kind args args' ->
  is_none (printf_text lit args) = is_none (printf_text lit args').
Proof. apply (format_kinds_len _ (c_lit lit) (le_n _)). Qed.

(** ** Correct rounding *)

(** [round_ne] is at most half a unit away from [num / den], and even on
    a tie. *)
Lemma round_ne_spec (num den : Z) :
  0 < den ->
  2 * Z.abs (num - round_ne num den * den) <= den /\
  (2 * Z.abs (num - round_ne num den * den) = den -> Z.even (round_ne num den) = true).
Proof.
  intros Hd; unfold round_ne.
  pose proof (Z_div_mod num den (Z.lt_gt _ _ Hd)) as Hdm.
  destruct (Z.div_eucl num den) as [q r]; destruct Hdm as [Hn Hr].
  destruct (Z.ltb_spec (2 * r) den); [|destruct (Z.ltb_spec den (2 * r))].
  - split; [rewrite Z.abs_eq by nia; nia | intros Ht; rewrite Z.abs_eq in Ht by nia; lia].
  - split; [rewrite Z.abs_neq by nia; nia | intros Ht; rewrite Z.abs_neq in Ht by nia; lia].
  - assert (Htie : 2 * r = den) by lia.
    destruct (Z.even q) eqn:Hq.
    + split; [rewrite Z.abs_eq by nia; nia | intros _; exact Hq].
    + split; [rewrite Z.abs_neq by nia; nia|].
      intros _; rewrite Z.even_add, Hq; reflexivity.
Qed.

(** ** Decimal text *)

Lemma log2_digits_bound (n : Z) : 0 <= n -> n < 10 ^ Z.of_nat (S (Z.to_nat (Z.log2 n))).
Proof.
  intros Hn; rewrite Nat2Z.inj_succ, Z2Nat.id by apply Z.log2_nonneg.
  destruct (Z.eq_dec n 0) as [->|Hn0]; [apply Z.pow_pos_nonneg; [lia | pose proof (Z.log2_nonneg 0); lia]|].
  destruct (Z.log2_spec n) as [_ Hlt]; [lia|].
  eapply Z.lt_le_trans; [exact Hlt|].
  rewrite <- Z.add_1_r; apply Z.pow_le_mono_l; lia.
Qed.

Lemma digits_spec (n : Z) :
  0 <= n -> Forall is_digit (digits n) /\ digits n <> [] /\ digits_value (digits n) 0 = n.
Proof. intros Hn; apply dec_digits_spec; split; [exact Hn | apply log2_digits_bound, Hn]. Qed.

Lemma dec_digits_length (f : nat) (n : Z) (j : nat) :
  0 <= n < 10 ^ Z.of_nat (S j) -> (List.length (dec_digits f n) <= S j)%nat.
Proof.
  revert n j; induction f as [|f IH]; intros n j Hn; [cbn; lia|].
  cbn [dec_digits]; destruct (Z.ltb_spec n 10); [cbn; lia|].
  rewrite length_app; cbn [List.length].
  destruct j as [|j]; [cbn in Hn; lia|].
  enough (List.length (dec_digits f (n / 10)) <= S j)%nat by lia.
  apply IH; split; [apply Z.div_pos; lia|].
  apply Z.div_lt_upper_bound; [lia|].
  rewrite (Nat2Z.inj_succ (S j)), Z.pow_succ_r in Hn by lia; lia.
Qed.

Lemma digits_value_acc (l : list ascii) (acc : Z) :
  Forall is_digit l -> digits_value l acc = acc * 10 ^ Z.of_nat (List.length l) + digits_value l 0.
Proof.
  revert acc; induction l as [|c l IH]; intros acc Hl; [cbn; lia|].
  inversion Hl as [|? ? Hc Hl']; subst; cbn [digits_value List.length].
  destruct (digit_value c) as [d|] eqn:E; [|exfalso; apply Hc; exact E].
  rewrite (IH (acc * 10 + d) Hl'), (IH (0 * 10 + d) Hl'), Nat2Z.inj_succ, Z.pow_succ_r by lia.
  ring.
Qed.

Lemma zeros_digits (k : nat) : Forall is_digit (repeat "0"%char k).
Proof. induction k; constructor; [discriminate | assumption]. Qed.

Lemma zeros_value (k : nat) : digits_value (repeat "0"%char k) 0 = 0.
Proof. induction k as [|k IH]; [reflexivity | exact IH]. Qed.

(** [%.pf] is correctly rounded.  For a finite double
    [(-1)^s * m * 2^e], [fmt_f] prints the sign of the double and the
    fixed notation of an integer [q] that is nearest to [m * 2^e * 10^p]
    (written [a / b] with integers [a], [b]), and even when two are
    nearest. *)
Theorem fmt_f_rounds (p : nat) (s : bool) (m : positive) (e : Z) :
  let a := Zpos m * 10 ^ Z.of_nat p * 2 ^ Z.max e 0 in
  let b := 2 ^ Z.max (- e) 0 in
  exists q, fmt_f p (S754_finite s m e) = sign_text s ++ fixed_text q p /\
    2 * Z.abs (a - q * b) <= b /\ (2 * Z.abs (a - q * b) = b -> Z.even q = true).
Proof.
  cbv zeta; exists (scaled (Zpos m) e p); split; [reflexivity|].
  unfold scaled; destruct (Z.leb_spec 0 e) as [He|He].
  - rewrite Z.max_l, Z.max_r by lia; cbn [Z.pow].
    replace (Zpos m * 10 ^ Z.of_nat p * 2 ^ e - Zpos m * 2 ^ e * 10 ^ Z.of_nat p * 1) with 0 by ring.
    split; [cbn; lia | discriminate].
  - rewrite Z.max_r, Z.max_l, Z.pow_0_r, Z.mul_1_r by lia.
    apply round_ne_spec, Z.pow_pos_nonneg; lia.
Qed.

(** Round trip of the fixed notation: for [p > 0] the text of a
    non-negative [q] is an integer part, a point and exactly [p] digits,
    all of them decimal digits, and reading the digits without the point
    gives [q] back. *)
Theorem fixed_text_reads_back (q : Z) (p : nat) :
  0 <= q -> (0 < p)%nat ->
  exists ip fp, fixed_text q p = ip ++ "."%char :: fp /\ List.length fp = p /\
    Forall is_digit (ip ++ fp) /\ digits_value (ip ++ fp) 0 = q.
Proof.
  intros Hq Hp; destruct p as [|p']; [lia|].
  assert (HP : 0 < 10 ^ Z.of_nat (S p')) by (apply Z.pow_pos_nonneg; lia).
  destruct (digits_spec (q / 10 ^ Z.of_nat (S p'))) as (Hid & _ & Hiv); [apply Z.div_pos; lia|].
  pose proof (Z.mod_pos_bound q (10 ^ Z.of_nat (S p')) HP) as Hfb.
  destruct (digits_spec (q mod 10 ^ Z.of_nat (S p'))) as (Hfd & _ & Hfv); [lia|].
  pose proof (dec_digits_length (S (Z.to_nat (Z.log2 (q mod 10 ^ Z.of_nat (S p')))))
                (q mod 10 ^ Z.of_nat (S p')) p' Hfb) as Hlen.
  fold (digits (q mod 10 ^ Z.of_nat (S p'))) in Hlen.
  exists (digits (q / 10 ^ Z.of_nat (S p'))), (pad0 (S p') (digits (q mod 10 ^ Z.of_nat (S p')))).
  unfold pad0; split; [reflexivity|].
  split; [rewrite length_app, repeat_length; lia|].
  assert (Hpad : Forall is_digit (repeat "0"%char (S p' - List.length (digits (q mod 10 ^ Z.of_nat (S p'))))
                                   ++ digits (q mod 10 ^ Z.of_nat (S p'))))
    by (apply Forall_app; split; [apply zeros_digits | exact Hfd]).
  split; [apply Forall_app; split; assumption|].
  rewrite digits_value_app, Hiv, digits_value_acc by assumption.
  rewrite digits_value_app, zeros_value, Hfv by apply zeros_digits.
  rewrite length_app, repeat_length, Nat.sub_add by lia.
  rewrite Z.mul_comm; symmetry; apply Z.div_mod; lia.
Qed.

End Printf.

Module PrintfExamples.
Import Printf.

(** 1.17 printed with two decimals. *)
Lemma fixed_text_reads_back_witness :
  exists ip fp, fixed_text 117 2 = ip ++ "."%char :: fp /\ List.length fp = 2%nat /\
    Forall is_digit (ip ++ fp) /\ digits_value (ip ++ fp) 0 = 117.
Proof. apply fixed_text_reads_back; lia. Defined.
End PrintfExamples.
