(* ===== verification/Runtime.v ===== *)
(** * The runtime the program calls: CUDA, cuBLASXt, the clock, [printf]

  [main] talks to three libraries it does not implement: the CUDA runtime
  ([cudaGetDeviceCount], [cudaMallocHost], [cudaDeviceSynchronize],
  [cudaFreeHost]), cuBLASXt ([cublasXtCreate], [cublasXtDeviceSelect],
  [cublasXtSetBlockDim], [cublasXtSgemm], [cublasXtDestroy]) and
  [gettimeofday] through [get_time] (lines 28-32).  The record [env] is
  what those libraries answer: a status code per call (indexed by the
  position of the call among all library calls of the run) and the clock
  reading per call of [gettimeofday].  The record [world] is the process
  state the code threads: the environment, the number of library calls
  and clock readings made so far, the pinned host allocations and their
  contents (stdpp maps), and the trace of observable events.

  [CHECK_CUDA] and [CHECK_CUBLAS] (lines 12-26) run a call and, on a
  status other than success, print the status with the line of the check
  and [exit(-1)]: the [Halted (-1)] outcome.  Section [Safety] gives
  their rules: the outcome of a check for a given status
  ([CHECK_CUDA_ok], [CHECK_CUDA_fail]), their triples in the logic
  [Prelude.safe], and the triple of [cudaMallocHost] on the allocation
  table. *)

From Stdlib Require Import ZArith List.
From Stdlib Require Import Floats.SpecFloat.
From stdpp Require Import base countable gmap.
From S2P Require Import Prelude Double Classify.
Import ListNotations.

Local Open Scope Z_scope.
Local Open Scope monitor_scope.

Module Runtime.

(** [cudaSuccess] and [CUBLAS_STATUS_SUCCESS] are both 0. *)
Definition cudaSuccess : Z := 0.
Definition CUBLAS_STATUS_SUCCESS : Z := 0.

(** [struct timeval]. *)
Record timeval : Type := { tv_sec : Z; tv_usec : Z }.

(** The three pinned host buffers [h_A], [h_B], [h_C]. *)
Inductive hbuf : Type := h_A | h_B | h_C.

#[export] Instance hbuf_eq_dec : EqDecision hbuf.
Proof. solve_decision. Defined.

#[export] Instance hbuf_countable : Countable hbuf.
Proof.
  refine (inj_countable'
    (fun b => match b with h_A => 0%nat | h_B => 1%nat | h_C => 2%nat end)
    (fun n => match n with 0%nat => h_A | 1%nat => h_B | _ => h_C end) _).
  intros []; reflexivity.
Defined.

(** The table of pinned allocations: buffer to size in bytes. *)
Abbreviation alloc_table := (gmap hbuf Z).

(** C [float] values (binary32), for [alpha], [beta] and the buffer
    contents: [f32 m e] is the float nearest to [m * 2^e]. *)
Definition f32 : Type := spec_float.
Definition f32_lit (m e : Z) : f32 := binary_normalize 24 128 m e false.

Inductive cublasOperation : Type := CUBLAS_OP_N | CUBLAS_OP_T | CUBLAS_OP_C.

(** The arguments of one [cublasXtSgemm] call. *)
Record sgemm_call : Type := {
  sg_transa : cublasOperation; sg_transb : cublasOperation;
  sg_m : Z; sg_n : Z; sg_k : Z;
  sg_alpha : f32; sg_A : hbuf; sg_lda : Z; sg_B : hbuf; sg_ldb : Z;
  sg_beta : f32; sg_C : hbuf; sg_ldc : Z
}.

(** What the libraries answer.  Each [nat] argument is the index of the
    call among all library calls of the run; [env_clock k] is the k-th
    reading of [gettimeofday]. *)
Record env : Type := {
  env_device_count : nat -> Z * Z;  (* status, device count *)
  env_xt_create : nat -> Z;
  env_device_select : nat -> Z -> list Z -> Z;
  env_set_block_dim : nat -> Z -> Z;
  env_malloc_host : nat -> hbuf -> Z -> Z;
  env_sgemm : nat -> sgemm_call -> Z;
  env_sync : nat -> Z;
  env_clock : nat -> timeval
}.

Section WithDouble.
Context {F : Type} `{Double F}.

(** The values the report prints (lines 91-112). *)
Record report : Type := {
  rep_N : Z;
  rep_num_devices : Z;
  rep_time_per_calc : F;
  rep_throughput_gbs : F;
  rep_utilization : F;
  rep_compute_tflops : F;
  rep_diagnosis : bottleneck
}.

Inductive message : Type :=
| MsgCudaError (status line : Z)
| MsgCublasError (status line : Z)
| MsgWarmup
| MsgReport (r : report).

Inductive event : Type :=
| EvSetNumThreads (n : Z)
| EvGetDeviceCount (status count : Z)
| EvXtCreate (status : Z)
| EvDeviceSelect (n : Z) (devices : list Z) (status : Z)
| EvSetBlockDim (dim status : Z)
| EvMallocHost (b : hbuf) (bytes status : Z)
| EvSgemm (c : sgemm_call) (status : Z)
| EvSync (status : Z)
| EvGetTime (t : F)
| EvPrint (m : message)
| EvXtDestroy
| EvFreeHost (b : hbuf).

Record world : Type := {
  w_env : env;
  w_calls : nat;
  w_clock : nat;
  w_alloc : alloc_table;
  w_mem : gmap (hbuf * Z) f32;
  w_trace : list event
}.

Definition emit (e : event) (w : world) : world :=
  {| w_env := w_env w; w_calls := w_calls w; w_clock := w_clock w;
     w_alloc := w_alloc w; w_mem := w_mem w; w_trace := w_trace w ++ [e] |}.

(** A library call: it takes the next call index. *)
Definition bump (w : world) : world :=
  {| w_env := w_env w; w_calls := S (w_calls w); w_clock := w_clock w;
     w_alloc := w_alloc w; w_mem := w_mem w; w_trace := w_trace w |}.

Definition tick (w : world) : world :=
  {| w_env := w_env w; w_calls := w_calls w; w_clock := S (w_clock w);
     w_alloc := w_alloc w; w_mem := w_mem w; w_trace := w_trace w |}.

Definition set_alloc (a : gmap hbuf Z) (w : world) : world :=
  {| w_env := w_env w; w_calls := w_calls w; w_clock := w_clock w;
     w_alloc := a; w_mem := w_mem w; w_trace := w_trace w |}.

Definition set_mem (m : gmap (hbuf * Z) f32) (w : world) : world :=
  {| w_env := w_env w; w_calls := w_calls w; w_clock := w_clock w;
     w_alloc := w_alloc w; w_mem := m; w_trace := w_trace w |}.

Definition call {A} (answer : env -> nat -> A) (ev : A -> event) : prog world A :=
  fun w => let a := answer (w_env w) (w_calls w) in Done a (emit (ev a) (bump w)).

Definition printf (m : message) : prog world unit :=
  fun w => Done tt (emit (EvPrint m) w).

(** [omp_set_num_threads(n)] (line 40). *)
Definition omp_set_num_threads (n : Z) : prog world unit :=
  fun w => Done tt (emit (EvSetNumThreads n) w).

Definition cudaGetDeviceCount : prog world (Z * Z) :=
  call (fun e k => env_device_count e k) (fun r => EvGetDeviceCount (fst r) (snd r)).

Definition cublasXtCreate : prog world Z :=
  call (fun e k => env_xt_create e k) EvXtCreate.

Definition cublasXtDeviceSelect (n : Z) (devices : list Z) : prog world Z :=
  call (fun e k => env_device_select e k n devices) (EvDeviceSelect n devices).

Definition cublasXtSetBlockDim (dim : Z) : prog world Z :=
  call (fun e k => env_set_block_dim e k dim) (EvSetBlockDim dim).

Definition cublasXtSgemm (c : sgemm_call) : prog world Z :=
  call (fun e k => env_sgemm e k c) (EvSgemm c).

(** [cudaDeviceSynchronize()]: its status is returned, and the code
    discards it (lines 66 and 73). *)
Definition cudaDeviceSynchronize : prog world Z :=
  call (fun e k => env_sync e k) EvSync.

(** [cudaMallocHost(&p, bytes)]: on success the buffer is allocated
    with [bytes] bytes and no initialised element. *)
Definition cudaMallocHost (b : hbuf) (bytes : Z) : prog world Z :=
  st <- call (fun e k => env_malloc_host e k b bytes) (EvMallocHost b bytes) ;;
  if Z.eqb st cudaSuccess
  then fun w => Done st (set_alloc (<[b := bytes]> (w_alloc w)) w)
  else ret st.

Definition cudaFreeHost (b : hbuf) : prog world unit :=
  fun w => Done tt (emit (EvFreeHost b) (set_alloc (delete b (w_alloc w)) w)).

Definition cublasXtDestroy : prog world unit :=
  fun w => Done tt (emit EvXtDestroy w).

(** [get_time()] (lines 28-32): [tv.tv_sec + tv.tv_usec * 1e-6]. *)
Definition time_of (tv : timeval) : F :=
  dadd (dofZ (tv_sec tv)) (dmul (dofZ (tv_usec tv)) (dlit 1 1000000)).

Definition get_time : prog world F :=
  fun w =>
    let t := time_of (env_clock (w_env w) (w_clock w)) in
    Done t (emit (EvGetTime t) (tick w)).

(** The process state at the start of [main]. *)
Definition initial_world (e : env) : world :=
  {| w_env := e; w_calls := 0; w_clock := 0; w_alloc := empty; w_mem := empty;
     w_trace := [] |}.

(** [CHECK_CUDA(func)] at source line [line] (lines 12-18). *)
Definition CHECK_CUDA (line : Z) (func : prog world Z) : prog world unit :=
  status <- func ;;
  if negb (Z.eqb status cudaSuccess)
  then printf (MsgCudaError status line) ;;; halt (-1)
  else ret tt.

(** [CHECK_CUBLAS(func)] at source line [line] (lines 20-26). *)
Definition CHECK_CUBLAS (line : Z) (func : prog world Z) : prog world unit :=
  status <- func ;;
  if negb (Z.eqb status CUBLAS_STATUS_SUCCESS)
  then printf (MsgCublasError status line) ;;; halt (-1)
  else ret tt.
End WithDouble.

(** A concrete runtime for the examples: every call succeeds, there are
    [ndev] devices, and [clock] gives the readings of [gettimeofday]. *)
Definition demo_env (ndev : Z) (clock : nat -> timeval) : env :=
  {| env_device_count := fun _ => (0, ndev);
     env_xt_create := fun _ => 0;
     env_device_select := fun _ _ _ => 0;
     env_set_block_dim := fun _ _ => 0;
     env_malloc_host := fun _ _ _ => 0;
     env_sgemm := fun _ _ => 0;
     env_sync := fun _ => 0;
     env_clock := clock |}.

(** A clock that advances one second per reading. *)
Definition seconds_clock (k : nat) : timeval := {| tv_sec := Z.of_nat k; tv_usec := 0 |}.
Arguments report F : clear implicits.
Arguments message F : clear implicits.
Arguments event F : clear implicits.
Arguments world F : clear implicits.

(** ** The macros and the allocator in the program logic *)
Section Safety.
Context {F : Type} `{Double F}.

(** Worlds are equal when their fields are; proving it field by field
    keeps the projections of nested updates small. *)
Lemma world_ext (w1 w2 : world F) :
  w_env w1 = w_env w2 -> w_calls w1 = w_calls w2 -> w_clock w1 = w_clock w2 ->
  w_alloc w1 = w_alloc w2 -> w_mem w1 = w_mem w2 -> w_trace w1 = w_trace w2 -> w1 = w2.
Proof. destruct w1, w2; cbn; intros; subst; reflexivity. Qed.

(** A check passes on success and otherwise prints and exits with -1. *)
Lemma CHECK_CUDA_ok (line : Z) (func : prog (world F) Z) (w w' : world F) :
  func w = Done cudaSuccess w' -> CHECK_CUDA line func w = Done tt w'.
Proof. intros Hf; unfold CHECK_CUDA, bind; rewrite Hf; reflexivity. Qed.

Lemma CHECK_CUDA_fail (line st : Z) (func : prog (world F) Z) (w w' : world F) :
  func w = Done st w' -> st <> cudaSuccess ->
  CHECK_CUDA line func w = Halted (-1) (emit (EvPrint (MsgCudaError st line)) w').
Proof.
  intros Hf Hst; unfold CHECK_CUDA, bind; rewrite Hf.
  destruct (Z.eqb_spec st cudaSuccess); [contradiction|reflexivity].
Qed.

Lemma CHECK_CUBLAS_ok (line : Z) (func : prog (world F) Z) (w w' : world F) :
  func w = Done CUBLAS_STATUS_SUCCESS w' -> CHECK_CUBLAS line func w = Done tt w'.
Proof. intros Hf; unfold CHECK_CUBLAS, bind; rewrite Hf; reflexivity. Qed.

Lemma CHECK_CUBLAS_fail (line st : Z) (func : prog (world F) Z) (w w' : world F) :
  func w = Done st w' -> st <> CUBLAS_STATUS_SUCCESS ->
  CHECK_CUBLAS line func w = Halted (-1) (emit (EvPrint (MsgCublasError st line)) w').
Proof.
  intros Hf Hst; unfold CHECK_CUBLAS, bind; rewrite Hf.
  destruct (Z.eqb_spec st CUBLAS_STATUS_SUCCESS); [contradiction|reflexivity].
Qed.

(** What holds after a successful status holds after the check. *)
Lemma CHECK_CUDA_safe (line : Z) (func : prog (world F) Z) P (R : world F -> Prop) :
  safe (-1) P func (fun st w => st = cudaSuccess -> R w) ->
  safe (-1) P (CHECK_CUDA line func) (fun _ w => R w).
Proof.
  intros Hf; unfold CHECK_CUDA; apply (safe_bind _ _ _ _ _ _ Hf); intros st.
  destruct (Z.eqb_spec st cudaSuccess); cbn [negb].
  - apply safe_ret; auto.
  - apply (safe_bind _ _ _ (fun _ _ => True)); [|intros; apply safe_halt].
    apply safe_done; intros w _; eexists _, _; split; [reflexivity|exact I].
Qed.

Lemma CHECK_CUBLAS_safe (line : Z) (func : prog (world F) Z) P (R : world F -> Prop) :
  safe (-1) P func (fun st w => st = CUBLAS_STATUS_SUCCESS -> R w) ->
  safe (-1) P (CHECK_CUBLAS line func) (fun _ w => R w).
Proof.
  intros Hf; unfold CHECK_CUBLAS; apply (safe_bind _ _ _ _ _ _ Hf); intros st.
  destruct (Z.eqb_spec st CUBLAS_STATUS_SUCCESS); cbn [negb].
  - apply safe_ret; auto.
  - apply (safe_bind _ _ _ (fun _ _ => True)); [|intros; apply safe_halt].
    apply safe_done; intros w _; eexists _, _; split; [reflexivity|exact I].
Qed.

(** [cudaMallocHost] keeps every property of the allocation table that
    survives allocating [b], and on success [b] has [bytes] bytes. *)
Lemma cudaMallocHost_safe (code : Z) (b : hbuf) (bytes : Z) (Pa : gmap hbuf Z -> Prop) :
  (forall a, Pa a -> Pa (<[b := bytes]> a)) ->
  safe code (fun w : world F => Pa (w_alloc w)) (cudaMallocHost b bytes)
    (fun st w => Pa (w_alloc w) /\ (st = cudaSuccess -> w_alloc w !! b = Some bytes)).
Proof.
  intros Hins; apply safe_done; intros w Hw; unfold cudaMallocHost, bind, call; cbn.
  destruct (Z.eqb_spec (env_malloc_host (w_env w) (w_calls w) b bytes) cudaSuccess) as [Hs|Hs];
    eexists _, _; (split; [reflexivity|]); cbn.
  - split; [apply Hins, Hw|]; intros _; apply lookup_insert_eq.
  - split; [exact Hw|]; intros; contradiction.
Qed.
End Safety.
End Runtime.
