(* ===== verification/HostInit.v ===== *)
(** * Host buffers: size and initialisation (lines 52-61)

  [size_bytes N] is [(size_t)N * N * sizeof(float)] of line 52, in 64-bit
  unsigned arithmetic, and [elem_count N] the bound [(size_t)N * N] of the
  loop of line 59.  [store b i v] is the C assignment [b[i] = v] on a
  pinned host buffer: in bounds it updates the element, out of bounds it is
  the [Fault] outcome (undefined behaviour).  The [#pragma omp parallel
  for] loop runs its iterations in an order the OpenMP runtime chooses;
  [init_loop order] runs them in the order [order], and the theorems hold
  for every order that is a permutation of the index range.

  The byte count is exact for every [int] except [INT_MIN]: there the
  product [N * N * 4 = 2^64] wraps to 0, the three buffers are empty and
  the first store of the loop is out of bounds ([int_min_faults]). *)

From Stdlib Require Import ZArith Lia List Permutation.
From stdpp Require Import base gmap.
From S2P Require Import Prelude Runtime.
Import ListNotations Runtime.

Local Open Scope Z_scope.
Local Open Scope monitor_scope.

Module HostInit.
Definition sizeof_float : Z := 4.

(** Line 52: [(size_t)N * N * sizeof(float)]. *)
Definition size_bytes (N : Z) : Z :=
  to_size_t (to_size_t (to_size_t N * to_size_t N) * sizeof_float).

(** Line 59: the loop bound [(size_t)N * N]. *)
Definition elem_count (N : Z) : Z := to_size_t (to_size_t N * to_size_t N).

(** [1.0f] and [0.5f] (line 60). *)
Definition one_f : f32 := f32_lit 1 0.
Definition half_f : f32 := f32_lit 1 (-1).

(** The indices [0 .. n-1] of the loop, in sequential order. *)
Definition zseq (n : Z) : list Z := map Z.of_nat (seq 0 (Z.to_nat n)).

Section Init.
Context {F : Type}.

(** [b[i] = v] on a pinned buffer of [float]. *)
Definition store (b : hbuf) (i : Z) (v : f32) : prog (world F) unit :=
  fun w =>
    match w_alloc w !! b with
    | Some bytes =>
        if (0 <=? i) && (sizeof_float * i + sizeof_float <=? bytes)
        then Done tt (set_mem (<[(b, i) := v]> (w_mem w)) w)
        else Fault w
    | None => Fault w
    end.

(** Lines 58-61, the iterations run in the order [order]. *)
Fixpoint init_loop (order : list Z) : prog (world F) unit :=
  match order with
  | [] => ret tt
  | i :: rest => store h_A i one_f ;;; store h_B i half_f ;;; init_loop rest
  end.

(** Lines 58-61 under an OpenMP schedule: [sched n] is the order in
    which the runtime runs the [n] iterations. *)
Definition host_init (sched : Z -> list Z) (N : Z) : prog (world F) unit :=
  init_loop (sched (elem_count N)).
End Init.

(** The memory after the loop, as the specification of its effect: the
    stores of each index, in the order given. *)
Fixpoint fill (order : list Z) (m : gmap (hbuf * Z) f32) : gmap (hbuf * Z) f32 :=
  match order with
  | [] => m
  | i :: rest => fill rest (<[(h_B, i) := half_f]> (<[(h_A, i) := one_f]> m))
  end.

(** The value the loop leaves at [(b, i)]. *)
Definition filled (order : list Z) (m : gmap (hbuf * Z) f32) (b : hbuf) (i : Z) : option f32 :=
  if decide (i ∈ order) then
    match b with h_A => Some one_f | h_B => Some half_f | h_C => m !! (h_C, i) end
  else m !! (b, i).

Lemma fill_lookup (order : list Z) (m : gmap (hbuf * Z) f32) (b : hbuf) (i : Z) :
  fill order m !! (b, i) = filled order m b i.
Proof.
  revert m; induction order as [|j order IH]; intros m; simpl.
  - unfold filled; rewrite decide_False by set_solver; reflexivity.
  - rewrite IH; unfold filled.
    destruct (decide (i = j)) as [->|Hij].
    + rewrite (decide_True (P := j ∈ j :: order)) by set_solver.
      case_decide; destruct b; try reflexivity;
        rewrite ?lookup_insert_ne by congruence; try reflexivity;
        rewrite ?lookup_insert_eq; try reflexivity;
        rewrite lookup_insert_ne by congruence; apply lookup_insert_eq.
    + destruct (decide (i ∈ order)) as [Hin|Hnin].
      * rewrite (decide_True (P := i ∈ j :: order)) by set_solver.
        destruct b; try reflexivity; rewrite !lookup_insert_ne by congruence; reflexivity.
      * rewrite (decide_False (P := i ∈ j :: order)) by set_solver.
        rewrite !lookup_insert_ne by congruence; reflexivity.
Qed.

Lemma filled_perm (o o' : list Z) (m : gmap (hbuf * Z) f32) (b : hbuf) (i : Z) :
  Permutation o o' -> filled o m b i = filled o' m b i.
Proof.
  intros Hp; unfold filled.
  destruct (decide (i ∈ o)) as [Hi|Hi], (decide (i ∈ o')) as [Hi'|Hi']; try reflexivity;
    exfalso; rewrite list_elem_of_In in Hi, Hi'.
  - apply Hi', (Permutation_in _ Hp Hi).
  - apply Hi, (Permutation_in _ (Permutation_sym Hp) Hi').
Qed.

Lemma set_mem_set_mem {F : Type} (m m' : gmap (hbuf * Z) f32) (w : world F) :
  set_mem m (set_mem m' w) = set_mem m w.
Proof. reflexivity. Qed.

(** The loop over in-bounds indices stores [1.0f] and [0.5f] at each. *)
Lemma init_loop_run {F : Type} (order : list Z) (bA bB : Z) (w : world F) :
  w_alloc w !! h_A = Some bA -> w_alloc w !! h_B = Some bB ->
  Forall (fun i => 0 <= i /\ sizeof_float * i + sizeof_float <= bA /\
                   sizeof_float * i + sizeof_float <= bB) order ->
  init_loop order w = Done tt (set_mem (fill order (w_mem w)) w).
Proof.
  revert w; induction order as [|i order IH]; intros w HA HB Hall; [destruct w; reflexivity|].
  inversion Hall as [|? ? (H0 & H1 & H2) Hrest]; subst.
  cbn [init_loop]; unfold bind at 1; unfold store at 1; rewrite HA.
  rewrite (proj2 (andb_true_iff _ _) (conj (proj2 (Z.leb_le _ _) H0) (proj2 (Z.leb_le _ _) H1))).
  unfold bind at 1; unfold store at 1; cbn [set_mem w_alloc]; rewrite HB.
  rewrite (proj2 (andb_true_iff _ _) (conj (proj2 (Z.leb_le _ _) H0) (proj2 (Z.leb_le _ _) H2))).
  rewrite IH by assumption; reflexivity.
Qed.

Lemma in_zseq (n i : Z) : In i (zseq n) <-> 0 <= i < n.
Proof.
  unfold zseq; rewrite in_map_iff; split.
  - intros (k & <- & Hk); apply in_seq in Hk; lia.
  - intros Hi; exists (Z.to_nat i); rewrite in_seq; split; lia.
Qed.

(** The loop bound is [N * N] for every [int] but [INT_MIN]. *)
Lemma elem_count_exact (N : Z) : INT_MIN < N <= INT_MAX -> elem_count N = N * N.
Proof.
  intros HN; unfold INT_MIN, INT_MAX in HN; unfold elem_count, to_size_t.
  rewrite <- Z.mul_mod by lia; apply Z.mod_small; nia.
Qed.

Lemma size_bytes_elems (N : Z) :
  INT_MIN < N <= INT_MAX -> size_bytes N = sizeof_float * elem_count N.
Proof.
  intros HN; pose proof (elem_count_exact N HN) as Hc; unfold INT_MIN, INT_MAX in HN.
  unfold size_bytes; fold (elem_count N); rewrite Hc; unfold to_size_t, sizeof_float.
  rewrite Z.mod_small by nia; ring.
Qed.

(** The loop under a schedule that permutes the index range, on buffers
    of [size_bytes N] bytes, completes and stores every element. *)
Lemma host_init_run {F : Type} (sched : Z -> list Z) (N : Z) (w : world F) :
  INT_MIN < N <= INT_MAX ->
  Permutation (sched (elem_count N)) (zseq (elem_count N)) ->
  w_alloc w !! h_A = Some (size_bytes N) -> w_alloc w !! h_B = Some (size_bytes N) ->
  host_init sched N w = Done tt (set_mem (fill (sched (elem_count N)) (w_mem w)) w).
Proof.
  intros HN Hp HA HB; pose proof (size_bytes_elems N HN) as Hs.
  apply (init_loop_run _ _ _ w HA HB), Forall_forall; intros i Hi.
  rewrite list_elem_of_In in Hi; apply (Permutation_in _ Hp), in_zseq in Hi.
  rewrite Hs; unfold sizeof_float in *; lia.
Qed.

(** C15: No overflow for [INT_MIN < N]: the loop bound is [N * N] and
    the byte count [4 N^2] of each buffer is exactly four bytes per
    element, for negative [N] too ([(size_t)N] wraps, the product of two
    wrapped values does not). *)
Theorem size_bytes_exact (N : Z) :
  INT_MIN < N <= INT_MAX ->
  elem_count N = N * N /\ size_bytes N = sizeof_float * elem_count N.
Proof. intros HN; split; [apply elem_count_exact | apply size_bytes_elems]; exact HN. Qed.

(** C12: The initialisation is in bounds and its effect does not depend
    on the OpenMP schedule: for [INT_MIN < N] and buffers of
    [size_bytes N] bytes, every schedule that is a permutation of the
    [N * N] indices completes without fault, and afterwards element [i]
    of [h_A] is [1.0f] and of [h_B] is [0.5f] exactly for
    [0 <= i < N * N], everything else unchanged. *)
Theorem host_init_fills {F : Type} (sched : Z -> list Z) (N : Z) (w : world F) :
  INT_MIN < N <= INT_MAX ->
  Permutation (sched (elem_count N)) (zseq (elem_count N)) ->
  w_alloc w !! h_A = Some (size_bytes N) -> w_alloc w !! h_B = Some (size_bytes N) ->
  exists w', host_init sched N w = Done tt w' /\
    w_alloc w' = w_alloc w /\ w_trace w' = w_trace w /\
    forall b i, w_mem w' !! (b, i) = filled (zseq (elem_count N)) (w_mem w) b i.
Proof.
  intros HN Hp HA HB; rewrite (host_init_run sched N w HN Hp HA HB).
  eexists; split; [reflexivity|]; split; [reflexivity|]; split; [reflexivity|].
  intros b i; cbn [w_mem set_mem]; rewrite fill_lookup; apply filled_perm; exact Hp.
Qed.

(** C31: [N = INT_MIN] (which [atoi] returns for "-2147483648"): the
    byte count [4 * 2^62 = 2^64] wraps to 0 while the loop still runs
    [2^62] iterations, so whatever the schedule the first store is out of
    the bounds of the empty buffer: undefined behaviour. *)
Theorem int_min_faults {F : Type} (sched : Z -> list Z) (w : world F) :
  w_alloc w !! h_A = Some (size_bytes INT_MIN) ->
  sched (elem_count INT_MIN) <> [] ->
  size_bytes INT_MIN = 0 /\ elem_count INT_MIN = 2 ^ 62 /\
  host_init sched INT_MIN w = Fault w.
Proof.
  intros HA Hne.
  assert (H0 : size_bytes INT_MIN = 0) by reflexivity.
  split; [exact H0|]; split; [reflexivity|].
  unfold host_init; destruct (sched (elem_count INT_MIN)) as [|i rest]; [congruence|].
  cbn [init_loop]; unfold bind at 1; unfold store; rewrite HA, H0.
  destruct (0 <=? i) eqn:Hi; [|reflexivity].
  apply Z.leb_le in Hi; unfold sizeof_float.
  destruct (Z.leb_spec (4 * i + 4) 0); [lia|reflexivity].
Qed.
End HostInit.

(** ** Witnesses *)
Module HostInitExamples.
Import HostInit.

Lemma size_bytes_exact_witness :
  elem_count 16384 = 16384 * 16384 /\ size_bytes 16384 = sizeof_float * elem_count 16384.
Proof. apply size_bytes_exact; int_range. Defined.

(** N = 2: two buffers of 16 bytes, filled in sequential order. *)
Definition w_two : world unit :=
  set_alloc (<[h_A := size_bytes 2]> (<[h_B := size_bytes 2]> ∅))
    (initial_world (demo_env 2 seconds_clock)).

Lemma host_init_fills_witness :
  exists w', host_init zseq 2 w_two = Done tt w' /\
    w_alloc w' = w_alloc w_two /\ w_trace w' = w_trace w_two /\
    forall b i, w_mem w' !! (b, i) = filled (zseq (elem_count 2)) (w_mem w_two) b i.
Proof. apply host_init_fills; [int_range | reflexivity | reflexivity | reflexivity]. Defined.

(** N = INT_MIN with an empty [h_A] and a schedule that starts at 0. *)
Definition w_min : world unit :=
  set_alloc (<[h_A := size_bytes INT_MIN]> ∅) (initial_world (demo_env 2 seconds_clock)).

Lemma int_min_faults_witness :
  size_bytes INT_MIN = 0 /\ elem_count INT_MIN = 2 ^ 62 /\
  host_init (fun _ => [0]) INT_MIN w_min = Fault w_min.
Proof. apply int_min_faults; [reflexivity | discriminate]. Defined.
End HostInitExamples.
