(* ===== verification/Sampling.v ===== *)
(** * The warm-up call and the duration-boxed sampling loop (lines 63-75)

  [warmup] is lines 63-66: one [cublasXtSgemm] whose time is not taken,
  followed by [cudaDeviceSynchronize].  [sample_loop] is the [while] loop
  of lines 70-75 as a fuel-indexed interpreter: each round reads the clock
  for the deadline test [(get_time() - start_test) < duration], and when
  it passes runs [loop_body] (read [t0], the checked multiply, the
  synchronisation, push [get_time() - t0]).  [sampling] is lines 68-75.

  The loop's specification ([Section Spec]) is stated over the clock
  readings of the environment: the loop that starts at clock index [c]
  reads index [c + 3j] for its j-th deadline test and [c + 3j + 1],
  [c + 3j + 2] around its j-th multiply, so it runs exactly the number
  [k] of rounds before the first failed test and returns the [k]
  intervals [reading (c + 3j + 2) - reading (c + 3j + 1)].
  [sample_loop_refines] proves that the interpreter computes this, with
  the trace of library calls it makes; the theorems on exact arithmetic
  show that a monotone unbounded clock makes the loop terminate, that the
  samples are non-negative and add up to no more than the elapsed time,
  and that a non-positive duration gives no sample at all.  Section
  [Safety] proves the triples of the warm-up and the loop: they never
  fault, exit only through a failed check, and keep the allocation
  table. *)

From Stdlib Require Import ZArith Lia List QArith Qround Lqa.
From S2P Require Import Prelude Double Classify Metrics Runtime.
Import ListNotations Runtime.

Local Open Scope monitor_scope.

Module Sampling.
(** [float alpha = 1.0f, beta = 0.0f;] (line 63). *)
Definition alpha : f32 := f32_lit 1 0.
Definition beta : f32 := f32_lit 0 0.

(** The arguments of both multiply calls (lines 65 and 72). *)
Definition gemm_call (N : Z) : sgemm_call :=
  {| sg_transa := CUBLAS_OP_N; sg_transb := CUBLAS_OP_N;
     sg_m := N; sg_n := N; sg_k := N;
     sg_alpha := alpha; sg_A := h_A; sg_lda := N; sg_B := h_B; sg_ldb := N;
     sg_beta := beta; sg_C := h_C; sg_ldc := N |}.

Section Loop.
Context {F : Type} `{Double F}.

(** Lines 64-66. *)
Definition warmup (N : Z) : prog (world F) unit :=
  printf MsgWarmup ;;;
  CHECK_CUBLAS 65 (cublasXtSgemm (gemm_call N)) ;;;
  _ <- cudaDeviceSynchronize ;;
  ret tt.

(** Lines 71-74: one timed multiply. *)
Definition loop_body (N : Z) (latencies : list F) : prog (world F) (list F) :=
  t0 <- get_time ;;
  CHECK_CUBLAS 72 (cublasXtSgemm (gemm_call N)) ;;;
  _ <- cudaDeviceSynchronize ;;
  t1 <- get_time ;;
  ret (latencies ++ [dsub t1 t0]).

(** Line 70 and the loop back-edge. *)
Fixpoint sample_loop (fuel : nat) (N : Z) (start_test : F) (duration : Z)
         (latencies : list F) : prog (world F) (list F) :=
  match fuel with
  | O => out_of_fuel
  | S fuel' =>
      now <- get_time ;;
      if dlt (dsub now start_test) (dofZ duration)
      then latencies' <- loop_body N latencies ;;
           sample_loop fuel' N start_test duration latencies'
      else ret latencies
  end.

(** Lines 68-75. *)
Definition sampling (fuel : nat) (N duration : Z) : prog (world F) (list F) :=
  start_test <- get_time ;;
  sample_loop fuel N start_test duration [].
End Loop.

Section Spec.
Context {F : Type} `{Double F}.

(** The value [get_time] returns at the k-th clock reading. *)
Definition reading (e : env) (k : nat) : F := time_of (env_clock e k).

(** The deadline test made with the clock reading [i]. *)
Definition check_passes (e : env) (start : F) (duration : Z) (i : nat) : bool :=
  dlt (dsub (reading e i) start) (dofZ duration).

(** The sample of the round whose deadline test read index [c]. *)
Definition interval (e : env) (c : nat) : F :=
  dsub (reading e (S (S c))) (reading e (S c)).

(** The events of that round, its multiply being library call [k0]. *)
Definition iteration_events (e : env) (N : Z) (k0 c : nat) : list (event F) :=
  [EvGetTime (reading e c); EvGetTime (reading e (S c));
   EvSgemm (gemm_call N) (env_sgemm e k0 (gemm_call N));
   EvSync (env_sync e (S k0)); EvGetTime (reading e (S (S c)))].

(** The world after [k] rounds and the failed test that ends the loop. *)
Definition loop_post (N : Z) (w : world F) (k : nat) (w' : world F) : Prop :=
  w_env w' = w_env w /\
  w_calls w' = (w_calls w + 2 * k)%nat /\
  w_clock w' = (w_clock w + 3 * k + 1)%nat /\
  w_alloc w' = w_alloc w /\ w_mem w' = w_mem w /\
  w_trace w' = w_trace w ++
    flat_map (fun j => iteration_events (w_env w) N (w_calls w + 2 * j) (w_clock w + 3 * j))
             (seq 0 k) ++
    [EvGetTime (reading (w_env w) (w_clock w + 3 * k))].
End Spec.

Section Steps.
Context {F : Type} `{Double F}.

(** A failed deadline test ends the loop after one clock reading. *)
Lemma sample_loop_stop (f : nat) (N : Z) (start : F) (d : Z) (lat : list F) (w : world F) :
  check_passes (w_env w) start d (w_clock w) = false ->
  sample_loop (S f) N start d lat w =
  Done lat (emit (EvGetTime (reading (w_env w) (w_clock w))) (tick w)).
Proof.
  unfold check_passes, reading; intros Hc; cbn.
  rewrite Hc; reflexivity.
Qed.

(** A passed test with a successful multiply runs one round and loops
    with three more clock readings and two more library calls. *)
Lemma sample_loop_pass (f : nat) (N : Z) (start : F) (d : Z) (lat : list F) (w : world F) :
  check_passes (w_env w) start d (w_clock w) = true ->
  env_sgemm (w_env w) (w_calls w) (gemm_call N) = CUBLAS_STATUS_SUCCESS ->
  exists w1,
    sample_loop (S f) N start d lat w =
    sample_loop f N start d (lat ++ [interval (w_env w) (w_clock w)]) w1 /\
    w_env w1 = w_env w /\ w_calls w1 = S (S (w_calls w)) /\
    w_clock w1 = S (S (S (w_clock w))) /\
    w_alloc w1 = w_alloc w /\ w_mem w1 = w_mem w /\
    w_trace w1 = w_trace w ++ iteration_events (w_env w) N (w_calls w) (w_clock w).
Proof.
  unfold check_passes, interval, iteration_events, reading; intros Hc Hs.
  eexists; split.
  - cbn; rewrite Hc.
    unfold loop_body, CHECK_CUBLAS, cublasXtSgemm, cudaDeviceSynchronize, get_time,
      call, bind, ret; cbn.
    rewrite Hs; reflexivity.
  - cbn; rewrite <- !app_assoc, Hs; repeat split; reflexivity.
Qed.
End Steps.

Section Refinement.
Context {F : Type} `{Double F}.

(** The run of the loop over [k] passing rounds. *)
Lemma sample_loop_run (k : nat) :
  forall (fuel : nat) (N : Z) (start : F) (d : Z) (lat : list F) (w : world F),
  (forall j, (j < k)%nat -> check_passes (w_env w) start d (w_clock w + 3 * j) = true) ->
  check_passes (w_env w) start d (w_clock w + 3 * k) = false ->
  (forall j, (j < k)%nat ->
     env_sgemm (w_env w) (w_calls w + 2 * j) (gemm_call N) = CUBLAS_STATUS_SUCCESS) ->
  (k < fuel)%nat ->
  exists w',
    sample_loop fuel N start d lat w =
      Done (lat ++ map (fun j => interval (w_env w) (w_clock w + 3 * j)) (seq 0 k)) w' /\
    loop_post N w k w'.
Proof.
  induction k as [|k IH]; intros fuel N start d lat w Hpass Hstop Hok Hfuel;
    (destruct fuel as [|f]; [lia|]).
  - rewrite Nat.mul_0_r, Nat.add_0_r in Hstop.
    eexists; split; [rewrite sample_loop_stop by exact Hstop; simpl; rewrite app_nil_r; reflexivity|].
    unfold loop_post; cbn; rewrite ?Nat.mul_0_r, ?Nat.add_0_r; repeat split; lia.
  - assert (H0 := Hpass 0%nat ltac:(lia)); rewrite Nat.mul_0_r, Nat.add_0_r in H0.
    assert (S0 := Hok 0%nat ltac:(lia)); rewrite Nat.mul_0_r, Nat.add_0_r in S0.
    destruct (sample_loop_pass f N start d lat w H0 S0)
      as (w1 & Heq & Henv & Hcalls & Hclk & Hal & Hmem & Htr).
    destruct (IH f N start d (lat ++ [interval (w_env w) (w_clock w)]) w1)
      as (w' & Hrun & Hpost).
    + intros j Hj; rewrite Henv, Hclk.
      replace (S (S (S (w_clock w))) + 3 * j)%nat with (w_clock w + 3 * S j)%nat by lia.
      apply Hpass; lia.
    + rewrite Henv, Hclk.
      replace (S (S (S (w_clock w))) + 3 * k)%nat with (w_clock w + 3 * S k)%nat by lia.
      exact Hstop.
    + intros j Hj; rewrite Henv, Hcalls.
      replace (S (S (w_calls w)) + 2 * j)%nat with (w_calls w + 2 * S j)%nat by lia.
      apply Hok; lia.
    + lia.
    + exists w'; split.
      * rewrite Heq, Hrun, map_seq_succ, <- app_assoc, Henv, Hclk; simpl.
        rewrite ?Nat.mul_0_r, ?Nat.add_0_r; do 3 f_equal.
        apply map_ext; intros j; f_equal; lia.
      * destruct Hpost as (Henv' & Hcalls' & Hclk' & Hal' & Hmem' & Htr').
        rewrite Henv, Hcalls, Hclk in *.
        unfold loop_post; repeat split; try congruence; try lia.
        rewrite Htr', Htr, flat_map_seq_succ, ?Nat.mul_0_r, ?Nat.add_0_r, <- !app_assoc.
        do 2 f_equal; f_equal.
        { apply flat_map_ext; intros j; f_equal; lia. }
        do 3 f_equal; lia.
Qed.

(** The samples of [k] rounds whose deadline tests read [c], [c + 3],
    ... *)
Definition loop_samples (e : env) (c k : nat) : list F :=
  map (fun j => interval e (c + 3 * j)) (seq 0 k).

(** Lines 64-66 when the multiply succeeds: two library calls. *)
Lemma warmup_run (N : Z) (w : world F) :
  env_sgemm (w_env w) (w_calls w) (gemm_call N) = CUBLAS_STATUS_SUCCESS ->
  warmup N w = Done tt
    {| w_env := w_env w; w_calls := S (S (w_calls w)); w_clock := w_clock w;
       w_alloc := w_alloc w; w_mem := w_mem w;
       w_trace := w_trace w ++ [EvPrint MsgWarmup; EvSgemm (gemm_call N) CUBLAS_STATUS_SUCCESS;
                                EvSync (env_sync (w_env w) (S (w_calls w)))] |}.
Proof.
  intros Hs; unfold warmup, printf, CHECK_CUBLAS, cublasXtSgemm, cudaDeviceSynchronize,
    call, bind, ret; cbn; rewrite Hs; cbn.
  unfold emit, bump; cbn; rewrite <- !app_assoc; reflexivity.
Qed.

(** Lines 68-75: [start_test] is the reading at [w_clock w] and the
    loop's rounds start at the next one. *)
Lemma sampling_run (k fuel : nat) (N d : Z) (w : world F) :
  let start := reading (w_env w) (w_clock w) in
  (forall j, (j < k)%nat -> check_passes (w_env w) start d (S (w_clock w) + 3 * j) = true) ->
  check_passes (w_env w) start d (S (w_clock w) + 3 * k) = false ->
  (forall j, (j < k)%nat ->
     env_sgemm (w_env w) (w_calls w + 2 * j) (gemm_call N) = CUBLAS_STATUS_SUCCESS) ->
  (k < fuel)%nat ->
  exists w', sampling fuel N d w = Done (loop_samples (w_env w) (S (w_clock w)) k) w' /\
             loop_post N (emit (EvGetTime start) (tick w)) k w'.
Proof.
  intros start Hpass Hstop Hok Hfuel.
  destruct (sample_loop_run k fuel N start d [] (emit (EvGetTime start) (tick w)) Hpass Hstop Hok Hfuel)
    as (w' & Hrun & Hpost).
  exists w'; split; [exact Hrun | exact Hpost].
Qed.
End Refinement.

Section Claims.
Context {F : Type} `{Double F}.

(** C5: Refinement of the sampling loop.  If the deadline tests made
    at the clock indices [c], [c + 3], ..., [c + 3(k-1)] pass, the one
    at [c + 3k] fails, and the [k] timed multiplies succeed, then the
    loop run with more than [k] units of fuel returns the samples
    [reading (c + 3j + 2) - reading (c + 3j + 1)] for [j < k], in
    order, and leaves the world of [loop_post]: [k] rounds of events
    (test, [t0], multiply, its synchronisation, [t1]) followed by the
    failed test. *)
Theorem sample_loop_refines (k fuel : nat) (N : Z) (start : F) (d : Z) (w : world F) :
  (forall j, (j < k)%nat -> check_passes (w_env w) start d (w_clock w + 3 * j) = true) ->
  check_passes (w_env w) start d (w_clock w + 3 * k) = false ->
  (forall j, (j < k)%nat ->
     env_sgemm (w_env w) (w_calls w + 2 * j) (gemm_call N) = CUBLAS_STATUS_SUCCESS) ->
  (k < fuel)%nat ->
  exists w',
    sample_loop fuel N start d [] w =
      Done (map (fun j => interval (w_env w) (w_clock w + 3 * j)) (seq 0 k)) w' /\
    loop_post N w k w'.
Proof. intros; apply (sample_loop_run k fuel N start d [] w); assumption. Qed.
End Claims.
(** ** No fault, and every exit is [exit(-1)] *)
Section Safety.
Context {F : Type} `{Double F}.
Variable Pa : alloc_table -> Prop.

(** The warm-up, the loop and the sampling phase keep every property of
    the allocation table, never fault, and exit only through a failed
    check. *)
Lemma warmup_safe (N : Z) :
  safe (-1) (fun w : world F => Pa (w_alloc w)) (warmup N) (fun _ w => Pa (w_alloc w)).
Proof.
  unfold warmup.
  apply (safe_bind _ _ _ (fun _ w => Pa (w_alloc w))); [safe_step|intros ?].
  apply (safe_bind _ _ _ (fun _ w => Pa (w_alloc w))); [apply CHECK_CUBLAS_safe; safe_step|intros ?].
  apply (safe_bind _ _ _ (fun _ w => Pa (w_alloc w))); [safe_step|intros ?].
  apply safe_ret; auto.
Qed.

Lemma loop_body_safe (N : Z) (lat : list F) :
  safe (-1) (fun w : world F => Pa (w_alloc w)) (loop_body N lat) (fun _ w => Pa (w_alloc w)).
Proof.
  unfold loop_body.
  apply (safe_bind _ _ _ (fun _ w => Pa (w_alloc w))); [safe_step|intros ?].
  apply (safe_bind _ _ _ (fun _ w => Pa (w_alloc w))); [apply CHECK_CUBLAS_safe; safe_step|intros ?].
  apply (safe_bind _ _ _ (fun _ w => Pa (w_alloc w))); [safe_step|intros ?].
  apply (safe_bind _ _ _ (fun _ w => Pa (w_alloc w))); [safe_step|intros ?].
  apply safe_ret; auto.
Qed.

Lemma sample_loop_safe (fuel : nat) :
  forall (N : Z) (start : F) (d : Z) (lat : list F),
  safe (-1) (fun w : world F => Pa (w_alloc w)) (sample_loop fuel N start d lat)
    (fun _ w => Pa (w_alloc w)).
Proof.
  induction fuel as [|f IH]; intros N start d lat; cbn [sample_loop]; [apply safe_out_of_fuel|].
  apply (safe_bind _ _ _ (fun _ w => Pa (w_alloc w))); [safe_step|intros now].
  apply safe_if; [|apply safe_ret; auto].
  apply (safe_bind _ _ _ _ _ _ (loop_body_safe N lat)); intros lat'; apply IH.
Qed.

Lemma sampling_safe (fuel : nat) (N d : Z) :
  safe (-1) (fun w : world F => Pa (w_alloc w)) (sampling fuel N d) (fun _ w => Pa (w_alloc w)).
Proof.
  unfold sampling.
  apply (safe_bind _ _ _ (fun _ w => Pa (w_alloc w))); [safe_step|intros start].
  apply sample_loop_safe.
Qed.
End Safety.
End Sampling.

(** ** Exact arithmetic: a clock that is a sequence of rationals *)
Module SamplingQ.
Import Sampling Exact MetricsQ.
Local Open Scope Q_scope.

(** The clock never goes back. *)
Definition clock_monotone (e : env) : Prop :=
  forall i j, (i <= j)%nat -> reading (F := Q) e i <= reading e j.

(** The clock eventually passes every bound. *)
Definition clock_unbounded (e : env) : Prop :=
  forall b : Q, exists k, b <= reading (F := Q) e k.

Lemma check_passes_Q (e : env) (start : Q) (d : Z) (i : nat) :
  check_passes e start d i = true <-> reading e i - start < inject_Z d.
Proof. unfold check_passes; to_Q; apply Qltb_iff. Qed.

Lemma check_fails_Q (e : env) (start : Q) (d : Z) (i : nat) :
  check_passes e start d i = false <-> inject_Z d <= reading e i - start.
Proof. unfold check_passes; to_Q; apply Qltb_false. Qed.

(** On a monotone clock every interval is non-negative and the
    intervals of [k] rounds add up to at most the time between [start]
    and the deadline test that follows them. *)
Lemma intervals_within (e : env) (k : nat) :
  clock_monotone e ->
  forall (c : nat) (start : Q), start <= reading e c ->
  Forall (fun x => 0 <= x) (map (fun j => interval (F := Q) e (c + 3 * j)) (seq 0 k)) /\
  Qsum (map (fun j => interval (F := Q) e (c + 3 * j)) (seq 0 k)) <= reading e (c + 3 * k) - start.
Proof.
  intros Hm; induction k as [|k IH]; intros c start Hs.
  - unfold Qsum; cbn [map seq fold_right]; rewrite Nat.mul_0_r, Nat.add_0_r.
    split; [apply Forall_nil | lra].
  - rewrite map_seq_succ; cbv beta; rewrite Nat.mul_0_r, Nat.add_0_r.
    assert (Hmap : map (fun j => interval (F := Q) e (c + 3 * S j)) (seq 0 k) =
                   map (fun j => interval (F := Q) e (S (S (S c)) + 3 * j)) (seq 0 k))
      by (apply map_ext; intros j; f_equal; lia).
    rewrite Hmap.
    destruct (IH (S (S (S c))) (reading e (S (S (S c))))) as [Hpos Hsum]; [lra|].
    assert (H1 := Hm c (S c) ltac:(lia)).
    assert (H2 := Hm (S c) (S (S c)) ltac:(lia)).
    assert (H3 := Hm (S (S c)) (S (S (S c))) ltac:(lia)).
    replace (c + 3 * S k)%nat with (S (S (S c)) + 3 * k)%nat by lia.
    change (Qsum (?x :: ?l)) with (x + Qsum l).
    assert (Hi : interval (F := Q) e c == reading e (S (S c)) - reading e (S c))
      by (unfold interval; to_Q; reflexivity).
    split; [constructor; [rewrite Hi; lra | exact Hpos]|].
    rewrite Hi; lra.
Qed.

(** On a monotone, unbounded clock the deadline tests made every three
    readings from [c] pass a finite number [k] of times, then fail. *)
Lemma rounds_exist (e : env) (start : Q) (d : Z) (c : nat) :
  clock_monotone e -> clock_unbounded e ->
  exists k, (forall j, (j < k)%nat -> check_passes e start d (c + 3 * j) = true) /\
            check_passes e start d (c + 3 * k) = false.
Proof.
  intros Hm Hu; destruct (Hu (start + inject_Z d)) as [K HK].
  set (p := fun j => check_passes e start d (c + 3 * j)).
  assert (HpK : p K = false).
  { unfold p; apply check_fails_Q.
    assert (Hle := Hm K (c + 3 * K)%nat ltac:(lia)); lra. }
  destruct (first_failure p K HpK) as (k & _ & Hk & Hbefore).
  exists k; split; [exact Hbefore | exact Hk].
Qed.

(** C6: Termination: on a monotone, unbounded clock with multiplies that
    succeed, the loop started at any world stops: there is a round count
    [k] such that every fuel above [k] runs it to [Done] with the [k]
    samples of the specification. *)
Theorem sample_loop_terminates (N : Z) (start : Q) (d : Z) (w : world Q) :
  clock_monotone (w_env w) -> clock_unbounded (w_env w) ->
  (forall k c, env_sgemm (w_env w) k c = CUBLAS_STATUS_SUCCESS) ->
  exists k, forall fuel, (k < fuel)%nat ->
    exists w',
      sample_loop fuel N start d [] w =
        Done (map (fun j => interval (w_env w) (w_clock w + 3 * j)) (seq 0 k)) w' /\
      loop_post N w k w'.
Proof.
  intros Hm Hu Hok.
  destruct (rounds_exist (w_env w) start d (w_clock w) Hm Hu) as (k & Hpass & Hstop).
  exists k; intros fuel Hfuel.
  apply (sample_loop_run k fuel N start d [] w); auto.
Qed.

(** C21: The samples the loop returns are non-negative, their sum is at
    most the time elapsed between [start_test] and the final deadline
    test, and that final test is at least [duration] after [start_test]:
    the time attributed to the multiplies never exceeds the wall time of
    the loop, which runs for at least the requested duration. *)
Theorem samples_within_elapsed (k fuel : nat) (N : Z) (start : Q) (d : Z) (w : world Q) :
  clock_monotone (w_env w) -> start <= reading (w_env w) (w_clock w) ->
  (forall j, (j < k)%nat -> check_passes (w_env w) start d (w_clock w + 3 * j) = true) ->
  check_passes (w_env w) start d (w_clock w + 3 * k) = false ->
  (forall j, (j < k)%nat ->
     env_sgemm (w_env w) (w_calls w + 2 * j) (gemm_call N) = CUBLAS_STATUS_SUCCESS) ->
  (k < fuel)%nat ->
  exists lat w', sample_loop fuel N start d [] w = Done lat w' /\
    Forall (fun x => 0 <= x) lat /\
    Qsum lat <= reading (w_env w) (w_clock w + 3 * k) - start /\
    inject_Z d <= reading (w_env w) (w_clock w + 3 * k) - start.
Proof.
  intros Hm Hs Hpass Hstop Hok Hfuel.
  destruct (sample_loop_run k fuel N start d [] w Hpass Hstop Hok Hfuel) as (w' & Hrun & _).
  destruct (intervals_within (w_env w) k Hm (w_clock w) start Hs) as [Hpos Hsum].
  exists (map (fun j => interval (w_env w) (w_clock w + 3 * j)) (seq 0 k)), w'.
  split; [exact Hrun|]; split; [exact Hpos|]; split; [exact Hsum|].
  apply check_fails_Q; exact Hstop.
Qed.

(** The loop entered right after [start_test] was read. *)
Lemma sampling_unfold (fuel : nat) (N d : Z) (w : world Q) :
  sampling fuel N d w =
  sample_loop fuel N (reading (w_env w) (w_clock w)) d []
    (emit (EvGetTime (reading (w_env w) (w_clock w))) (tick w)).
Proof. reflexivity. Qed.

(** C26: A non-positive duration gives no sample: on a monotone clock the
    first deadline test [(get_time() - start_test) < duration] fails, the
    loop body never runs and the latency vector is empty, against the
    specification's "the loop body is always executed at least once". *)
Theorem sampling_nonpositive_duration (fuel : nat) (N d : Z) (w : world Q) :
  clock_monotone (w_env w) -> (d <= 0)%Z -> (0 < fuel)%nat ->
  exists w', sampling fuel N d w = Done [] w'.
Proof.
  intros Hm Hd Hf; destruct fuel as [|f]; [lia|].
  rewrite sampling_unfold; eexists; apply sample_loop_stop.
  apply check_fails_Q; cbn [w_env w_clock emit tick].
  assert (Hle := Hm (w_clock w) (S (w_clock w)) ltac:(lia)).
  assert (Hd' : inject_Z d <= 0) by (change 0 with (inject_Z 0); rewrite <- Zle_Qle; exact Hd).
  lra.
Qed.
End SamplingQ.

(** ** Concrete runs *)
Module SamplingExamples.
Import Sampling SamplingQ Exact.
Local Open Scope Q_scope.

Definition e1 : env := demo_env 2 seconds_clock.
Definition w1 : world Q := initial_world e1.

Lemma seconds_reading (i : nat) : reading (F := Q) e1 i == inject_Z (Z.of_nat i).
Proof. unfold reading, time_of; cbn [env_clock e1 demo_env seconds_clock tv_sec tv_usec]; to_Q; ring. Qed.

Lemma e1_monotone : clock_monotone e1.
Proof. intros i j Hij; rewrite !seconds_reading, <- Zle_Qle; lia. Qed.

Lemma e1_unbounded : clock_unbounded e1.
Proof.
  intros b; exists (Z.to_nat (Qceiling b)); rewrite seconds_reading.
  apply Qle_trans with (inject_Z (Qceiling b)); [apply Qle_ceiling|].
  rewrite <- Zle_Qle; lia.
Qed.

(** The loop with deadline 5 s from [start_test = 0] on the one-second
    clock: tests at 0 s and 3 s pass, the test at 6 s fails. *)
Lemma sample_loop_refines_witness :
  exists w', sample_loop 3 7 0 5 [] w1 =
    Done (map (fun j => interval (w_env w1) (w_clock w1 + 3 * j)) (seq 0 2)) w' /\
    loop_post 7 w1 2 w'.
Proof.
  apply (sample_loop_refines 2 3 7 0 5 w1).
  - intros j Hj; destruct j as [|[|j]]; [vm_compute; reflexivity | vm_compute; reflexivity | lia].
  - vm_compute; reflexivity.
  - intros j Hj; reflexivity.
  - lia.
Defined.

Lemma sample_loop_terminates_witness :
  exists k, forall fuel, (k < fuel)%nat ->
    exists w', sample_loop fuel 7 0 5 [] w1 =
      Done (map (fun j => interval (w_env w1) (w_clock w1 + 3 * j)) (seq 0 k)) w' /\
      loop_post 7 w1 k w'.
Proof.
  apply (sample_loop_terminates 7 0 5 w1).
  - exact e1_monotone.
  - exact e1_unbounded.
  - intros k c; reflexivity.
Defined.

Lemma samples_within_elapsed_witness :
  exists lat w', sample_loop 3 7 0 5 [] w1 = Done lat w' /\
    Forall (fun x => 0 <= x) lat /\
    MetricsQ.Qsum lat <= reading (w_env w1) (w_clock w1 + 3 * 2) - 0 /\
    inject_Z 5 <= reading (w_env w1) (w_clock w1 + 3 * 2) - 0.
Proof.
  apply (samples_within_elapsed 2 3 7 0 5 w1).
  - exact e1_monotone.
  - vm_compute; discriminate.
  - intros j Hj; destruct j as [|[|j]]; [vm_compute; reflexivity | vm_compute; reflexivity | lia].
  - vm_compute; reflexivity.
  - intros j Hj; reflexivity.
  - lia.
Defined.

Lemma sampling_nonpositive_duration_witness :
  exists w', sampling 1 7 0 w1 = Done [] w'.
Proof.
  apply (sampling_nonpositive_duration 1 7 0 w1); [exact e1_monotone | lia | lia].
Defined.
End SamplingExamples.
