(* ===== verification/LoopSem.v ===== *)
(** * The sampling loop as a big-step relation (lines 70-75)

  [loop_exec N start d lat w o] is the natural semantics of the [while]
  loop of lines 70-75, in the style of the rules for [WHILE] of an
  imperative language: the deadline test reads the clock once; when it
  fails the loop ends with the vector it has, when it passes the body
  ([Sampling.loop_body], lines 71-74) runs and the loop continues, and a
  body that stops the process (the [CHECK_CUBLAS] of line 72 calling
  [exit]) stops the loop with it.  Only finite executions are derivable.

  The fuel interpreter [Sampling.sample_loop] computes exactly this
  relation: every finished result of the interpreter is an execution
  ([sample_loop_sound]) and every execution is computed with enough fuel
  ([sample_loop_complete], together [sample_loop_exec_iff]), so the
  theorems below apply to what [main] runs.  By rule induction the
  relation keeps the shape of the state ([loop_exec_done_shape]: one
  sample, three clock readings and two library calls per round, the
  samples gathered before kept as a prefix) and explains every exit
  ([loop_exec_halted]: the last two events are the failed multiply and
  its message with line 72). *)

From Stdlib Require Import ZArith Lia List.
From S2P Require Import Prelude Double Classify Metrics Runtime Sampling.
Import ListNotations Runtime Sampling.

Local Open Scope Z_scope.
Local Open Scope monitor_scope.

Module LoopSem.

(** ** The loop body's outcomes *)
Section Body.
Context {F : Type} `{Double F}.

(** A round that returns appended one sample, read the clock twice, made
    two library calls and left the buffers alone. *)
Lemma loop_body_done (N : Z) (lat lat' : list F) (w w' : world F) :
  loop_body N lat w = Done lat' w' ->
  exists x, lat' = lat ++ [x] /\ w_env w' = w_env w /\
    w_clock w' = S (S (w_clock w)) /\ w_calls w' = S (S (w_calls w)) /\
    w_alloc w' = w_alloc w /\ w_mem w' = w_mem w.
Proof.
  unfold loop_body, CHECK_CUBLAS, cublasXtSgemm, cudaDeviceSynchronize, get_time, call,
    bind, ret, printf, halt; cbn.
  destruct (env_sgemm _ _ _ =? CUBLAS_STATUS_SUCCESS); cbn; intros Hb; inversion Hb.
  eexists; repeat split.
Qed.

(** A round that stops the process does so at the check of line 72: the
    multiply returned a failure status, its message is the last event,
    and the process exits with -1. *)
Lemma loop_body_halted (N : Z) (lat : list F) (c : Z) (w w' : world F) :
  loop_body N lat w = Halted c w' ->
  c = -1 /\ exists st t0, st <> CUBLAS_STATUS_SUCCESS /\
    w_trace w' = w_trace w ++ [EvGetTime t0; EvSgemm (gemm_call N) st;
                               EvPrint (MsgCublasError st 72)].
Proof.
  unfold loop_body, CHECK_CUBLAS, cublasXtSgemm, cudaDeviceSynchronize, get_time, call,
    bind, ret, printf, halt; cbn.
  destruct (Z.eqb_spec (env_sgemm (w_env w) (w_calls w) (gemm_call N)) CUBLAS_STATUS_SUCCESS)
    as [Hs|Hs]; cbn; intros Hb; inversion Hb; subst.
  split; [reflexivity|]; do 2 eexists; split; [exact Hs|].
  cbn; rewrite <- !app_assoc; reflexivity.
Qed.

(** A round that returns only appended events to the trace. *)
Lemma loop_body_trace (N : Z) (lat' lat : list F) (w w' : world F) :
  loop_body N lat w = Done lat' w' -> exists evs, w_trace w' = w_trace w ++ evs.
Proof.
  unfold loop_body, CHECK_CUBLAS, cublasXtSgemm, cudaDeviceSynchronize, get_time, call,
    bind, ret, printf, halt; cbn.
  destruct (env_sgemm _ _ _ =? CUBLAS_STATUS_SUCCESS); cbn; intros Hb; [|discriminate].
  injection Hb as <- <-; cbn; eexists; rewrite <- !app_assoc; reflexivity.
Qed.

(** The body neither faults nor runs out of fuel. *)
Lemma loop_body_returns (N : Z) (lat : list F) (w : world F) :
  finished (loop_body N lat w) = true /\ forall s, loop_body N lat w <> Fault s.
Proof.
  unfold loop_body, CHECK_CUBLAS, cublasXtSgemm, cudaDeviceSynchronize, get_time, call,
    bind, ret, printf, halt; cbn.
  destruct (env_sgemm _ _ _ =? CUBLAS_STATUS_SUCCESS); cbn; split; try reflexivity; discriminate.
Qed.
End Body.

(** ** The natural semantics of the loop *)
Section Semantics.
Context {F : Type} `{Double F}.
Variables (N : Z) (start : F) (duration : Z).

Inductive loop_exec : list F -> world F -> outcome (world F) (list F) -> Prop :=
| exec_stop (lat : list F) (w w1 : world F) (now : F) :
    get_time w = Done now w1 ->
    dlt (dsub now start) (dofZ duration) = false ->
    loop_exec lat w (Done lat w1)
| exec_round (lat lat' : list F) (w w1 w2 : world F) (now : F) o :
    get_time w = Done now w1 ->
    dlt (dsub now start) (dofZ duration) = true ->
    loop_body N lat w1 = Done lat' w2 ->
    loop_exec lat' w2 o ->
    loop_exec lat w o
| exec_abort (lat : list F) (w w1 : world F) (now : F) o :
    get_time w = Done now w1 ->
    dlt (dsub now start) (dofZ duration) = true ->
    loop_body N lat w1 = o -> abrupt o = true ->
    loop_exec lat w o.

(** One unfolding of the interpreter. *)
Lemma sample_loop_S (f : nat) (lat : list F) (w : world F) :
  sample_loop (S f) N start duration lat w =
  let now := reading (w_env w) (w_clock w) in
  let w1 := emit (EvGetTime now) (tick w) in
  if dlt (dsub now start) (dofZ duration)
  then match loop_body N lat w1 with
       | Done lat' w2 => sample_loop f N start duration lat' w2
       | Halted c s => Halted c s
       | Fault s => Fault s
       | NoFuel s => NoFuel s
       end
  else Done lat w1.
Proof. cbn [sample_loop]; unfold bind at 1, get_time; cbv beta iota zeta; destruct (dlt _ _); reflexivity. Qed.

Lemma get_time_inv (w w1 : world F) (now : F) :
  get_time w = Done now w1 ->
  now = reading (w_env w) (w_clock w) /\ w1 = emit (EvGetTime now) (tick w).
Proof. unfold get_time; intros Hg; inversion Hg; split; reflexivity. Qed.

Lemma loop_exec_finished (lat : list F) (w : world F) o :
  loop_exec lat w o -> finished o = true.
Proof.
  induction 1 as [| | ? ? ? ? ? Hb Habr]; [reflexivity | assumption |].
  destruct o; try reflexivity; discriminate.
Qed.

(** Soundness of the interpreter: every finished run is an execution. *)
Lemma sample_loop_sound (f : nat) :
  forall (lat : list F) (w : world F) o,
  sample_loop f N start duration lat w = o -> finished o = true -> loop_exec lat w o.
Proof.
  induction f as [|f IH]; intros lat w o Hrun Hfin; [subst; discriminate|].
  rewrite sample_loop_S in Hrun; cbv zeta in Hrun.
  destruct (dlt _ _) eqn:Hc.
  - destruct (loop_body N lat _) as [lat' w2|c s|s|s] eqn:Hb; subst.
    + eapply exec_round; [reflexivity | exact Hc | exact Hb | apply IH; auto].
    + eapply exec_abort; [reflexivity | exact Hc | exact Hb | reflexivity].
    + eapply exec_abort; [reflexivity | exact Hc | exact Hb | reflexivity].
    + discriminate.
  - subst; eapply exec_stop; [reflexivity | exact Hc].
Qed.

(** Completeness: every execution is computed by every large enough
    fuel. *)
Lemma sample_loop_complete (lat : list F) (w : world F) o :
  loop_exec lat w o ->
  exists f0, forall f, (f0 <= f)%nat -> sample_loop f N start duration lat w = o.
Proof.
  induction 1 as [lat w w1 now Hg Hc | lat lat' w w1 w2 now o Hg Hc Hb _ [f0 IH]
                 | lat w w1 now o Hg Hc Hb Habr];
    [exists 1%nat | exists (S f0) | exists 1%nat]; intros f Hf;
    (destruct f as [|f]; [lia|]); rewrite sample_loop_S; cbv zeta;
    destruct (get_time_inv _ _ _ Hg) as [-> ->]; rewrite Hc; [reflexivity | |].
  - rewrite Hb; apply IH; lia.
  - rewrite Hb; destruct o; try reflexivity; discriminate.
Qed.
End Semantics.

Arguments loop_exec {F _} N start duration.

(** ** The contract of the loop *)
Section Claims.
Context {F : Type} `{Double F}.
Variables (N : Z) (start : F) (duration : Z).

(** The interpreter and the natural semantics agree: an outcome is an
    execution of the loop exactly when some fuel makes [sample_loop]
    compute it without running out. *)
Theorem sample_loop_exec_iff (lat : list F) (w : world F) (o : outcome (world F) (list F)) :
  loop_exec N start duration lat w o <->
  exists f, sample_loop f N start duration lat w = o /\ finished o = true.
Proof.
  split.
  - intros Hx; destruct (sample_loop_complete N start duration lat w o Hx) as [f0 Hf0].
    exists f0; split; [apply Hf0; lia | exact (loop_exec_finished N start duration lat w o Hx)].
  - intros (f & Hrun & Hfin); exact (sample_loop_sound N start duration f lat w o Hrun Hfin).
Qed.



(** C17: The invariant of the loop, by induction on its executions: a
    loop that returns has run some number [k] of rounds; it kept the
    samples it started with as a prefix and added [k], it read the clock
    [3k + 1] times and made [2k] library calls, and it left the
    environment, the allocations and the buffers unchanged. *)
Theorem loop_exec_done_shape (lat lat' : list F) (w w' : world F) :
  loop_exec N start duration lat w (Done lat' w') ->
  exists k new, lat' = lat ++ new /\ length new = k /\
    w_clock w' = (w_clock w + 3 * k + 1)%nat /\ w_calls w' = (w_calls w + 2 * k)%nat /\
    w_env w' = w_env w /\ w_alloc w' = w_alloc w /\ w_mem w' = w_mem w.
Proof.
  remember (Done lat' w') as o eqn:Ho; intros Hx; revert lat' w' Ho.
  induction Hx as [lat w w1 now Hg Hc | lat lat1 w w1 w2 now o Hg Hc Hb _ IH
                  | lat w w1 now o Hg Hc Hb Habr]; intros lat' w' Ho.
  - inversion Ho; subst; destruct (get_time_inv _ _ _ Hg) as [_ ->].
    exists 0%nat, []; rewrite app_nil_r; cbn; repeat split; lia.
  - destruct (IH lat' w' Ho) as (k & new & -> & Hk & Hclk & Hcalls & Henv & Hal & Hmem).
    destruct (loop_body_done N lat lat1 w1 w2 Hb) as (x & -> & Henv2 & Hclk2 & Hcalls2 & Hal2 & Hmem2).
    destruct (get_time_inv _ _ _ Hg) as [_ ->].
    exists (S k), (x :: new); rewrite <- app_assoc; cbn in *.
    repeat split; try lia; congruence.
  - rewrite Ho in Habr; discriminate Habr.
Qed.

(** C19: Every abnormal end of the loop is the exit of the check at line
    72: the loop never faults, and when it stops the process the status
    is -1, the multiply of the last round failed, and the trace ends with
    that multiply and its error message, after everything the loop had
    recorded before; the samples gathered are never reported. *)
Theorem loop_exec_halted (lat : list F) (w w' : world F) (c : Z) :
  loop_exec N start duration lat w (Halted c w') ->
  c = -1 /\ exists st t0 pre, st <> CUBLAS_STATUS_SUCCESS /\
    w_trace w' = w_trace w ++ pre ++ [EvGetTime t0; EvSgemm (gemm_call N) st;
                                      EvPrint (MsgCublasError st 72)].
Proof.
  remember (Halted c w') as o eqn:Ho; intros Hx; revert c w' Ho.
  induction Hx as [lat w w1 now Hg Hc | lat lat1 w w1 w2 now o Hg Hc Hb _ IH
                  | lat w w1 now o Hg Hc Hb Habr]; intros c w' Ho; [discriminate| |].
  - destruct (IH c w' Ho) as (-> & st & t0 & pre & Hst & Htr); split; [reflexivity|].
    destruct (get_time_inv _ _ _ Hg) as [-> ->].
    destruct (loop_body_trace N lat1 lat _ w2 Hb) as [evs Hevs].
    exists st, t0, (EvGetTime (reading (w_env w) (w_clock w)) :: evs ++ pre).
    split; [exact Hst|]; rewrite Htr, Hevs; cbn; rewrite <- !app_assoc; reflexivity.
  - rewrite Ho in Hb; destruct (loop_body_halted N lat c w1 w' Hb) as (-> & st & t0 & Hst & Htr).
    split; [reflexivity|]; destruct (get_time_inv _ _ _ Hg) as [-> ->].
    exists st, t0, [EvGetTime (reading (w_env w) (w_clock w))].
    split; [exact Hst|]; rewrite Htr; cbn; rewrite <- !app_assoc; reflexivity.
Qed.

(** The loop never performs undefined behaviour. *)
Lemma loop_exec_no_fault (lat : list F) (w s : world F) :
  ~ loop_exec N start duration lat w (Fault s).
Proof.
  remember (Fault s) as o eqn:Ho; intros Hx; revert s Ho.
  induction Hx as [| | lat w w1 now o Hg Hc Hb Habr]; intros s Ho; [discriminate | eauto |].
  rewrite Ho in Hb; exact (proj2 (loop_body_returns N lat w1) s Hb).
Qed.
End Claims.
End LoopSem.

(** ** Concrete executions *)
Module LoopSemExamples.
Import LoopSem Binary64.

(** Every call succeeds and the clock ticks once a second; in [e_fail]
    every multiply answers [CUBLAS_STATUS_EXECUTION_FAILED] (13). *)
Definition e_ok : env := demo_env 2 seconds_clock.
Definition e_fail : env :=
  {| env_device_count := fun _ => (0, 2); env_xt_create := fun _ => 0;
     env_device_select := fun _ _ _ => 0; env_set_block_dim := fun _ _ => 0;
     env_malloc_host := fun _ _ _ => 0; env_sgemm := fun _ _ => 13;
     env_sync := fun _ => 0; env_clock := seconds_clock |}.

Definition start0 : binary64 := dofZ 0.

(** The loop of a 5 s run on [e], started at reading 0, with fuel 10. *)
Definition run5 (e : env) : outcome (world binary64) (list binary64) :=
  sample_loop 10 7 start0 5 [] (initial_world e).

Definition samples_of (o : outcome (world binary64) (list binary64)) : list binary64 :=
  match o with Done l _ => l | _ => [] end.


Lemma loop_exec_done_shape_witness :
  exists k new, samples_of (run5 e_ok) = [] ++ new /\ length new = k /\
    w_clock (final_state (run5 e_ok)) = (w_clock (initial_world (F := binary64) e_ok) + 3 * k + 1)%nat /\
    w_calls (final_state (run5 e_ok)) = (w_calls (initial_world (F := binary64) e_ok) + 2 * k)%nat /\
    w_env (final_state (run5 e_ok)) = w_env (initial_world (F := binary64) e_ok) /\
    w_alloc (final_state (run5 e_ok)) = w_alloc (initial_world (F := binary64) e_ok) /\
    w_mem (final_state (run5 e_ok)) = w_mem (initial_world (F := binary64) e_ok).
Proof.
  apply (loop_exec_done_shape 7 start0 5), (sample_loop_sound 7 start0 5 10); [vm_compute; reflexivity | reflexivity].
Defined.

Lemma loop_exec_halted_witness :
  -1 = -1 /\ exists st t0 pre, st <> CUBLAS_STATUS_SUCCESS /\
    w_trace (final_state (run5 e_fail)) = w_trace (initial_world (F := binary64) e_fail) ++ pre ++
      [EvGetTime t0; EvSgemm (gemm_call 7) st; EvPrint (MsgCublasError st 72)].
Proof.
  apply (loop_exec_halted 7 start0 5 []), (sample_loop_sound 7 start0 5 10);
    [vm_compute; reflexivity | reflexivity].
Defined.
End LoopSemExamples.
