(* ===== verification/Main.v ===== *)
(** * The whole program: [main] (lines 34-118)

  [main] composes the components in the order of the source: argument
  parsing ([Config.parse_args]), [setup] (lines 40-61: the OpenMP thread
  count, the device list, the cuBLASXt handle, the three pinned buffers
  and their initialisation), the warm-up (lines 63-66), the sampling loop
  (lines 68-75), [print_report] (lines 77-113: the metrics and the
  diagnosis, as the record of printed values) and [teardown] (lines
  115-117).  [sched] is the order the OpenMP runtime gives the
  initialisation loop and [fuel] bounds the sampling loop.

  Section [Run] computes a run on a runtime whose checked calls succeed
  ([runtime_ok]: the set-up calls succeed, [setup_ok], and so does every
  multiply) step by step ([setup_run], [main_run]); Section [Safety]
  proves, with the triple [Prelude.safe], that on every runtime [main]
  never faults and exits only with -1; Section [Claims] states the
  contract: the exact trace and result of a successful run, and the
  fail-fast run when the device query fails.  [MainQ] proves termination
  on a monotone unbounded clock, and [MainExamples] evaluates [main] in
  binary64 on the behaviours the specification rules out: a zero
  dimension reaches the multiply, and a valid duration on a coarse clock
  yields no sample, NaN metrics and a "compute bound" label. *)

From Stdlib Require Import ZArith Lia List String QArith Permutation.
From stdpp Require Import base gmap.
From S2P Require Import Prelude Double Classify Metrics Config Runtime HostInit Sampling.
Import ListNotations Runtime HostInit Sampling Metrics Classifier Config.

Local Open Scope Z_scope.
Local Open Scope monitor_scope.

Module Main.
Section Program.
Context {F : Type} `{Double F}.

(** Lines 40-61; returns [num_devices]. *)
Definition setup (sched : Z -> list Z) (N : Z) : prog (world F) Z :=
  omp_set_num_threads 8 ;;;
  r <- cudaGetDeviceCount ;;
  CHECK_CUDA 43 (ret (fst r)) ;;;
  let num_devices := snd r in
  let devices := zseq num_devices in
  CHECK_CUBLAS 48 cublasXtCreate ;;;
  CHECK_CUBLAS 49 (cublasXtDeviceSelect num_devices devices) ;;;
  CHECK_CUBLAS 50 (cublasXtSetBlockDim 4096) ;;;
  let bytes := size_bytes N in
  CHECK_CUDA 54 (cudaMallocHost h_A bytes) ;;;
  CHECK_CUDA 55 (cudaMallocHost h_B bytes) ;;;
  CHECK_CUDA 56 (cudaMallocHost h_C bytes) ;;;
  host_init sched N ;;;
  ret num_devices.

(** The values printed by lines 90-112. *)
Definition make_report (N num_devices : Z) (latencies : list F) : report F :=
  let s := compute_stats N latencies in
  {| rep_N := N; rep_num_devices := num_devices;
     rep_time_per_calc := time_per_calc s; rep_throughput_gbs := throughput_gbs s;
     rep_utilization := utilization s; rep_compute_tflops := compute_tflops s;
     rep_diagnosis := diagnose (utilization s) |}.

(** Lines 77-113. *)
Definition print_report (N num_devices : Z) (latencies : list F) : prog (world F) unit :=
  printf (MsgReport (make_report N num_devices latencies)).

(** Lines 115-117. *)
Definition teardown : prog (world F) Z :=
  cublasXtDestroy ;;;
  cudaFreeHost h_A ;;; cudaFreeHost h_B ;;; cudaFreeHost h_C ;;;
  ret 0.

(** Lines 34-118. *)
Definition main (sched : Z -> list Z) (fuel : nat) (argv : list string) : prog (world F) Z :=
  let '(N, duration) := parse_args argv in
  num_devices <- setup sched N ;;
  warmup N ;;;
  latencies <- sampling fuel N duration ;;
  print_report N num_devices latencies ;;;
  teardown.
End Program.

(** The events that are multiply calls, and the reports printed. *)
Definition sgemm_calls {F : Type} (tr : list (event F)) : list sgemm_call :=
  flat_map (fun ev => match ev with EvSgemm c _ => [c] | _ => [] end) tr.

Definition reports {F : Type} (tr : list (event F)) : list (report F) :=
  flat_map (fun ev => match ev with EvPrint (MsgReport r) => [r] | _ => [] end) tr.

Lemma sgemm_calls_app {F : Type} (l1 l2 : list (event F)) :
  sgemm_calls (l1 ++ l2) = sgemm_calls l1 ++ sgemm_calls l2.
Proof. apply flat_map_app. Qed.

Lemma reports_app {F : Type} (l1 l2 : list (event F)) :
  reports (l1 ++ l2) = reports l1 ++ reports l2.
Proof. apply flat_map_app. Qed.

(** Each timed round makes one multiply and prints nothing. *)
Lemma rounds_calls {F : Type} `{Double F} (e : env) (N : Z) (f g : nat -> nat) (l : list nat) :
  sgemm_calls (flat_map (fun j => iteration_events e N (f j) (g j)) l) =
    repeat (gemm_call N) (length l) /\
  reports (flat_map (fun j => iteration_events e N (f j) (g j)) l) = [].
Proof.
  induction l as [|j l [IH1 IH2]]; [split; reflexivity|].
  cbn [flat_map length repeat]; rewrite sgemm_calls_app, reports_app, IH1, IH2.
  split; reflexivity.
Qed.

(** ** A run on a runtime where every checked call succeeds *)

(** Every status the code checks is success; the synchronisation status,
    which the code ignores, and the clock are arbitrary. *)
Definition setup_ok (e : env) : Prop :=
  (forall k, fst (env_device_count e k) = cudaSuccess) /\
  (forall k, env_xt_create e k = CUBLAS_STATUS_SUCCESS) /\
  (forall k n ds, env_device_select e k n ds = CUBLAS_STATUS_SUCCESS) /\
  (forall k dim, env_set_block_dim e k dim = CUBLAS_STATUS_SUCCESS) /\
  (forall k b n, env_malloc_host e k b n = cudaSuccess).

Definition runtime_ok (e : env) : Prop :=
  setup_ok e /\ (forall k c, env_sgemm e k c = CUBLAS_STATUS_SUCCESS).

Section Run.
Context {F : Type} `{Double F}.

(** The events of lines 40-56, the first library call being [k0]. *)
Definition setup_events (e : env) (k0 : nat) (N : Z) : list (event F) :=
  let nd := snd (env_device_count e k0) in
  [EvSetNumThreads 8; EvGetDeviceCount cudaSuccess nd; EvXtCreate CUBLAS_STATUS_SUCCESS;
   EvDeviceSelect nd (zseq nd) CUBLAS_STATUS_SUCCESS; EvSetBlockDim 4096 CUBLAS_STATUS_SUCCESS;
   EvMallocHost h_A (size_bytes N) cudaSuccess; EvMallocHost h_B (size_bytes N) cudaSuccess;
   EvMallocHost h_C (size_bytes N) cudaSuccess].

(** The events of a whole run with [k] timed rounds, from library call
    [k0] and clock reading [c0]. *)
Definition run_events (e : env) (k0 c0 : nat) (N : Z) (k : nat) : list (event F) :=
  setup_events e k0 N ++
  [EvPrint MsgWarmup; EvSgemm (gemm_call N) CUBLAS_STATUS_SUCCESS; EvSync (env_sync e (8 + k0));
   EvGetTime (reading e c0)] ++
  flat_map (fun j => iteration_events e N (9 + k0 + 2 * j) (S c0 + 3 * j)) (seq 0 k) ++
  [EvGetTime (reading e (S c0 + 3 * k));
   EvPrint (MsgReport (make_report N (snd (env_device_count e k0)) (loop_samples e (S c0) k)));
   EvXtDestroy; EvFreeHost h_A; EvFreeHost h_B; EvFreeHost h_C].

Lemma setup_run (sched : Z -> list Z) (N : Z) (w : world F) :
  setup_ok (w_env w) -> INT_MIN < N <= INT_MAX ->
  Permutation (sched (elem_count N)) (zseq (elem_count N)) ->
  setup sched N w = Done (snd (env_device_count (w_env w) (w_calls w)))
    {| w_env := w_env w; w_calls := (7 + w_calls w)%nat; w_clock := w_clock w;
       w_alloc := <[h_C := size_bytes N]> (<[h_B := size_bytes N]>
                    (<[h_A := size_bytes N]> (w_alloc w)));
       w_mem := fill (sched (elem_count N)) (w_mem w);
       w_trace := w_trace w ++ setup_events (w_env w) (w_calls w) N |}.
Proof.
  intros (Hdc & Hcr & Hsel & Hbd & Hmh) HN Hp.
  unfold setup, omp_set_num_threads, cudaGetDeviceCount, CHECK_CUDA, CHECK_CUBLAS,
    cublasXtCreate, cublasXtDeviceSelect, cublasXtSetBlockDim, cudaMallocHost, call, bind, ret,
    printf.
  cbn -[host_init size_bytes].
  repeat (first [rewrite Hdc | rewrite Hcr | rewrite Hsel | rewrite Hbd | rewrite Hmh];
          cbn -[host_init size_bytes]).
  rewrite host_init_run; [| exact HN | exact Hp | |];
    [| cbn -[insert size_bytes]; repeat (rewrite lookup_insert_ne by discriminate);
       apply lookup_insert_eq ..].
  f_equal; apply world_ext; cbn -[insert size_bytes]; try reflexivity.
  rewrite <- !app_assoc; reflexivity.
Qed.

Lemma teardown_run (w : world F) :
  teardown w = Done 0
    {| w_env := w_env w; w_calls := w_calls w; w_clock := w_clock w;
       w_alloc := delete h_C (delete h_B (delete h_A (w_alloc w))); w_mem := w_mem w;
       w_trace := w_trace w ++ [EvXtDestroy; EvFreeHost h_A; EvFreeHost h_B; EvFreeHost h_C] |}.
Proof.
  unfold teardown, cublasXtDestroy, cudaFreeHost, bind, ret; cbn -[delete].
  f_equal; apply world_ext; cbn -[delete]; try reflexivity.
  rewrite <- !app_assoc; reflexivity.
Qed.

(** The whole program on a runtime whose checked calls succeed, with
    [k] passing deadline tests: it returns 0, frees the buffers it
    allocated, leaves them initialised and produces [run_events]. *)
Lemma main_run (sched : Z -> list Z) (fuel : nat) (argv : list string) (N d : Z) (k : nat)
      (w : world F) :
  parse_args argv = (N, d) -> N <> INT_MIN ->
  Permutation (sched (elem_count N)) (zseq (elem_count N)) ->
  runtime_ok (w_env w) ->
  (forall j, (j < k)%nat ->
     check_passes (w_env w) (reading (w_env w) (w_clock w)) d (S (w_clock w) + 3 * j) = true) ->
  check_passes (w_env w) (reading (w_env w) (w_clock w)) d (S (w_clock w) + 3 * k) = false ->
  (k < fuel)%nat ->
  exists w', main sched fuel argv w = Done 0 w' /\
    w_env w' = w_env w /\
    w_alloc w' = delete h_C (delete h_B (delete h_A
      (<[h_C := size_bytes N]> (<[h_B := size_bytes N]> (<[h_A := size_bytes N]> (w_alloc w)))))) /\
    w_mem w' = fill (sched (elem_count N)) (w_mem w) /\
    w_trace w' = w_trace w ++ run_events (w_env w) (w_calls w) (w_clock w) N k.
Proof.
  intros Hargs HN Hp Hok Hpass Hstop Hfuel.
  destruct (parse_args_range argv) as [HR _]; rewrite Hargs in HR; cbn [fst] in HR.
  unfold main; rewrite Hargs; cbv beta iota zeta.
  erewrite bind_Done by (apply setup_run; [exact (proj1 Hok) | int_range | exact Hp]).
  destruct Hok as (_ & Hsg).
  erewrite bind_Done by (apply warmup_run; apply Hsg); cbv beta.
  cbn [w_env w_calls w_clock w_alloc w_mem w_trace].
  match goal with |- context [bind (sampling _ _ _) _ ?w2] => set (w2' := w2) end.
  destruct (sampling_run k fuel N d w2' Hpass Hstop (fun j _ => Hsg _ _) Hfuel)
    as (w3 & Hrun & Henv & _ & _ & Hal & Hmem & Htr).
  erewrite bind_Done by exact Hrun; cbv beta.
  erewrite bind_Done by reflexivity; cbv beta.
  rewrite teardown_run; eexists; split; [reflexivity|].
  cbn -[insert delete size_bytes] in Henv, Hal, Hmem, Htr |- *.
  split; [exact Henv|]; split; [rewrite Hal; reflexivity|]; split; [exact Hmem|].
  rewrite Htr; unfold run_events; rewrite <- !app_assoc; reflexivity.
Qed.
End Run.

(** ** No undefined behaviour, and the exit statuses *)
Section Safety.
Context {F : Type} `{Double F}.

(** The two input buffers are allocated with [size_bytes N] bytes. *)
Definition ready (N : Z) (a : alloc_table) : Prop :=
  a !! h_A = Some (size_bytes N) /\ a !! h_B = Some (size_bytes N).

Lemma setup_safe (sched : Z -> list Z) (N : Z) :
  INT_MIN < N <= INT_MAX -> Permutation (sched (elem_count N)) (zseq (elem_count N)) ->
  safe (-1) (fun _ : world F => True) (setup sched N) (fun _ _ => True).
Proof.
  intros HN Hp; unfold setup.
  apply (safe_bind _ _ _ (fun _ _ => True)); [safe_step|intros ?].
  apply (safe_bind _ _ _ (fun _ _ => True)); [safe_step|intros r].
  apply (safe_bind _ _ _ (fun _ _ => True)); [apply CHECK_CUDA_safe; safe_step|intros ?].
  do 3 (apply (safe_bind _ _ _ (fun _ _ => True)); [apply CHECK_CUBLAS_safe; safe_step|intros ?]).
  apply (safe_bind _ _ _ (fun _ w => w_alloc w !! h_A = Some (size_bytes N))).
  { apply CHECK_CUDA_safe; eapply safe_conseq;
      [apply (cudaMallocHost_safe _ h_A _ (fun _ => True)); auto | auto | cbn; tauto]. }
  intros ?.
  apply (safe_bind _ _ _ (fun _ w => ready N (w_alloc w))).
  { apply CHECK_CUDA_safe; eapply safe_conseq;
      [apply (cudaMallocHost_safe _ h_B _ (fun a => a !! h_A = Some (size_bytes N))) | auto |].
    - intros tbl Ha; rewrite lookup_insert_ne by discriminate; exact Ha.
    - intros st w [HA HB] Hs; split; [exact HA | exact (HB Hs)]. }
  intros ?.
  apply (safe_bind _ _ _ (fun _ w => ready N (w_alloc w))).
  { apply CHECK_CUDA_safe; eapply safe_conseq;
      [apply (cudaMallocHost_safe _ h_C _ (ready N)) | auto | cbn; tauto].
    intros tbl [HA HB]; split; rewrite lookup_insert_ne by discriminate; assumption. }
  intros ?.
  apply (safe_bind _ _ _ (fun _ _ => True)); [|intros ?; apply safe_ret; auto].
  apply safe_done; intros w [HA HB].
  eexists _, _; split; [apply (host_init_run sched N w HN Hp HA HB) | exact I].
Qed.

Lemma teardown_safe : safe (-1) (fun _ : world F => True) teardown (fun c _ => c = 0).
Proof.
  unfold teardown.
  do 4 (apply (safe_bind _ _ _ (fun _ _ => True)); [safe_step|intros ?]).
  apply safe_ret; auto.
Qed.

(** C3: Safety of the whole program on every runtime: whatever the
    library calls answer and whatever the clock reads, if the
    dimension is not [INT_MIN] and the OpenMP schedule runs each
    initialisation index once, [main] performs no undefined behaviour,
    every [exit] it makes is [exit(-1)] from a failed check, and when it
    returns it returns 0. *)
Theorem main_safe (sched : Z -> list Z) (fuel : nat) (argv : list string) (N d : Z) :
  parse_args argv = (N, d) -> N <> INT_MIN ->
  Permutation (sched (elem_count N)) (zseq (elem_count N)) ->
  safe (-1) (fun _ : world F => True) (main sched fuel argv) (fun c _ => c = 0).
Proof.
  intros Hargs HN Hp; unfold main; rewrite Hargs.
  destruct (parse_args_range argv) as [HR _]; rewrite Hargs in HR; cbn [fst] in HR.
  apply (safe_bind _ _ _ (fun _ _ => True)); [apply setup_safe; [int_range | exact Hp]|intros nd].
  apply (safe_bind _ _ _ (fun _ _ => True)); [apply (warmup_safe (fun _ => True))|intros ?].
  apply (safe_bind _ _ _ (fun _ _ => True)); [apply (sampling_safe (fun _ => True))|intros lat].
  apply (safe_bind _ _ _ (fun _ _ => True)); [safe_step|intros ?].
  apply teardown_safe.
Qed.
End Safety.


(** ** The program's contract *)
Section Claims.
Context {F : Type} `{Double F}.

(** Deleting the three buffers undoes their allocation. *)
Lemma free_all (b : Z) :
  delete h_C (delete h_B (delete h_A
    (<[h_C := b]> (<[h_B := b]> (<[h_A := b]> (∅ : alloc_table)))))) = ∅.
Proof.
  apply map_eq; intros i; rewrite lookup_empty; destruct i;
    repeat first [rewrite lookup_delete_eq; reflexivity | rewrite lookup_delete_ne by discriminate].
Qed.

(** After the initialisation loop, [h_A] holds [1.0f] and [h_B] holds
    [0.5f] at every index below [N * N]. *)
Lemma fill_inputs (sched : Z -> list Z) (N i : Z) (m : gmap (hbuf * Z) f32) :
  INT_MIN < N <= INT_MAX -> Permutation (sched (elem_count N)) (zseq (elem_count N)) ->
  0 <= i < N * N ->
  fill (sched (elem_count N)) m !! (h_A, i) = Some one_f /\
  fill (sched (elem_count N)) m !! (h_B, i) = Some half_f.
Proof.
  intros HN Hp Hi; rewrite !fill_lookup, !(filled_perm _ _ _ _ _ Hp); unfold filled.
  case_decide as Hin; [split; reflexivity|].
  exfalso; apply Hin; rewrite list_elem_of_In, in_zseq, elem_count_exact by exact HN; exact Hi.
Qed.

(** C1: Refinement of the whole program.  On a runtime whose checked
    calls all succeed (the ignored synchronisation status and the clock
    are arbitrary), if the dimension is not [INT_MIN], the OpenMP
    schedule runs each index once, and the deadline tests made at
    clock readings [1, 4, ..., 3k - 2] pass while the one at [3k + 1]
    fails, then [main] started in the initial process state returns 0
    with exactly the events [run_events]: the setup calls, the warm-up,
    [k] timed rounds, one report computed from the [k] samples, and the
    four releases; every buffer is freed, and the inputs hold [1.0f]
    and [0.5f] at every index below [N * N]. *)
Theorem main_refines (sched : Z -> list Z) (fuel : nat) (argv : list string) (N d : Z)
        (k : nat) (e : env) :
  parse_args argv = (N, d) -> N <> INT_MIN ->
  Permutation (sched (elem_count N)) (zseq (elem_count N)) ->
  runtime_ok e ->
  (forall j, (j < k)%nat -> check_passes e (reading e 0) d (1 + 3 * j) = true) ->
  check_passes e (reading e 0) d (1 + 3 * k) = false ->
  (k < fuel)%nat ->
  exists w', main sched fuel argv (initial_world (F := F) e) = Done 0 w' /\
    w_trace w' = run_events e 0 0 N k /\ w_alloc w' = ∅ /\
    forall i, 0 <= i < N * N ->
      w_mem w' !! (h_A, i) = Some one_f /\ w_mem w' !! (h_B, i) = Some half_f.
Proof.
  intros Hargs HN Hp Hok Hpass Hstop Hfuel.
  destruct (parse_args_range argv) as [HR _]; rewrite Hargs in HR; cbn [fst] in HR.
  destruct (main_run sched fuel argv N d k (initial_world e) Hargs HN Hp Hok Hpass Hstop Hfuel)
    as (w' & Hrun & _ & Hal & Hmem & Htr).
  exists w'; split; [exact Hrun|]; split; [exact Htr|]; split; [rewrite Hal; apply free_all|].
  intros i Hi; rewrite Hmem; apply fill_inputs; [int_range | exact Hp | exact Hi].
Qed.

(** C20: Fail fast: when [cudaGetDeviceCount] fails, the program prints
    the status with line 43 and exits with -1 right away, having made
    no other library call, allocated nothing and run no multiply. *)
Theorem main_device_count_fails (sched : Z -> list Z) (fuel : nat) (argv : list string)
        (e : env) (st : Z) :
  fst (env_device_count e 0) = st -> st <> cudaSuccess ->
  exists w', main sched fuel argv (initial_world (F := F) e) = Halted (-1) w' /\
    w_trace w' = [EvSetNumThreads 8; EvGetDeviceCount st (snd (env_device_count e 0));
                  EvPrint (MsgCudaError st 43)] /\
    w_alloc w' = ∅.
Proof.
  intros Hst Hne; eexists; split.
  - unfold main; destruct (parse_args argv) as [N d]; apply bind_Halted.
    unfold setup; erewrite bind_Done by reflexivity; erewrite bind_Done by reflexivity.
    apply bind_Halted, CHECK_CUDA_fail; [reflexivity|]; cbn; rewrite Hst; exact Hne.
  - cbn; rewrite Hst; split; reflexivity.
Qed.

End Claims.
End Main.

(** ** Exact arithmetic: termination and the report's samples *)
Module MainQ.
Import Main SamplingQ Exact MetricsQ.
Local Open Scope Q_scope.

(** C2: Termination of the whole program: on a runtime whose checked
    calls succeed and whose clock is monotone and unbounded, there is a
    round count [k] such that [main] with any fuel above [k] returns 0
    after [k + 1] multiplies (the warm-up and [k] timed ones), printing
    one report, computed from [k] non-negative samples whose sum is at
    most the time from [start_test] to the failed deadline test, itself
    at least [duration] after [start_test]. *)
Theorem main_terminates (sched : Z -> list Z) (argv : list string) (N d : Z) (e : env) :
  parse_args argv = (N, d) -> N <> INT_MIN ->
  Permutation (sched (elem_count N)) (zseq (elem_count N)) ->
  runtime_ok e -> clock_monotone e -> clock_unbounded e ->
  exists k, forall fuel, (k < fuel)%nat ->
    exists w', main sched fuel argv (initial_world (F := Q) e) = Done 0%Z w' /\
      sgemm_calls (w_trace w') = repeat (gemm_call N) (S k) /\
      reports (w_trace w') = [make_report N (snd (env_device_count e 0)) (loop_samples e 1 k)] /\
      Forall (fun x => 0 <= x) (loop_samples e 1 k) /\
      Qsum (loop_samples e 1 k) <= reading e (1 + 3 * k) - reading e 0 /\
      inject_Z d <= reading e (1 + 3 * k) - reading e 0.
Proof.
  intros Hargs HN Hp Hok Hm Hu.
  destruct (rounds_exist e (reading e 0) d 1 Hm Hu) as (k & Hpass & Hstop).
  exists k; intros fuel Hfuel.
  destruct (main_run sched fuel argv N d k (initial_world e) Hargs HN Hp Hok Hpass Hstop Hfuel)
    as (w' & Hrun & _ & _ & _ & Htr).
  destruct (intervals_within e k Hm 1 (reading e 0) (Hm 0%nat 1%nat ltac:(lia))) as [Hpos Hsum].
  destruct (rounds_calls (F := Q) e N (fun j => 9 + 0 + 2 * j)%nat (fun j => S 0 + 3 * j)%nat (seq 0 k))
    as [Hc Hr].
  exists w'; split; [exact Hrun|].
  rewrite Htr; unfold run_events; cbn [w_trace w_calls w_clock w_env initial_world]; rewrite app_nil_l.
  rewrite !sgemm_calls_app, !reports_app, Hc, Hr, length_seq.
  split; [|split]; [cbn [sgemm_calls reports flat_map setup_events app]; rewrite ?app_nil_r; reflexivity ..|].
  split; [exact Hpos|]; split; [exact Hsum|]; apply check_fails_Q; exact Hstop.
Qed.
End MainQ.

(** ** Concrete runs *)
Module MainExamples.
Import Main Binary64.
Local Open Scope string_scope.
Local Open Scope Z_scope.

(** Two devices, every call succeeds, a clock of one tick per second. *)
Definition e2 : env := demo_env 2 seconds_clock.

(** [cudaGetDeviceCount] answers [cudaErrorNoDevice] (100). *)
Definition fail_env : env :=
  {| env_device_count := fun _ => (100, 0);
     env_xt_create := fun _ => 0; env_device_select := fun _ _ _ => 0;
     env_set_block_dim := fun _ _ => 0; env_malloc_host := fun _ _ _ => 0;
     env_sgemm := fun _ _ => 0; env_sync := fun _ => 0; env_clock := seconds_clock |}.

Lemma demo_env_ok (ndev : Z) (clock : nat -> timeval) : runtime_ok (demo_env ndev clock).
Proof. unfold runtime_ok; repeat split; intros; reflexivity. Qed.



Lemma main_refines_witness :
  exists w', main zseq 50 ["monitor"; "2"; "5"] (initial_world (F := binary64) e2) = Done 0 w' /\
    w_trace w' = run_events e2 0 0 2 2 /\ w_alloc w' = ∅ /\
    forall i, 0 <= i < 2 * 2 ->
      w_mem w' !! (h_A, i) = Some one_f /\ w_mem w' !! (h_B, i) = Some half_f.
Proof.
  apply (main_refines zseq 50 ["monitor"; "2"; "5"] 2 5 2 e2).
  - vm_compute; reflexivity.
  - unfold INT_MIN; lia.
  - reflexivity.
  - apply demo_env_ok.
  - intros j Hj; destruct j as [|[|j]]; [vm_compute; reflexivity | vm_compute; reflexivity | lia].
  - vm_compute; reflexivity.
  - lia.
Defined.

Lemma main_safe_witness :
  safe (-1) (fun _ : world binary64 => True) (main zseq 50 ["monitor"; "2"; "5"]) (fun c _ => c = 0).
Proof.
  apply (main_safe zseq 50 ["monitor"; "2"; "5"] 2 5); [vm_compute; reflexivity | unfold INT_MIN; lia | reflexivity].
Defined.

Lemma main_device_count_fails_witness :
  exists w', main zseq 50 ["monitor"] (initial_world (F := binary64) fail_env) = Halted (-1) w' /\
    w_trace w' = [EvSetNumThreads 8; EvGetDeviceCount 100 0; EvPrint (MsgCudaError 100 43)] /\
    w_alloc w' = ∅.
Proof. apply (main_device_count_fails zseq 50 ["monitor"] fail_env 100); [reflexivity | discriminate]. Defined.
End MainExamples.

Module MainQExamples.
Import Main MainQ SamplingQ SamplingExamples Exact MetricsQ.
Local Open Scope string_scope.
Local Open Scope Q_scope.

Lemma main_terminates_witness :
  exists k, forall fuel, (k < fuel)%nat ->
    exists w', main zseq fuel ["monitor"; "2"; "5"] (initial_world (F := Q) e1) = Done 0%Z w' /\
      sgemm_calls (w_trace w') = repeat (gemm_call 2) (S k) /\
      reports (w_trace w') = [make_report 2 (snd (env_device_count e1 0)) (loop_samples e1 1 k)] /\
      Forall (fun x => 0 <= x) (loop_samples e1 1 k) /\
      Qsum (loop_samples e1 1 k) <= reading e1 (1 + 3 * k) - reading e1 0 /\
      inject_Z 5 <= reading e1 (1 + 3 * k) - reading e1 0.
Proof.
  apply (main_terminates zseq ["monitor"; "2"; "5"] 2 5 e1).
  - vm_compute; reflexivity.
  - unfold INT_MIN; lia.
  - reflexivity.
  - apply MainExamples.demo_env_ok.
  - exact e1_monotone.
  - exact e1_unbounded.
Defined.
End MainQExamples.
