(* ===== verification/Blas.v ===== *)
(** * The cuBLASXt SGEMM contract and the program's multiply

  [cublasXtSgemm] is a library function; this file states the part of its
  documented contract the program depends on, and checks the call the
  program makes ([Sampling.gemm_call], lines 65 and 72) against it.

  - Validity.  cuBLASXt returns [CUBLAS_STATUS_INVALID_VALUE] when one of
    the dimensions [m], [n], [k] is negative ([sgemm_valid]).  A runtime
    that keeps this part of the contract is [sgemm_lawful].
  - Footprint.  The operands are column-major: element [(i, j)] of an
    operand with leading dimension [ld] is at index [i + j * ld], as in a
    strided BLAS vector.  [op(A)] is [m x k], [op(B)] is [k x n] and [C]
    is [m x n]; stored untransposed, [A] spans [m] rows and [k] columns.
    [footprint rows cols ld] is the number of elements from the first to
    the last one the call touches.

  The theorems: for every valid [int] dimension the program's call is
  valid and each of its three operands spans exactly the [N * N]
  elements, [size_bytes N] bytes, that [setup] allocates, so the multiply
  stays inside the pinned buffers ([gemm_footprint_exact]); a negative
  dimension, which [atoi] accepts, passes the allocations and the
  initialisation and is rejected by the first multiply, so the run exits
  at line 65 after printing the warm-up line ([main_negative_dimension]).

  The numbers the multiply computes into [h_C] are not modelled: the
  program never reads them. *)

From Stdlib Require Import ZArith Lia List String Permutation.
From stdpp Require Import base gmap.
From S2P Require Import Prelude Double Classify Metrics Config Runtime HostInit Sampling Main.
Import ListNotations Runtime HostInit Sampling Config Main.

Local Open Scope Z_scope.
Local Open Scope monitor_scope.

Module Blas.

(** [CUBLAS_STATUS_INVALID_VALUE] of [cublas_api.h]. *)
Definition CUBLAS_STATUS_INVALID_VALUE : Z := 7.

(** The dimension check of [cublasXt<t>gemm]. *)
Definition sgemm_valid (c : sgemm_call) : bool :=
  (0 <=? sg_m c) && (0 <=? sg_n c) && (0 <=? sg_k c).

(** A runtime that rejects invalid calls as documented. *)
Definition sgemm_lawful (e : env) : Prop :=
  forall k c, sgemm_valid c = false -> env_sgemm e k c = CUBLAS_STATUS_INVALID_VALUE.

(** Column-major storage. *)
Definition col_major_index (ld i j : Z) : Z := i + j * ld.

Definition footprint (rows cols ld : Z) : Z :=
  if (rows <=? 0) || (cols <=? 0) then 0 else col_major_index ld (rows - 1) (cols - 1) + 1.

Record operand : Type := { op_buf : hbuf; op_rows : Z; op_cols : Z; op_ld : Z }.

Definition stored (t : cublasOperation) (rows cols : Z) : Z * Z :=
  match t with CUBLAS_OP_N => (rows, cols) | _ => (cols, rows) end.

(** The three matrices of a call, as they are stored. *)
Definition operands (c : sgemm_call) : list operand :=
  let '(ra, ca) := stored (sg_transa c) (sg_m c) (sg_k c) in
  let '(rb, cb) := stored (sg_transb c) (sg_k c) (sg_n c) in
  [{| op_buf := sg_A c; op_rows := ra; op_cols := ca; op_ld := sg_lda c |};
   {| op_buf := sg_B c; op_rows := rb; op_cols := cb; op_ld := sg_ldb c |};
   {| op_buf := sg_C c; op_rows := sg_m c; op_cols := sg_n c; op_ld := sg_ldc c |}].

(** Every operand lies in an allocated buffer of [float]s. *)
Definition fits (alloc : alloc_table) (c : sgemm_call) : bool :=
  forallb (fun o =>
    match alloc !! op_buf o with
    | Some bytes => sizeof_float * footprint (op_rows o) (op_cols o) (op_ld o) <=? bytes
    | None => false
    end) (operands c).

(** ** Lemmas *)

(** Every element the call touches is below the footprint. *)
Lemma col_major_index_bound (rows cols ld i j : Z) :
  rows <= ld -> 0 <= i < rows -> 0 <= j < cols ->
  0 <= col_major_index ld i j < footprint rows cols ld.
Proof.
  intros Hld Hi Hj; unfold footprint, col_major_index.
  destruct (Z.leb_spec rows 0), (Z.leb_spec cols 0); cbn; try lia; nia.
Qed.

Lemma footprint_square (N : Z) : 0 <= N -> footprint N N N = N * N.
Proof.
  intros HN; unfold footprint, col_major_index.
  destruct (Z.leb_spec N 0); cbn; nia.
Qed.

(** The table [setup] leaves (Main.setup_run). *)
Definition setup_table (N : Z) : alloc_table :=
  <[h_C := size_bytes N]> (<[h_B := size_bytes N]> (<[h_A := size_bytes N]> empty)).

(** ** Claims *)

(** C16: The program's multiply is within its buffers, exactly: for every
    [int] dimension [N >= 0] the call of lines 65 and 72 is valid, each of
    its three operands spans [N * N] elements, which is the [size_bytes N]
    bytes [setup] allocates for it, every element it touches has an index
    in that range, and the call fits the table [setup] leaves. *)
Theorem gemm_footprint_exact (N : Z) :
  0 <= N <= INT_MAX ->
  sgemm_valid (gemm_call N) = true /\
  Forall (fun o => footprint (op_rows o) (op_cols o) (op_ld o) = elem_count N /\
                   sizeof_float * elem_count N = size_bytes N /\
                   forall i j, 0 <= i < op_rows o -> 0 <= j < op_cols o ->
                     0 <= col_major_index (op_ld o) i j < elem_count N)
         (operands (gemm_call N)) /\
  fits (setup_table N) (gemm_call N) = true.
Proof.
  intros HN; assert (HN' : INT_MIN < N <= INT_MAX) by (unfold INT_MIN, INT_MAX in *; lia).
  pose proof (elem_count_exact N HN') as He; pose proof (size_bytes_elems N HN') as Hs.
  assert (Hop : forall i j, 0 <= i < N -> 0 <= j < N -> 0 <= col_major_index N i j < elem_count N)
    by (intros i j Hi Hj; rewrite He, <- footprint_square by lia;
        apply col_major_index_bound; lia).
  assert (Hone : footprint N N N = elem_count N /\ sizeof_float * elem_count N = size_bytes N /\
                 forall i j, 0 <= i < N -> 0 <= j < N -> 0 <= col_major_index N i j < elem_count N)
    by (rewrite footprint_square by lia; split; [symmetry; exact He | split; [symmetry; exact Hs | exact Hop]]).
  split; [unfold sgemm_valid; cbn; rewrite (proj2 (Z.leb_le 0 N)) by lia; reflexivity|].
  split; [do 3 (constructor; [exact Hone|]); constructor|].
  unfold fits, setup_table; cbn [operands stored gemm_call sg_transa sg_transb sg_m sg_n sg_k
    sg_A sg_B sg_C sg_lda sg_ldb sg_ldc forallb op_buf op_rows op_cols op_ld].
  rewrite (proj1 Hone), Hs; simplify_map_eq; rewrite !Z.leb_refl; reflexivity.
Qed.

Section Negative.
Context {F : Type} `{Double F}.

(** C18: A negative dimension is not rejected by the program: [atoi]
    accepts it, the three buffers of [(size_t)N * N * 4] bytes are
    allocated and initialised, the warm-up line is printed, and only the
    first multiply fails.  On a runtime whose set-up calls succeed and
    that checks the dimensions as documented, the run exits at line 65
    with [CUBLAS_STATUS_INVALID_VALUE], the three buffers still
    allocated. *)
Theorem main_negative_dimension (sched : Z -> list Z) (fuel : nat) (argv : list string)
        (N d : Z) (e : env) :
  parse_args argv = (N, d) -> INT_MIN < N < 0 ->
  Permutation (sched (elem_count N)) (zseq (elem_count N)) ->
  setup_ok e -> sgemm_lawful e ->
  exists w', main sched fuel argv (initial_world (F := F) e) = Halted (-1) w' /\
    w_trace w' = setup_events e 0 N ++
      [EvPrint MsgWarmup; EvSgemm (gemm_call N) CUBLAS_STATUS_INVALID_VALUE;
       EvPrint (MsgCublasError CUBLAS_STATUS_INVALID_VALUE 65)] /\
    w_alloc w' = setup_table N.
Proof.
  intros Hargs HN Hp Hok Hlaw.
  assert (Hinv : env_sgemm e 7 (gemm_call N) = CUBLAS_STATUS_INVALID_VALUE).
  { apply Hlaw; unfold sgemm_valid; cbn; rewrite (proj2 (Z.leb_gt 0 N)) by lia; reflexivity. }
  eexists; split.
  - unfold main; rewrite Hargs.
    erewrite bind_Done by (apply setup_run; [exact Hok | unfold INT_MAX; lia | exact Hp]).
    apply bind_Halted; unfold warmup; erewrite bind_Done by reflexivity.
    apply bind_Halted, CHECK_CUBLAS_fail; [reflexivity|]; cbn; rewrite Hinv; discriminate.
  - cbn; rewrite Hinv; rewrite <- ?app_assoc; split; reflexivity.
Qed.
End Negative.
End Blas.

(** ** A run with a negative dimension *)
Module BlasExamples.
Import Blas Binary64.
Local Open Scope string_scope.

(** Every set-up call succeeds and the multiply checks its dimensions. *)
Definition e_lawful : env :=
  {| env_device_count := fun _ => (0, 2);
     env_xt_create := fun _ => 0;
     env_device_select := fun _ _ _ => 0;
     env_set_block_dim := fun _ _ => 0;
     env_malloc_host := fun _ _ _ => 0;
     env_sgemm := fun _ c => if sgemm_valid c then 0 else CUBLAS_STATUS_INVALID_VALUE;
     env_sync := fun _ => 0;
     env_clock := seconds_clock |}.

(** [monitor -2 5]: the run exits at line 65, with buffers of 16 bytes. *)
Lemma main_negative_dimension_witness :
  exists w', main zseq 10 ["monitor"; "-2"; "5"] (initial_world (F := binary64) e_lawful) =
             Halted (-1) w' /\
    w_trace w' = (setup_events e_lawful 0 (-2) ++
      [EvPrint MsgWarmup; EvSgemm (gemm_call (-2)) CUBLAS_STATUS_INVALID_VALUE;
       EvPrint (MsgCublasError CUBLAS_STATUS_INVALID_VALUE 65)])%list /\
    w_alloc w' = setup_table (-2).
Proof.
  apply (main_negative_dimension zseq 10 ["monitor"; "-2"; "5"] (-2) 5 e_lawful).
  - vm_compute; reflexivity.
  - unfold INT_MIN; lia.
  - apply Permutation_refl.
  - unfold setup_ok; repeat split; intros; reflexivity.
  - intros k c Hc; cbn; rewrite Hc; reflexivity.
Defined.

Lemma gemm_footprint_exact_witness :
  0 <= 1024 <= INT_MAX /\ fits (setup_table 1024) (gemm_call 1024) = true.
Proof.
  split; [unfold INT_MAX; lia|].
  exact (proj2 (proj2 (gemm_footprint_exact 1024 ltac:(unfold INT_MAX; lia)))).
Defined.
End BlasExamples.
