(* ===== verification/WorldInv.v ===== *)
(** * How a run of [main] stops early

  The process stops before [return 0] only through [exit(EXIT_FAILURE)]
  in the two check macros (lines 12-26).  [failed_check c w] says what
  such a stop looks like: the status is -1 and the trace ends with the
  error message of a [CHECK_CUDA] or [CHECK_CUBLAS] for a nonzero status
  at one of the nine check sites of the source ([check_lines]).  The
  predicate [Prelude.exits_with] lifts it to programs; every runtime
  operation either never calls [exit] or is a check macro, and the
  bind rule composes them, so every exit of [main] is a failed check
  ([main_exits_failed]).  A second invariant, [pristine], says that no
  teardown event ([cublasXtDestroy], [cudaFreeHost]) has happened; every
  part of [main] before [teardown] preserves it, and [teardown] never
  stops the process.  Together: every exit of [main] is a failed check
  whose run did no cleanup ([main_exits_at_check]).

  The dimension is never checked: for any runtime whose set-up calls
  succeed, every dimension the parser returns, zero and negative ones
  included, reaches the allocations, the initialisation and the warm-up
  multiply ([main_dimension_unchecked]). *)

From Stdlib Require Import ZArith Lia List String Permutation.
From stdpp Require Import base gmap.
From S2P Require Import Prelude Double Classify Metrics Config Runtime HostInit Sampling Main.
Import ListNotations Runtime HostInit Sampling Config Main.

Local Open Scope Z_scope.
Local Open Scope monitor_scope.

Module WorldInv.
Section Replay.
Context {F : Type}.

(** The events of the calls that take an index of the environment. *)
Definition is_call (ev : event F) : bool :=
  match ev with
  | EvGetDeviceCount _ _ | EvXtCreate _ | EvDeviceSelect _ _ _ | EvSetBlockDim _ _
  | EvMallocHost _ _ _ | EvSgemm _ _ | EvSync _ => true
  | _ => false
  end.

Definition is_reading (ev : event F) : bool :=
  match ev with EvGetTime _ => true | _ => false end.

Definition is_teardown (ev : event F) : bool :=
  match ev with EvXtDestroy | EvFreeHost _ => true | _ => false end.

(** The effect of one event on the allocation table. *)
Definition alloc_step (a : alloc_table) (ev : event F) : alloc_table :=
  match ev with
  | EvMallocHost b bytes st => if Z.eqb st cudaSuccess then <[b := bytes]> a else a
  | EvFreeHost b => delete b a
  | _ => a
  end.

Definition pristine (w : world F) : Prop :=
  existsb is_teardown (w_trace w) = false.

(** ** The replay of one more event *)



Lemma existsb_snoc (p : event F -> bool) (tr : list (event F)) (ev : event F) :
  existsb p (tr ++ [ev]) = existsb p tr || p ev.
Proof. rewrite existsb_app; cbn; rewrite orb_false_r; reflexivity. Qed.

(** The state after the event [ev], the counters and the table updated
    as the event says, with memory [m]: every step of the program is
    one. *)
Definition after (ev : event F) (w : world F) (m : gmap (hbuf * Z) f32) : world F :=
  {| w_env := w_env w;
     w_calls := if is_call ev then S (w_calls w) else w_calls w;
     w_clock := if is_reading ev then S (w_clock w) else w_clock w;
     w_alloc := alloc_step (w_alloc w) ev; w_mem := m; w_trace := w_trace w ++ [ev] |}.


Lemma pristine_after (ev : event F) (w : world F) (m : gmap (hbuf * Z) f32) :
  pristine w -> is_teardown ev = false -> pristine (after ev w m).
Proof. unfold pristine; cbn [after w_trace]; intros Hp He; rewrite existsb_snoc, Hp, He; reflexivity. Qed.


Lemma pristine_set_mem (m : gmap (hbuf * Z) f32) (w : world F) : pristine w -> pristine (set_mem m w).
Proof. exact id. Qed.
End Replay.

(** ** Preservation by the program

    For an invariant [I] that every permitted event and every store keep,
    each part of [main] keeps [I]; [allowed] says which events [I]
    permits, at least every event other than a teardown. *)
Section Preservation.
Context {F : Type} `{Double F}.
Variables (allowed : event F -> bool) (I : world F -> Prop).
Hypothesis I_after : forall ev w m, I w -> allowed ev = true -> I (after ev w m).
Hypothesis I_mem : forall m w, I w -> I (set_mem m w).
Hypothesis allowed_work : forall ev, is_teardown ev = false -> allowed ev = true.

(** A step that emits one event: its final state is [after ev w]. *)
Ltac op_inv :=
  intros ?w ?Hw;
  cbv [final_state printf omp_set_num_threads cudaGetDeviceCount cublasXtCreate
       cublasXtDeviceSelect cublasXtSetBlockDim cublasXtSgemm cudaDeviceSynchronize
       get_time call emit bump tick];
  cbn [w_env w_calls w_clock w_alloc w_mem w_trace];
  match goal with
  | |- context [(w_trace ?w ++ [?ev])%list] =>
      refine (I_after ev w (w_mem w) Hw _); apply allowed_work; reflexivity
  end.

Lemma printf_inv (m : message F) : preserves I (printf m).
Proof. op_inv. Qed.
Lemma omp_set_num_threads_inv (n : Z) : preserves I (omp_set_num_threads (F:=F) n).
Proof. op_inv. Qed.
Lemma cudaGetDeviceCount_inv : preserves I (cudaGetDeviceCount (F:=F)).
Proof. op_inv. Qed.
Lemma cublasXtCreate_inv : preserves I (cublasXtCreate (F:=F)).
Proof. op_inv. Qed.
Lemma cublasXtDeviceSelect_inv (n : Z) (devices : list Z) :
  preserves I (cublasXtDeviceSelect (F:=F) n devices).
Proof. op_inv. Qed.
Lemma cublasXtSetBlockDim_inv (dim : Z) : preserves I (cublasXtSetBlockDim (F:=F) dim).
Proof. op_inv. Qed.
Lemma cublasXtSgemm_inv (c : sgemm_call) : preserves I (cublasXtSgemm (F:=F) c).
Proof. op_inv. Qed.
Lemma cudaDeviceSynchronize_inv : preserves I (cudaDeviceSynchronize (F:=F)).
Proof. op_inv. Qed.
Lemma get_time_keeps : preserves I (get_time (F:=F)).
Proof. op_inv. Qed.

(** [cudaMallocHost] enters the buffer exactly when its event says so. *)
Lemma cudaMallocHost_after (b : hbuf) (bytes : Z) (w : world F) :
  final_state (cudaMallocHost b bytes w) =
  after (EvMallocHost b bytes (env_malloc_host (w_env w) (w_calls w) b bytes)) w (w_mem w).
Proof.
  cbv [cudaMallocHost bind call ret after emit bump set_alloc final_state alloc_step];
  cbn [w_env w_calls w_clock w_alloc w_mem w_trace is_call is_reading].
  destruct (Z.eqb _ _); reflexivity.
Qed.

Lemma cudaMallocHost_inv (b : hbuf) (bytes : Z) : preserves I (cudaMallocHost (F:=F) b bytes).
Proof. intros w Hw; rewrite cudaMallocHost_after; apply I_after; [exact Hw | apply allowed_work; reflexivity]. Qed.

Lemma cudaFreeHost_inv (b : hbuf) : allowed (EvFreeHost b) = true -> preserves I (cudaFreeHost (F:=F) b).
Proof. intros Ha w Hw; exact (I_after (EvFreeHost b) w (w_mem w) Hw Ha). Qed.

Lemma cublasXtDestroy_inv : allowed EvXtDestroy = true -> preserves I (cublasXtDestroy (F:=F)).
Proof. intros Ha w Hw; exact (I_after EvXtDestroy w (w_mem w) Hw Ha). Qed.

Lemma store_inv (b : hbuf) (i : Z) (v : f32) : preserves I (store (F:=F) b i v).
Proof.
  intros w Hw; unfold store; destruct (w_alloc w !! b); [destruct (_ && _)|]; cbn; auto.
Qed.

#[local] Hint Resolve printf_inv omp_set_num_threads_inv cudaGetDeviceCount_inv
  cublasXtCreate_inv cublasXtDeviceSelect_inv cublasXtSetBlockDim_inv cublasXtSgemm_inv
  cudaDeviceSynchronize_inv get_time_keeps cudaMallocHost_inv store_inv : monitor.

Lemma CHECK_CUDA_inv (line : Z) (func : prog (world F) Z) :
  preserves I func -> preserves I (CHECK_CUDA line func).
Proof. intros Hf; unfold CHECK_CUDA; preserve_step. Qed.

Lemma CHECK_CUBLAS_inv (line : Z) (func : prog (world F) Z) :
  preserves I func -> preserves I (CHECK_CUBLAS line func).
Proof. intros Hf; unfold CHECK_CUBLAS; preserve_step. Qed.

#[local] Hint Resolve CHECK_CUDA_inv CHECK_CUBLAS_inv : monitor.

Lemma init_loop_inv (order : list Z) : preserves I (init_loop (F:=F) order).
Proof. induction order as [|i order IH]; cbn [init_loop]; preserve_step. Qed.

Lemma setup_inv (sched : Z -> list Z) (N : Z) : preserves I (setup sched N).
Proof. unfold setup, host_init; preserve_step; apply init_loop_inv. Qed.

Lemma sampling_inv (fuel : nat) (N duration : Z) : preserves I (sampling (F:=F) fuel N duration).
Proof.
  unfold sampling; preserve_step; generalize (@nil F).
  induction fuel as [|fuel IH]; intros lat; cbn [sample_loop]; unfold loop_body; preserve_step.
Qed.

Lemma warmup_inv (N : Z) : preserves I (warmup (F:=F) N).
Proof. unfold warmup; preserve_step. Qed.

Lemma print_report_inv (N num_devices : Z) (latencies : list F) :
  preserves I (print_report N num_devices latencies).
Proof. apply printf_inv. Qed.

Lemma teardown_inv :
  allowed EvXtDestroy = true -> (forall b, allowed (EvFreeHost b) = true) ->
  preserves I (teardown (F:=F)).
Proof.
  intros Hd Hf; unfold teardown.
  apply preserves_bind; [apply cublasXtDestroy_inv, Hd|intros _].
  repeat (apply preserves_bind; [apply cudaFreeHost_inv, Hf|intros _]); apply preserves_ret.
Qed.

Lemma main_inv (sched : Z -> list Z) (fuel : nat) (argv : list string) :
  allowed EvXtDestroy = true -> (forall b, allowed (EvFreeHost b) = true) ->
  preserves I (main sched fuel argv).
Proof.
  intros Hd Hf; unfold main; destruct (parse_args argv) as [N d].
  apply preserves_bind; [apply setup_inv|intros nd].
  apply preserves_bind; [apply warmup_inv|intros _].
  apply preserves_bind; [apply sampling_inv|intros lat].
  apply preserves_bind; [apply print_report_inv|intros _].
  apply teardown_inv; assumption.
Qed.

(** [teardown] always returns, so [main] stops the process only in the
    part before it. *)
Lemma main_exits_in (sched : Z -> list Z) (fuel : nat) (argv : list string) :
  exits_in I (main sched fuel argv).
Proof.
  unfold main; destruct (parse_args argv) as [N d].
  apply exits_in_bind; [apply setup_inv|intros nd].
  apply exits_in_bind; [apply warmup_inv|intros _].
  apply exits_in_bind; [apply sampling_inv|intros lat].
  apply exits_in_bind; [apply print_report_inv|intros _].
  apply exits_in_returns; intros s; eexists _, _; reflexivity.
Qed.
End Preservation.

(** ** Where the process stops

    [failed_check c w]: the status is -1 and the last event is the message
    of a check macro at one of the check sites of the code, with a status
    other than success. *)
Definition check_lines : list Z := [43; 48; 49; 50; 54; 55; 56; 65; 72].

Section Exits.
Context {F : Type} `{Double F}.

Definition failed_check (c : Z) (w : world F) : Prop :=
  c = -1 /\ exists pre st line, st <> 0 /\ In line check_lines /\
    (w_trace w = pre ++ [EvPrint (MsgCudaError st line)] \/
     w_trace w = pre ++ [EvPrint (MsgCublasError st line)]).

(** The steps that never stop the process. *)
Ltac never := apply exits_with_never; intros ? ? ?; discriminate.

Lemma printf_exits Q (m : message F) : exits_with Q (printf m).
Proof. never. Qed.
Lemma omp_set_num_threads_exits Q (n : Z) : exits_with Q (omp_set_num_threads (F:=F) n).
Proof. never. Qed.
Lemma cudaGetDeviceCount_exits Q : exits_with Q (cudaGetDeviceCount (F:=F)).
Proof. never. Qed.
Lemma cudaDeviceSynchronize_exits Q : exits_with Q (cudaDeviceSynchronize (F:=F)).
Proof. never. Qed.
Lemma get_time_exits Q : exits_with Q (get_time (F:=F)).
Proof. never. Qed.
Lemma teardown_exits Q : exits_with Q (teardown (F:=F)).
Proof. never. Qed.

Lemma store_exits Q (b : hbuf) (i : Z) (v : f32) : exits_with Q (store (F:=F) b i v).
Proof.
  apply exits_with_never; intros w c w'; unfold store.
  destruct (w_alloc w !! b); [destruct (_ && _)|]; discriminate.
Qed.

Lemma cudaMallocHost_never (b : hbuf) (bytes : Z) (w : world F) c w' :
  cudaMallocHost b bytes w <> Halted c w'.
Proof. unfold cudaMallocHost, bind, call; destruct (Z.eqb _ _); discriminate. Qed.

(** A check stops the process only when the call it checks failed. *)
Lemma CHECK_CUDA_exits (line : Z) (func : prog (world F) Z) :
  In line check_lines -> (forall w c w', func w <> Halted c w') ->
  exits_with failed_check (CHECK_CUDA line func).
Proof.
  intros Hl Hf w c w'; unfold CHECK_CUDA, bind.
  destruct (func w) as [st w1|c1 w1|w1|w1] eqn:E; [| destruct (Hf w c1 w1 E) | discriminate..].
  destruct (negb (Z.eqb st cudaSuccess)) eqn:Hs; [|discriminate].
  cbv [printf halt]; intros Hh; injection Hh as <- <-; split; [reflexivity|].
  exists (w_trace w1), st, line; apply negb_true_iff, Z.eqb_neq in Hs; auto.
Qed.

Lemma CHECK_CUBLAS_exits (line : Z) (func : prog (world F) Z) :
  In line check_lines -> (forall w c w', func w <> Halted c w') ->
  exits_with failed_check (CHECK_CUBLAS line func).
Proof.
  intros Hl Hf w c w'; unfold CHECK_CUBLAS, bind.
  destruct (func w) as [st w1|c1 w1|w1|w1] eqn:E; [| destruct (Hf w c1 w1 E) | discriminate..].
  destruct (negb (Z.eqb st CUBLAS_STATUS_SUCCESS)) eqn:Hs; [|discriminate].
  cbv [printf halt]; intros Hh; injection Hh as <- <-; split; [reflexivity|].
  exists (w_trace w1), st, line; apply negb_true_iff, Z.eqb_neq in Hs; auto.
Qed.

#[local] Hint Resolve printf_exits omp_set_num_threads_exits cudaGetDeviceCount_exits
  cudaDeviceSynchronize_exits get_time_exits teardown_exits store_exits
  CHECK_CUDA_exits CHECK_CUBLAS_exits cudaMallocHost_never : monitor.
#[local] Hint Extern 1 (In _ check_lines) => cbn; tauto : monitor.
#[local] Hint Extern 1 (forall w c w', _ <> Halted c w') => intros ? ? ?; discriminate : monitor.

Lemma init_loop_exits (order : list Z) : exits_with failed_check (init_loop (F:=F) order).
Proof. induction order as [|i order IH]; cbn [init_loop]; exit_step. Qed.

#[local] Hint Resolve init_loop_exits : monitor.

Lemma main_exits_failed (sched : Z -> list Z) (fuel : nat) (argv : list string) :
  exits_with failed_check (main (F:=F) sched fuel argv).
Proof.
  unfold main; destruct (parse_args argv) as [N d].
  apply exits_with_bind; [unfold setup, host_init; exit_step|intros nd].
  apply exits_with_bind; [unfold warmup; exit_step|intros _].
  apply exits_with_bind; [|intros lat; unfold print_report; exit_step].
  unfold sampling; exit_step; generalize (@nil F).
  induction fuel as [|fuel IH]; intros lat; cbn [sample_loop]; unfold loop_body; exit_step.
Qed.
End Exits.

Section Claims.
Context {F : Type} `{Double F}.

Lemma pristine_initial (e : env) : pristine (initial_world (F:=F) e).
Proof. reflexivity. Qed.

Lemma main_pristine_exit (sched : Z -> list Z) (fuel : nat) (argv : list string) :
  exits_in pristine (main (F:=F) sched fuel argv).
Proof.
  apply (main_exits_in (fun ev => negb (is_teardown ev))).
  - intros ev w m Hw Ha; apply pristine_after; [exact Hw | destruct (is_teardown ev); easy].
  - exact pristine_set_mem.
  - intros ev ->; reflexivity.
Qed.

(** The trace of a state begins with [P]. *)
Definition extends (P : list (event F)) (w : world F) : Prop := exists l, w_trace w = P ++ l.

(** What [main] runs after the warm-up keeps every prefix of the trace. *)
Lemma after_warmup_extends (P : list (event F)) (fuel : nat) (N d nd : Z) :
  preserves (extends P)
    (latencies <- sampling fuel N d ;; print_report N nd latencies ;;; teardown).
Proof.
  assert (Ha : forall ev w m, extends P w -> (fun _ => true) ev = true -> extends P (after ev w m))
    by (intros ev w m [l Hl] _; exists (l ++ [ev]); cbn [after w_trace]; rewrite Hl, app_assoc;
        reflexivity).
  assert (Hm : forall m w, extends P w -> extends P (set_mem m w)) by (intros m w Hw; exact Hw).
  apply preserves_bind; [apply (sampling_inv (fun _ => true)); auto|intros lat].
  apply preserves_bind; [apply (print_report_inv (fun _ => true)); auto|intros _].
  apply (teardown_inv (fun _ => true)); auto.
Qed.

(** C13: Every exit of the program is the [exit(-1)] of a check macro
    whose call failed, before any cleanup: whatever the runtime answers,
    when [main] stops the process its status is -1, its last output is
    the message of [CHECK_CUDA] or [CHECK_CUBLAS] with a status other
    than success and the line of one of the nine checks of the code, and
    it has called neither [cublasXtDestroy] nor [cudaFreeHost]. *)
Theorem main_exits_at_check (sched : Z -> list Z) (fuel : nat) (argv : list string)
        (e : env) (c : Z) (w' : world F) :
  main sched fuel argv (initial_world e) = Halted c w' ->
  failed_check c w' /\ existsb is_teardown (w_trace w') = false.
Proof.
  intros Hrun; split.
  - exact (main_exits_failed sched fuel argv _ c w' Hrun).
  - exact (main_pristine_exit sched fuel argv _ c w' (pristine_initial e) Hrun).
Qed.

(** C14: The dimension is never checked: for every [int] dimension but
    [INT_MIN] -- zero and the zero [atoi] gives for a text that is not a
    number included -- on every runtime whose set-up calls succeed, the run
    allocates and initialises the three buffers, prints the warm-up line
    and calls [cublasXtSgemm] with that dimension before anything else can
    happen, where the specification requires an invalid dimension to be
    refused before any device call. *)
Theorem main_dimension_unchecked (sched : Z -> list Z) (fuel : nat) (argv : list string)
        (N d : Z) (e : env) :
  parse_args argv = (N, d) -> INT_MIN < N ->
  Permutation (sched (elem_count N)) (zseq (elem_count N)) -> setup_ok e ->
  exists rest, w_trace (final_state (main sched fuel argv (initial_world (F := F) e))) =
    setup_events e 0 N ++ EvPrint MsgWarmup :: EvSgemm (gemm_call N) (env_sgemm e 7 (gemm_call N))
      :: rest.
Proof.
  intros Hargs HN Hp Hok.
  destruct (parse_args_range argv) as [HR _]; rewrite Hargs in HR; cbn [fst] in HR.
  set (P := setup_events (F := F) e 0 N ++ [EvPrint MsgWarmup; EvSgemm (gemm_call N) (env_sgemm e 7 (gemm_call N))]).
  enough (Hx : extends P (final_state (main sched fuel argv (initial_world (F := F) e))))
    by (destruct Hx as [l Hl]; exists l; rewrite Hl; unfold P; rewrite <- ?app_assoc; reflexivity).
  unfold main; rewrite Hargs.
  erewrite bind_Done by (apply setup_run; [exact Hok | lia | exact Hp]).
  destruct (Z.eq_dec (env_sgemm e 7 (gemm_call N)) CUBLAS_STATUS_SUCCESS) as [Hs|Hs].
  - erewrite bind_Done by (apply warmup_run; exact Hs).
    apply after_warmup_extends; exists [EvSync (env_sync e 8)]; unfold P; rewrite Hs.
    cbn [w_trace initial_world]; rewrite <- ?app_assoc; reflexivity.
  - erewrite bind_Halted
      by (unfold warmup; erewrite bind_Done by reflexivity;
          apply bind_Halted, CHECK_CUBLAS_fail; [reflexivity | exact Hs]).
    exists [EvPrint (MsgCublasError (env_sgemm e 7 (gemm_call N)) 65)]; unfold P.
    cbn; rewrite <- ?app_assoc; reflexivity.
Qed.
End Claims.
End WorldInv.

(** ** Runs that exit, and a dimension that is not a number *)
Module WorldInvExamples.
Import WorldInv Binary64.
Local Open Scope string_scope.

(** Every call succeeds but the allocation of [h_C]. *)
Definition e_leak : env :=
  {| env_device_count := fun _ => (0, 2);
     env_xt_create := fun _ => 0;
     env_device_select := fun _ _ _ => 0;
     env_set_block_dim := fun _ _ => 0;
     env_malloc_host := fun _ b _ => match b with h_C => 2 | _ => 0 end;
     env_sgemm := fun _ _ => 0;
     env_sync := fun _ => 0;
     env_clock := seconds_clock |}.

Definition leak_run : outcome (world binary64) Z :=
  main zseq 10 ["monitor"; "2"; "5"] (initial_world e_leak).

(** The run exits at the check of line 56 with status 2, [h_A] and [h_B]
    still allocated. *)
Lemma main_exits_at_check_witness :
  main zseq 10 ["monitor"; "2"; "5"] (initial_world e_leak) = Halted (-1) (final_state leak_run) /\
  (failed_check (-1) (final_state leak_run) /\
   existsb is_teardown (w_trace (final_state leak_run)) = false) /\
  (last (w_trace (final_state leak_run)) = Some (EvPrint (MsgCudaError 2 56)) /\
   w_alloc (final_state leak_run) !! h_A = Some 16 /\ w_alloc (final_state leak_run) !! h_C = None).
Proof.
  assert (Hrun : main zseq 10 ["monitor"; "2"; "5"] (initial_world e_leak) =
                 Halted (-1) (final_state leak_run)) by (vm_compute; reflexivity).
  split; [exact Hrun|]; split.
  - exact (main_exits_at_check zseq 10 ["monitor"; "2"; "5"] e_leak (-1) _ Hrun).
  - vm_compute; repeat split.
Defined.

(** [monitor abc]: [atoi] reads 0 and the run still calls the library. *)
Lemma main_dimension_unchecked_witness :
  parse_args ["monitor"; "abc"] = (0, 10) /\
  exists rest, w_trace (final_state (main zseq 10 ["monitor"; "abc"]
                                       (initial_world (F := binary64) (demo_env 2 seconds_clock)))) =
    (setup_events (demo_env 2 seconds_clock) 0 0 ++ EvPrint MsgWarmup ::
      EvSgemm (gemm_call 0) (env_sgemm (demo_env 2 seconds_clock) 7 (gemm_call 0)) :: rest)%list.
Proof.
  split; [vm_compute; reflexivity|].
  apply (main_dimension_unchecked zseq 10 ["monitor"; "abc"] 0 10 (demo_env 2 seconds_clock)).
  - vm_compute; reflexivity.
  - unfold INT_MIN; lia.
  - apply Permutation_refl.
  - exact (proj1 (MainExamples.demo_env_ok 2 seconds_clock)).
Defined.
End WorldInvExamples.
