(* ===== verification/Report.v ===== *)
(** * The text the program prints (lines 15, 23, 64, 90-113)

  The program's output is its [printf] calls.  [report_calls r] is the
  sequence of calls of lines 90-113 for the values of the report [r], each
  with the format string of the source, byte for byte, and its arguments;
  the branch of lines 108-112 is taken on the diagnosis, which is
  [utilization > 85.0] ([Classifier.diagnose]).  [message_text] gives the
  text of every message the program prints: the two error messages of
  the check macros (lines 15 and 23), the warm-up line (line 64) and the
  report.  [stdout] is the text of a whole trace.

  Two inputs of the error messages are not the program's: [__FILE__],
  the path the compiler was given, is the parameter [file], and
  [cudaGetErrorString] the parameter [err_string].

  The theorems: every [printf] of the program passes arguments of the
  types its format expects, so none is undefined ([printf_well_typed]);
  a successful run prints exactly the warm-up line and the report calls
  ([main_stdout]); and line 96 prints the time per calculation
  correctly rounded to four decimals ([report_time_rounds], from
  [Printf.fmt_f_rounds] and [Printf.fixed_text_reads_back]). *)

From Stdlib Require Import ZArith Lia List String Ascii Permutation.
From Stdlib Require Import Floats.SpecFloat.
From stdpp Require Import base gmap.
From S2P Require Import Prelude Double Classify Metrics Config Printf Runtime HostInit Sampling Main.
Import ListNotations Runtime HostInit Sampling Metrics Classifier Config Printf Main Binary64.

Local Open Scope Z_scope.
Local Open Scope string_scope.
Local Open Scope monitor_scope.

Module Report.

(** Consecutive outputs; an undefined call makes the whole output undefined. *)
Definition ocat (a b : option (list ascii)) : option (list ascii) :=
  match a, b with Some x, Some y => Some (x ++ y)%list | _, _ => None end.

(** A sequence of [printf] calls. *)
Definition printfs (calls : list (string * list arg)) : option (list ascii) :=
  fold_right (fun c acc => ocat (printf_text (fst c) (snd c)) acc) (Some []) calls.

(** The rule printed by lines 92, 94 and 104: sixty dashes and a newline. *)
Definition rule_line : string :=
  "----------" ++ "----------" ++ "----------" ++ "----------" ++ "----------" ++
  "----------" ++ "\n".

(** Lines 90-113. *)
Definition report_calls (r : report binary64) : list (string * list arg) :=
  [("\n==================== 📊 节点性能验收报告 ====================\n", []);
   ("任务规模 : %d x %d (单精度 FP32)\n", [ArgInt (rep_N r); ArgInt (rep_N r)]);
   (rule_line, []);
   ("GPU卡数 : %d GPUs\n", [ArgInt (rep_num_devices r)]);
   (rule_line, []);
   ("⏱️  单次计算耗时 : \033[1;33m%.4f s\033[0m\n", [ArgDouble (rep_time_per_calc r)]);
   ("📈 数据吞吐量   : \033[1;36m%.2f GB/s\033[0m\n", [ArgDouble (rep_throughput_gbs r)]);
   ("🔗 总线利用率   : %.1f%% (相对于单路 PCIe 4.0 极限)\n", [ArgDouble (rep_utilization r)]);
   ("🔥 核心总算力   : \033[1;32m%.2f TFLOPS\033[0m\n", [ArgDouble (rep_compute_tflops r)]);
   (rule_line, []);
   ("⚖️  瓶颈诊断     : ", []);
   match rep_diagnosis r with
   | IO_Bound => ("\033[1;31m总线受限 (I/O Bound)\033[0m\n", [])
   | Compute_Bound => ("\033[1;34m计算受限 (Compute Bound)\033[0m\n", [])
   end;
   ("============================================================\n", [])].

Definition report_text (r : report binary64) : option (list ascii) :=
  printfs (report_calls r).

(** Lines 15, 23, 64 and 90-113: the text of each message. *)
Definition message_text (file : list ascii) (err_string : Z -> list ascii)
           (m : message binary64) : option (list ascii) :=
  match m with
  | MsgCudaError status line =>
      printf_text "❌ CUDA 错误: %s (%s:%d)\n" [ArgStr (err_string status); ArgStr file; ArgInt line]
  | MsgCublasError status line =>
      printf_text "❌ cuBLAS 错误: %d (%s:%d)\n" [ArgInt status; ArgStr file; ArgInt line]
  | MsgWarmup => printf_text "🚀 硬件预热中...\n" []
  | MsgReport r => report_text r
  end.

(** The standard output of a trace. *)
Definition event_text (file : list ascii) (err_string : Z -> list ascii)
           (ev : event binary64) : option (list ascii) :=
  match ev with EvPrint m => message_text file err_string m | _ => Some [] end.

Definition stdout (file : list ascii) (err_string : Z -> list ascii)
           (tr : list (event binary64)) : option (list ascii) :=
  fold_right (fun ev acc => ocat (event_text file err_string ev) acc) (Some []) tr.

(** ** Laws of consecutive output *)

Lemma ocat_nil_l (a : option (list ascii)) : ocat (Some []) a = a.
Proof. destruct a; reflexivity. Qed.

Lemma ocat_nil_r (a : option (list ascii)) : ocat a (Some []) = a.
Proof. destruct a; cbn; rewrite ?app_nil_r; reflexivity. Qed.

Lemma ocat_assoc (a b c : option (list ascii)) : ocat a (ocat b c) = ocat (ocat a b) c.
Proof. destruct a, b, c; cbn; rewrite ?app_assoc; reflexivity. Qed.

Lemma stdout_app (file : list ascii) (err_string : Z -> list ascii) (l1 l2 : list (event binary64)) :
  stdout file err_string (l1 ++ l2) = ocat (stdout file err_string l1) (stdout file err_string l2).
Proof.
  induction l1 as [|ev l1 IH]; cbn [app fold_right stdout]; [rewrite ocat_nil_l; reflexivity|].
  unfold stdout in *; rewrite IH, ocat_assoc; reflexivity.
Qed.

(** The timed rounds print nothing. *)
Lemma stdout_rounds (file : list ascii) (err_string : Z -> list ascii) (e : env) (N : Z)
      (f g : nat -> nat) (l : list nat) :
  stdout file err_string (flat_map (fun j => iteration_events e N (f j) (g j)) l) = Some [].
Proof.
  induction l as [|j l IH]; [reflexivity|].
  cbn [flat_map]; rewrite stdout_app, IH; reflexivity.
Qed.

Lemma not_none {A} (o : option A) : is_none o = false -> o <> None.
Proof. destruct o; [discriminate | intros H; discriminate H]. Qed.

Lemma is_none_ocat (a b : option (list ascii)) : is_none (ocat a b) = is_none a || is_none b.
Proof. destruct a, b; reflexivity. Qed.

(** Whether a sequence of calls is defined depends on the formats and the
    kinds of the arguments only. *)
Lemma printfs_kinds (calls calls' : list (string * list arg)) :
  Forall2 (fun c c' => fst c = fst c' /\ Forall2 same_kind (snd c) (snd c')) calls calls' ->
  is_none (printfs calls) = is_none (printfs calls').
Proof.
  induction 1 as [|[lit args] [lit' args'] calls calls' [Hl Hk] _ IH]; [reflexivity|].
  cbn [printfs fold_right fst snd] in *; subst lit'.
  rewrite !is_none_ocat, (printf_kinds lit args args' Hk); unfold printfs in IH; rewrite IH.
  reflexivity.
Qed.

(** Consecutive call sequences print consecutively. *)
Lemma printfs_app (l1 l2 : list (string * list arg)) :
  printfs (l1 ++ l2) = ocat (printfs l1) (printfs l2).
Proof.
  induction l1 as [|c l1 IH]; [symmetry; apply ocat_nil_l|].
  cbn [app]; unfold printfs in *; cbn [fold_right]; rewrite IH, ocat_assoc; reflexivity.
Qed.

(** Line 96 between the lines before and after it. *)
Lemma report_calls_split (r : report binary64) :
  report_calls r = (firstn 5 (report_calls r) ++
    ("⏱️  单次计算耗时 : \033[1;33m%.4f s\033[0m\n", [ArgDouble (rep_time_per_calc r)])
    :: skipn 6 (report_calls r))%list.
Proof. reflexivity. Qed.

(** An integer nearest to a non-negative ratio is non-negative. *)
Lemma rounded_nonneg (a b q : Z) : 0 <= a -> 0 < b -> 2 * Z.abs (a - q * b) <= b -> 0 <= q.
Proof. intros Ha Hb H; destruct (Z.neg_nonneg_cases q) as [Hq|]; [|assumption]; nia. Qed.

(** The report of a given diagnosis with every value zero. *)
Definition report0 (b : bottleneck) : report binary64 :=
  {| rep_N := 0; rep_num_devices := 0; rep_time_per_calc := dofZ 0;
     rep_throughput_gbs := dofZ 0; rep_utilization := dofZ 0; rep_compute_tflops := dofZ 0;
     rep_diagnosis := b |}.

(** C10: Every [printf] of the program is well typed: whatever the
    values, each conversion of its format ([%d], [%s], [%.Nf], [%%]) finds
    an argument of the type it expects, so no message the program prints
    is undefined behaviour. *)
Theorem printf_well_typed (file : list ascii) (err_string : Z -> list ascii) (m : message binary64) :
  message_text file err_string m <> None.
Proof.
  apply not_none; destruct m as [st line|st line| |r]; cbn [message_text].
  - rewrite (printf_kinds _ _ [ArgStr []; ArgStr []; ArgInt 0]) by repeat constructor.
    vm_compute; reflexivity.
  - rewrite (printf_kinds _ _ [ArgInt 0; ArgStr []; ArgInt 0]) by repeat constructor.
    vm_compute; reflexivity.
  - vm_compute; reflexivity.
  - unfold report_text; rewrite (printfs_kinds _ (report_calls (report0 (rep_diagnosis r)))).
    + destruct (rep_diagnosis r); vm_compute; reflexivity.
    + unfold report_calls; cbn [rep_diagnosis report0].
      destruct (rep_diagnosis r); repeat constructor.
Qed.

(** C4: The output of a successful run: on a runtime whose checked calls
    succeed and with [k] passing deadline tests, [main] prints exactly the
    warm-up line of line 64 followed by the calls of lines 90-113 for the
    report of the [k] samples, and nothing else (the error messages never
    appear). *)
Theorem main_stdout (file : list ascii) (err_string : Z -> list ascii) (sched : Z -> list Z)
        (fuel : nat) (argv : list string) (N d : Z) (k : nat) (e : env) :
  parse_args argv = (N, d) -> N <> INT_MIN ->
  Permutation (sched (elem_count N)) (zseq (elem_count N)) ->
  runtime_ok e ->
  (forall j, (j < k)%nat -> check_passes e (reading e 0) d (1 + 3 * j) = true) ->
  check_passes e (reading e 0) d (1 + 3 * k) = false ->
  (k < fuel)%nat ->
  exists w', main sched fuel argv (initial_world (F := binary64) e) = Done 0 w' /\
    stdout file err_string (w_trace w') =
    printfs (("🚀 硬件预热中...\n", []) :: report_calls (make_report N (snd (env_device_count e 0)) (loop_samples e 1 k))).
Proof.
  intros Hargs HN Hp Hok Hpass Hstop Hfuel.
  destruct (main_run sched fuel argv N d k (initial_world e) Hargs HN Hp Hok Hpass Hstop Hfuel)
    as (w' & Hrun & _ & _ & _ & Htr).
  exists w'; split; [exact Hrun|].
  rewrite Htr; unfold run_events; cbn [w_trace w_calls w_clock w_env initial_world]; rewrite app_nil_l.
  rewrite !stdout_app, stdout_rounds.
  cbn [printfs fold_right fst snd]; fold (printfs (report_calls (make_report N (snd (env_device_count e 0)) (loop_samples e 1 k)))).
  change (printfs (report_calls ?r)) with (report_text r).
  cbn [stdout fold_right event_text message_text setup_events]; rewrite !ocat_nil_l, !ocat_nil_r.
  reflexivity.
Qed.

(** C11: Line 96 prints the time per calculation correctly rounded: for a
    finite value [(-1)^s * m * 2^e], the text between the lines before
    and after it is the literal, the sign, integer digits, a point and
    exactly four decimals, and the integer [q] those digits read is the
    nearest to [m * 2^e * 10^4], ties to even. *)
Theorem report_time_rounds (r : report binary64) (s : bool) (m : positive) (e : Z) :
  rep_time_per_calc r = S754_finite s m e ->
  let a := Zpos m * 10 ^ 4 * 2 ^ Z.max e 0 in
  let b := 2 ^ Z.max (- e) 0 in
  exists q ip fp,
    report_text r =
      ocat (printfs (firstn 5 (report_calls r)))
        (ocat (Some (c_lit "⏱️  单次计算耗时 : \033[1;33m" ++ sign_text s ++ ip ++ "."%char :: fp
                     ++ c_lit " s\033[0m\n"))%list
              (printfs (skipn 6 (report_calls r)))) /\
    List.length fp = 4%nat /\ Forall is_digit (ip ++ fp) /\ digits_value (ip ++ fp) 0 = q /\
    2 * Z.abs (a - q * b) <= b /\ (2 * Z.abs (a - q * b) = b -> Z.even q = true).
Proof.
  intros Ht; cbv zeta.
  destruct (fmt_f_rounds 4 s m e) as (q & Hf & Hr & Ht2); cbv zeta in Hr, Ht2; change (Z.of_nat 4) with 4 in Hr, Ht2.
  assert (Hq : 0 <= q).
  { refine (rounded_nonneg _ _ q _ _ Hr); [|apply Z.pow_pos_nonneg; lia].
    repeat apply Z.mul_nonneg_nonneg; try apply Z.pow_nonneg; lia. }
  destruct (fixed_text_reads_back q 4 Hq) as (ip & fp & Hft & Hlen & Hd & Hv); [lia|].
  exists q, ip, fp; split; [|auto].
  unfold report_text; rewrite report_calls_split at 1; rewrite printfs_app.
  cbn [printfs fold_right fst snd]; fold (printfs (skipn 6 (report_calls r))).
  change (printf_text _ _) with
    (Some (c_lit "⏱️  单次计算耗时 : \033[1;33m" ++ fmt_f 4 (rep_time_per_calc r) ++ c_lit " s\033[0m\n"))%list.
  rewrite Ht, Hf, Hft, <- !app_assoc; reflexivity.
Qed.




End Report.

Module ReportExamples.
Import Report.

(** "monitor 2 5" on two devices with a one-second clock: two rounds. *)
Lemma main_stdout_witness :
  exists w', main zseq 50 ["monitor"; "2"; "5"] (initial_world (F := binary64) (demo_env 2 seconds_clock)) = Done 0 w' /\
    stdout (list_ascii_of_string "multi_gpu_gemm.cpp") (fun _ => []) (w_trace w') =
    printfs (("🚀 硬件预热中...\n", []) ::
             report_calls (make_report 2 (snd (env_device_count (demo_env 2 seconds_clock) 0))
                                       (loop_samples (demo_env 2 seconds_clock) 1 2))).
Proof.
  apply (main_stdout _ _ zseq 50 ["monitor"; "2"; "5"] 2 5 2 (demo_env 2 seconds_clock)).
  - vm_compute; reflexivity.
  - unfold INT_MIN; lia.
  - reflexivity.
  - apply MainExamples.demo_env_ok.
  - intros j Hj; destruct j as [|[|j]]; [vm_compute; reflexivity | vm_compute; reflexivity | lia].
  - vm_compute; reflexivity.
  - lia.
Defined.
(** The report of four samples of 0.01 s at [N = 1024] on two devices. *)
Definition scenario1_report : report binary64 :=
  make_report 1024 2 (repeat (dlit 1 100) 4).

Lemma report_time_rounds_witness :
  rep_time_per_calc scenario1_report = S754_finite false 5764607523034235 (-59) /\
  let a := Zpos 5764607523034235 * 10 ^ 4 * 2 ^ Z.max (-59) 0 in
  let b := 2 ^ Z.max (- (-59)) 0 in
  exists q ip fp,
    report_text scenario1_report =
      ocat (printfs (firstn 5 (report_calls scenario1_report)))
        (ocat (Some (c_lit "⏱️  单次计算耗时 : \033[1;33m" ++ sign_text false ++ ip ++ "."%char :: fp
                     ++ c_lit " s\033[0m\n"))%list
              (printfs (skipn 6 (report_calls scenario1_report)))) /\
    List.length fp = 4%nat /\ Forall is_digit (ip ++ fp) /\ digits_value (ip ++ fp) 0 = q /\
    2 * Z.abs (a - q * b) <= b /\ (2 * Z.abs (a - q * b) = b -> Z.even q = true).
Proof.
  assert (Ht : rep_time_per_calc scenario1_report = S754_finite false 5764607523034235 (-59))
    by (vm_compute; reflexivity).
  split; [exact Ht | exact (report_time_rounds scenario1_report false 5764607523034235 (-59) Ht)].
Defined.

End ReportExamples.
